(** * Bulk account provisioning: the job state machine of [bot.py]

    A shallow embedding of the bulk-add workflow of [src/bot.py]
    (the [bulk_account_...] / [start_bulk_add] / [pause_bulk] / [resume_bulk] /
    [skip_bulk_number] / [cancel_bulk] branches of [handle_callbacks] and the
    functions between [handle_cancel_bulk] and [show_bulk_summary]) together
    with the result shapes of the [AccountManager.bulk_*_sync] wrappers of
    [src/account.py].

    Modelling conventions.
    - [bulk_add_states] is a [gmap] from user ids to job records.  Every
      handler reads and writes only the entry of the calling user, so the
      handlers are written on that entry ([option BulkState], [None] meaning
      the key is absent or has been deleted) and [dispatch] does the lookup
      and the write-back.
    - Text is a [string] whose characters stand for the code points 0..255;
      [strip], [lower], [isdigit] and the regular expression follow Python's
      [str] semantics on that range.
    - Counters are [nat]: the source only ever sets them to 0 or adds 1.
    - The account manager is an abstract record of functions over an
      environment [W]; every invocation is also appended to a call log, and
      every message sent to the chat to an outbox.  Telegram calls are
      assumed not to raise.
    - The keys [mode], [chat_id] and [message_id] only route UI messages and
      are left out.

    Beyond the job state machine the development covers
    - the [PyrogramClientManager] of [account.py] and the [bulk_..._async]
      functions built on it, over a record of the calls of the Pyrogram
      client;
    - the login of a single account: [login_states], the callbacks
      [add_account], [login_country_...], [single_account_...] and
      [cancel_login], [handle_login_flow_messages] and the three functions of
      [account.py] it runs;
    - [otp_searcher], with the regular expression of the login code. *)

From Stdlib Require Import Ascii String DecimalString.
From stdpp Require Import gmap strings list fin_maps.

Local Open Scope string_scope.
Local Open Scope nat_scope.
Local Open Scope list_scope.

(** ** Python [str] operations on code points 0..255 *)

Module PyStr.

Definition ord (c : ascii) : nat := nat_of_ascii c.

(** [str.isspace] of one character. *)
Definition isspace (c : ascii) : bool :=
  let n := ord c in
  ((9 <=? n) && (n <=? 13)) || ((28 <=? n) && (n <=? 32))
  || (n =? 133) || (n =? 160).

(** The class [\d] of [re] on [str] patterns (category Nd). *)
Definition is_decimal (c : ascii) : bool :=
  let n := ord c in (48 <=? n) && (n <=? 57).

(** One character of [str.isdigit]: the decimal digits and the
    superscripts 2, 3 and 1. *)
Definition is_digit_char (c : ascii) : bool :=
  let n := ord c in
  is_decimal c || (n =? 178) || (n =? 179) || (n =? 185).

Definition lower_char (c : ascii) : ascii :=
  let n := ord c in
  if ((65 <=? n) && (n <=? 90))
     || ((192 <=? n) && (n <=? 214)) || ((216 <=? n) && (n <=? 222))
  then ascii_of_nat (n + 32) else c.

Fixpoint lower (s : string) : string :=
  match s with
  | EmptyString => EmptyString
  | String c r => String (lower_char c) (lower r)
  end.

Fixpoint lstrip (s : string) : string :=
  match s with
  | EmptyString => EmptyString
  | String c r => if isspace c then lstrip r else s
  end.

Fixpoint rstrip (s : string) : string :=
  match s with
  | EmptyString => EmptyString
  | String c r =>
      match rstrip r with
      | EmptyString => if isspace c then EmptyString else String c EmptyString
      | r' => String c r'
      end
  end.

Definition strip (s : string) : string := rstrip (lstrip s).

Fixpoint all_chars (p : ascii -> bool) (s : string) : bool :=
  match s with
  | EmptyString => true
  | String c r => p c && all_chars p r
  end.

(** [str.isdigit]: non-empty and every character a digit. *)
Definition isdigit (s : string) : bool :=
  match s with
  | EmptyString => false
  | _ => all_chars is_digit_char s
  end.

(** [s.split('\n')]. *)
Fixpoint split_newline (s : string) : list string :=
  match s with
  | EmptyString => [EmptyString]
  | String c r =>
      if Ascii.eqb c "010" then EmptyString :: split_newline r
      else match split_newline r with
           | [] => [String c EmptyString]
           | h :: t => String c h :: t
           end
  end.

(** Python truthiness of a string. *)
Definition nonempty (s : string) : bool :=
  match s with EmptyString => false | _ => true end.

(** Longest prefix of decimal digits: its length and what follows. *)
Fixpoint span_decimal (s : string) : nat * string :=
  match s with
  | EmptyString => (0, EmptyString)
  | String c r =>
      if is_decimal c
      then let '(k, tl) := span_decimal r in (S k, tl)
      else (0, s)
  end.

(** [re.match(r'^\+\d{10,15}$', line)]: a plus sign, ten to fifteen
    decimal digits, then the end of the string ([$] also accepts one
    final newline). *)
Definition phone_re_match (line : string) : bool :=
  match line with
  | String c r =>
      Ascii.eqb c "+" &&
      (let '(k, tl) := span_decimal r in
       (10 <=? k) && (k <=? 15) &&
       match tl with
       | EmptyString => true
       | String d EmptyString => Ascii.eqb d "010"
       | _ => false
       end)
  | EmptyString => false
  end.

End PyStr.

(** ** Data model *)

(** Handles of the Pyrogram client and of its [PyrogramClientManager]. *)
Definition Client := nat.
Definition Manager := nat.

(** The value of [state["step"]]. *)
Inductive Step :=
| waiting_numbers
| confirm_numbers
| waiting_bulk_otp
| waiting_bulk_password.

Definition Step_eqb (a b : Step) : bool :=
  match a, b with
  | waiting_numbers, waiting_numbers
  | confirm_numbers, confirm_numbers
  | waiting_bulk_otp, waiting_bulk_otp
  | waiting_bulk_password, waiting_bulk_password => true
  | _, _ => false
  end.

(** The dictionary stored in [bulk_add_states[user_id]]. *)
Record BulkState := mkBulkState {
  country : string;
  phone_numbers : list string;
  current_index : nat;
  total_numbers : nat;
  success_count : nat;
  failed_count : nat;
  failed_numbers : list (option string * string);
  current_client : option Client;
  current_phone_code_hash : option string;
  current_phone : option string;
  current_manager : option Manager;
  password_attempts : nat;
  step : Step;
  is_processing : bool
}.

Definition set_phone_numbers (v : list string) (s : BulkState) : BulkState :=
  mkBulkState (country s) v (current_index s) (total_numbers s) (success_count s)
    (failed_count s) (failed_numbers s) (current_client s) (current_phone_code_hash s)
    (current_phone s) (current_manager s) (password_attempts s) (step s) (is_processing s).

Definition set_current_index (v : nat) (s : BulkState) : BulkState :=
  mkBulkState (country s) (phone_numbers s) v (total_numbers s) (success_count s)
    (failed_count s) (failed_numbers s) (current_client s) (current_phone_code_hash s)
    (current_phone s) (current_manager s) (password_attempts s) (step s) (is_processing s).

Definition set_total_numbers (v : nat) (s : BulkState) : BulkState :=
  mkBulkState (country s) (phone_numbers s) (current_index s) v (success_count s)
    (failed_count s) (failed_numbers s) (current_client s) (current_phone_code_hash s)
    (current_phone s) (current_manager s) (password_attempts s) (step s) (is_processing s).

Definition set_success_count (v : nat) (s : BulkState) : BulkState :=
  mkBulkState (country s) (phone_numbers s) (current_index s) (total_numbers s) v
    (failed_count s) (failed_numbers s) (current_client s) (current_phone_code_hash s)
    (current_phone s) (current_manager s) (password_attempts s) (step s) (is_processing s).

Definition set_failed_count (v : nat) (s : BulkState) : BulkState :=
  mkBulkState (country s) (phone_numbers s) (current_index s) (total_numbers s) (success_count s)
    v (failed_numbers s) (current_client s) (current_phone_code_hash s)
    (current_phone s) (current_manager s) (password_attempts s) (step s) (is_processing s).

Definition set_failed_numbers (v : list (option string * string)) (s : BulkState) : BulkState :=
  mkBulkState (country s) (phone_numbers s) (current_index s) (total_numbers s) (success_count s)
    (failed_count s) v (current_client s) (current_phone_code_hash s)
    (current_phone s) (current_manager s) (password_attempts s) (step s) (is_processing s).

Definition set_current_client (v : option Client) (s : BulkState) : BulkState :=
  mkBulkState (country s) (phone_numbers s) (current_index s) (total_numbers s) (success_count s)
    (failed_count s) (failed_numbers s) v (current_phone_code_hash s)
    (current_phone s) (current_manager s) (password_attempts s) (step s) (is_processing s).

Definition set_current_phone_code_hash (v : option string) (s : BulkState) : BulkState :=
  mkBulkState (country s) (phone_numbers s) (current_index s) (total_numbers s) (success_count s)
    (failed_count s) (failed_numbers s) (current_client s) v
    (current_phone s) (current_manager s) (password_attempts s) (step s) (is_processing s).

Definition set_current_phone (v : option string) (s : BulkState) : BulkState :=
  mkBulkState (country s) (phone_numbers s) (current_index s) (total_numbers s) (success_count s)
    (failed_count s) (failed_numbers s) (current_client s) (current_phone_code_hash s)
    v (current_manager s) (password_attempts s) (step s) (is_processing s).

Definition set_current_manager (v : option Manager) (s : BulkState) : BulkState :=
  mkBulkState (country s) (phone_numbers s) (current_index s) (total_numbers s) (success_count s)
    (failed_count s) (failed_numbers s) (current_client s) (current_phone_code_hash s)
    (current_phone s) v (password_attempts s) (step s) (is_processing s).

Definition set_password_attempts (v : nat) (s : BulkState) : BulkState :=
  mkBulkState (country s) (phone_numbers s) (current_index s) (total_numbers s) (success_count s)
    (failed_count s) (failed_numbers s) (current_client s) (current_phone_code_hash s)
    (current_phone s) (current_manager s) v (step s) (is_processing s).

Definition set_step (v : Step) (s : BulkState) : BulkState :=
  mkBulkState (country s) (phone_numbers s) (current_index s) (total_numbers s) (success_count s)
    (failed_count s) (failed_numbers s) (current_client s) (current_phone_code_hash s)
    (current_phone s) (current_manager s) (password_attempts s) v (is_processing s).

Definition set_is_processing (v : bool) (s : BulkState) : BulkState :=
  mkBulkState (country s) (phone_numbers s) (current_index s) (total_numbers s) (success_count s)
    (failed_count s) (failed_numbers s) (current_client s) (current_phone_code_hash s)
    (current_phone s) (current_manager s) (password_attempts s) (step s) v.

(** The dictionary literal assigned by the [bulk_account_<country>] callback. *)
Definition new_bulk_state (country_name : string) : BulkState :=
  mkBulkState country_name [] 0 0 0 0 [] None None None None 0 waiting_numbers false.

(** ** The account manager and the outside world *)

(** Result dictionary of [bulk_send_code_sync]. *)
Inductive SendResult :=
| SendOk (client : Client) (phone_code_hash : string) (manager : Manager)
| SendFailed (error : string).

(** Result dictionary of [bulk_verify_otp_sync]: [success], else
    [status == "password_required"], else an error text. *)
Inductive OtpResult :=
| OtpVerified
| OtpPasswordRequired
| OtpFailed (error : string).

(** Result dictionary of [bulk_verify_password_sync]. *)
Inductive PasswordResult :=
| PasswordAccepted
| PasswordRejected (error : string).

(** Invocations of the account manager, in the order they are made. *)
Inductive Call :=
| CallSendCode (phone : string)
| CallVerifyOtp (client : option Client) (phone : option string)
    (phone_code_hash : option string) (otp_code : string) (manager : option Manager)
| CallVerifyPassword (client : option Client) (password : string) (manager : option Manager)
| CallSaveAccount (client : option Client) (phone : option string) (country_name : string)
    (user_id : Z) (manager : option Manager) (password : option string)
| CallDisconnect (client : Client).

(** What the bot sends to the chat ([edit_or_resend], [bot.send_message],
    [bot.answer_callback_query]), with the values the texts are built from. *)
Inductive Message :=
| MsgEnterNumbers (country_name : string)
| MsgNoValidNumbers
| MsgConfirmNumbers (country_name : string) (total invalid : nat) (first5 : list string)
| MsgStarted (country_name : string) (total : nat)
| MsgProcessing (progress total : nat) (phone : string) (success failed : nat)
| MsgOtpSent (phone : string)
| MsgInvalidOtpFormat
| MsgPasswordRequired (phone : option string)
| MsgPasswordEmpty
| MsgIncorrectPassword (attempts_left : nat)
| MsgSaved (progress total : nat) (phone : option string) (country_name : string)
    (two_factor : bool) (success failed : nat)
| MsgSummary (country_name : string) (total success failed : nat)
    (shown : list (option string * string)) (more : nat)
| MsgCancelled
| AnsUnauthorized
| AnsSessionExpired
| AnsNoNumbers
| AnsStarting
| AnsPaused
| AnsResumed
| AnsSkipped.

Section Engine.

(** State of whatever the account manager talks to. *)
Context {W : Type}.

(** The methods of [AccountManager] the bulk flow calls, with the arguments
    the bot passes (the values of the job's keys, [None] included) and the
    results it reads.  The wrappers catch every exception and answer with a
    failure, so a call always returns.  [safe_disconnect] is the method of
    [account_manager.pyrogram_manager]; it disconnects a client that is
    connected and does nothing otherwise.  The global [accounts_col] that
    the bot passes to [bulk_save_account_sync] belongs to the environment. *)
Record AccountManager := mkAccountManager {
  bulk_send_code_sync : string -> W -> SendResult * W;
  bulk_verify_otp_sync :
    option Client -> option string -> option string -> string -> option Manager ->
    W -> OtpResult * W;
  bulk_verify_password_sync :
    option Client -> string -> option Manager -> W -> PasswordResult * W;
  bulk_save_account_sync :
    option Client -> option string -> string -> Z -> option Manager -> option string ->
    W -> (bool * string) * W;
  safe_disconnect : Client -> W -> W
}.

Record World := mkWorld {
  env : W;
  calls : list Call;
  outbox : list Message
}.

Definition emit (m : Message) (w : World) : World :=
  mkWorld (env w) (calls w) (outbox w ++ [m]).

Definition invoke (c : Call) (e : W) (w : World) : World :=
  mkWorld e (calls w ++ [c]) (outbox w).

(** The global [account_manager]: [None] when the account module failed to
    load. *)
Variable account_manager : option AccountManager.

(** [is_admin(user_id)]. *)
Variable is_admin : Z -> bool.

(** What a handler leaves in [bulk_add_states[user_id]], and the world. *)
Definition Outcome : Type := option BulkState * World.

(** ** The engine: one phone number at a time *)

(** The block
    [if state.get("current_client") and account_manager:
         try: asyncio.run(...safe_disconnect(state["current_client"]))
         except: pass]
    shared by every exit path.  [current_client] is not cleared afterwards. *)
Definition disconnect_current_client (st : BulkState) (w : World) : World :=
  match current_client st, account_manager with
  | Some c, Some am => invoke (CallDisconnect c) (safe_disconnect am c (env w)) w
  | _, _ => w
  end.

(** [show_bulk_summary]: report, then [del bulk_add_states[user_id]]. *)
Definition show_bulk_summary (st : BulkState) (w : World) : Outcome :=
  (None,
   emit (MsgSummary (country st) (total_numbers st) (success_count st) (failed_count st)
           (take 10 (failed_numbers st)) (length (failed_numbers st) - 10)) w).

(** The assignments of [bulk_number_failed]. *)
Definition mark_failed (reason : string) (st : BulkState) : BulkState :=
  let st1 := set_failed_count (failed_count st + 1) st in
  let st2 := set_failed_numbers (failed_numbers st1 ++ [(current_phone st1, reason)]) st1 in
  let st3 := set_current_index (current_index st2 + 1) st2 in
  set_password_attempts 0 st3.

(** The assignments of [bulk_number_success]. *)
Definition mark_success (st : BulkState) : BulkState :=
  let st1 := set_success_count (success_count st + 1) st in
  let st2 := set_current_index (current_index st1 + 1) st1 in
  set_password_attempts 0 st2.

(** [bulk_number_failed], [send_bulk_otp] and [process_next_bulk_number] call
    each other; [next] stands for the call of [process_next_bulk_number]. *)
Definition bulk_number_failed_k (next : BulkState -> World -> Outcome)
    (reason : string) (st : BulkState) (w : World) : Outcome :=
  next (mark_failed reason st) (disconnect_current_client st w).

Definition send_bulk_otp_k (next : BulkState -> World -> Outcome)
    (phone_number : string) (st : BulkState) (w : World) : Outcome :=
  match account_manager with
  | None => bulk_number_failed_k next "Account module not loaded" st w
  | Some am =>
      let '(result, e) := bulk_send_code_sync am phone_number (env w) in
      let w1 := invoke (CallSendCode phone_number) e w in
      match result with
      | SendOk client phone_code_hash manager =>
          let st1 := set_current_client (Some client) st in
          let st2 := set_current_phone_code_hash (Some phone_code_hash) st1 in
          let st3 := set_current_manager (Some manager) st2 in
          let st4 := set_step waiting_bulk_otp st3 in
          (Some st4, emit (MsgOtpSent phone_number) w1)
      | SendFailed error_msg =>
          bulk_number_failed_k next ("Failed to send OTP: " +:+ error_msg) st w1
      end
  end.

(** [process_next_bulk_number], with the depth of the mutual recursion
    bounded by [fuel].  The lookup [phone_numbers[current_index]] raises
    IndexError when it fails and the model stops there; [run_total_numbers]
    shows that no reachable job gets there, and [process_next_fuel_enough]
    that the fuel given by [process_next_bulk_number] never runs out. *)
Fixpoint process_next_fuel (fuel : nat) (st : BulkState) (w : World) : Outcome :=
  if negb (is_processing st) then (Some st, w)
  else if total_numbers st <=? current_index st then show_bulk_summary st w
  else
    match phone_numbers st !! current_index st with
    | None => (Some st, w)
    | Some phone_number =>
        let st1 := set_current_phone (Some phone_number) st in
        let st2 := set_password_attempts 0 st1 in
        let w1 := emit (MsgProcessing (current_index st2 + 1) (total_numbers st2)
                          phone_number (success_count st2) (failed_count st2)) w in
        match fuel with
        | 0 => (Some st2, w1)
        | S fuel' => send_bulk_otp_k (process_next_fuel fuel') phone_number st2 w1
        end
    end.

Definition process_next_bulk_number (st : BulkState) (w : World) : Outcome :=
  process_next_fuel (total_numbers st - current_index st) st w.

Definition bulk_number_failed (reason : string) (st : BulkState) (w : World) : Outcome :=
  bulk_number_failed_k process_next_bulk_number reason st w.

Definition send_bulk_otp (phone_number : string) (st : BulkState) (w : World) : Outcome :=
  send_bulk_otp_k process_next_bulk_number phone_number st w.

Definition bulk_number_success (st : BulkState) (w : World) : Outcome :=
  process_next_bulk_number (mark_success st) (disconnect_current_client st w).

Definition start_bulk_processing (st : BulkState) (w : World) : Outcome :=
  let st1 := set_is_processing true st in
  process_next_bulk_number st1 (emit (MsgStarted (country st1) (total_numbers st1)) w).

(** [str(e)] of the AttributeError raised by a method call on
    [account_manager] when it is [None]. *)
Definition none_has_no_attribute (name : string) : string :=
  "'NoneType' object has no attribute '" +:+ name +:+ "'".

Definition save_bulk_account (user_id : Z) (password : option string)
    (st : BulkState) (w : World) : Outcome :=
  match account_manager with
  | None =>
      bulk_number_failed
        ("Save error: " +:+ none_has_no_attribute "bulk_save_account_sync") st w
  | Some am =>
      let '((success, message), e) :=
        bulk_save_account_sync am (current_client st) (current_phone st) (country st)
          user_id (current_manager st) password (env w) in
      let w1 := invoke (CallSaveAccount (current_client st) (current_phone st) (country st)
                          user_id (current_manager st) password) e w in
      if success
      then bulk_number_success st
             (emit (MsgSaved (current_index st + 1) (total_numbers st) (current_phone st)
                      (country st)
                      (match password with Some p => PyStr.nonempty p | None => false end)
                      (success_count st + 1) (failed_count st)) w1)
      else bulk_number_failed ("Save error: " +:+ message) st w1
  end.

(** ** Text handlers *)

(** The loop [for line in lines[:50]] of [handle_bulk_numbers_input], run on
    the already truncated list: the valid and the invalid lines. *)
Fixpoint classify_lines (lines : list string) : list string * list string :=
  match lines with
  | [] => ([], [])
  | line :: rest =>
      let '(valid_numbers, invalid_numbers) := classify_lines rest in
      if PyStr.phone_re_match line
      then (line :: valid_numbers, invalid_numbers)
      else (valid_numbers, line :: invalid_numbers)
  end.

(** [[line.strip() for line in text.split('\n') if line.strip()]] on the
    stripped message text. *)
Definition input_lines (text : string) : list string :=
  List.filter PyStr.nonempty (List.map PyStr.strip (PyStr.split_newline (PyStr.strip text))).

Definition handle_bulk_numbers_input (text : string)
    (o : option BulkState) (w : World) : Outcome :=
  match o with
  | None => (None, w)
  | Some st =>
      if negb (Step_eqb (step st) waiting_numbers) then (Some st, w)
      else
        let lines := input_lines text in
        let '(valid_numbers, invalid_numbers) := classify_lines (take 50 lines) in
        match valid_numbers with
        | [] => (Some st, emit MsgNoValidNumbers w)
        | _ :: _ =>
            let st1 := set_phone_numbers valid_numbers st in
            let st2 := set_total_numbers (length valid_numbers) st1 in
            let st3 := set_step confirm_numbers st2 in
            (Some st3,
             emit (MsgConfirmNumbers (country st3) (length valid_numbers)
                     (length invalid_numbers) (take 5 valid_numbers)) w)
        end
  end.

Definition handle_bulk_otp_input (user_id : Z) (text : string)
    (o : option BulkState) (w : World) : Outcome :=
  match o with
  | None => (None, w)
  | Some st =>
      if negb (Step_eqb (step st) waiting_bulk_otp) then (Some st, w)
      else
        let otp_code := PyStr.strip text in
        if String.eqb (PyStr.lower otp_code) "skip"
        then bulk_number_failed "Skipped by admin" st w
        else if negb (PyStr.isdigit otp_code) || negb (String.length otp_code =? 5)
        then (Some st, emit MsgInvalidOtpFormat w)
        else
          match account_manager with
          | None =>
              bulk_number_failed
                ("OTP error: " +:+ none_has_no_attribute "bulk_verify_otp_sync") st w
          | Some am =>
              let '(result, e) :=
                bulk_verify_otp_sync am (current_client st) (current_phone st)
                  (current_phone_code_hash st) otp_code (current_manager st) (env w) in
              let w1 := invoke (CallVerifyOtp (current_client st) (current_phone st)
                                  (current_phone_code_hash st) otp_code (current_manager st))
                          e w in
              match result with
              | OtpVerified => save_bulk_account user_id None st w1
              | OtpPasswordRequired =>
                  let st1 := set_step waiting_bulk_password st in
                  let st2 := set_password_attempts 0 st1 in
                  (Some st2, emit (MsgPasswordRequired (current_phone st2)) w1)
              | OtpFailed error_msg =>
                  bulk_number_failed ("OTP error: " +:+ error_msg) st w1
              end
          end
  end.

Definition handle_bulk_password_input (user_id : Z) (text : string)
    (o : option BulkState) (w : World) : Outcome :=
  match o with
  | None => (None, w)
  | Some st =>
      if negb (Step_eqb (step st) waiting_bulk_password) then (Some st, w)
      else
        let password := PyStr.strip text in
        if String.eqb (PyStr.lower password) "skip"
        then bulk_number_failed "Skipped by admin" st w
        else if negb (PyStr.nonempty password)
        then (Some st, emit MsgPasswordEmpty w)
        else
          let st1 := set_password_attempts (password_attempts st + 1) st in
          if 2 <? password_attempts st1
          then bulk_number_failed "Max password attempts exceeded" st1 w
          else
            match account_manager with
            | None =>
                bulk_number_failed
                  ("Password error: " +:+ none_has_no_attribute "bulk_verify_password_sync")
                  st1 w
            | Some am =>
                let '(result, e) :=
                  bulk_verify_password_sync am (current_client st1) password
                    (current_manager st1) (env w) in
                let w1 := invoke (CallVerifyPassword (current_client st1) password
                                    (current_manager st1)) e w in
                match result with
                | PasswordAccepted => save_bulk_account user_id (Some password) st1 w1
                | PasswordRejected error_msg =>
                    if 2 <=? password_attempts st1
                    then bulk_number_failed ("Password error: " +:+ error_msg) st1 w1
                    else (Some st1,
                          emit (MsgIncorrectPassword (2 - password_attempts st1)) w1)
                end
            end
  end.

(** ** Callback handlers *)

(** The callback data of [handle_callbacks] that concern the bulk flow. *)
Inductive Callback :=
| bulk_account (country_name : string)
| start_bulk_add
| cancel_bulk
| pause_bulk
| resume_bulk
| skip_bulk_number.

Definition handle_cancel_bulk (o : option BulkState) (w : World) : Outcome :=
  match o with
  | Some st => (None, emit MsgCancelled (disconnect_current_client st w))
  | None => (None, emit MsgCancelled w)
  end.

Definition handle_callbacks (user_id : Z) (data : Callback)
    (o : option BulkState) (w : World) : Outcome :=
  match data with
  | bulk_account country_name =>
      if negb (is_admin user_id) then (o, emit AnsUnauthorized w)
      else (Some (new_bulk_state country_name), emit (MsgEnterNumbers country_name) w)
  | start_bulk_add =>
      if negb (is_admin user_id) then (o, emit AnsUnauthorized w)
      else
        match o with
        | None => (None, emit AnsSessionExpired w)
        | Some st =>
            match phone_numbers st with
            | [] => (Some st, emit AnsNoNumbers w)
            | _ :: _ => start_bulk_processing st (emit AnsStarting w)
            end
        end
  | cancel_bulk => handle_cancel_bulk o w
  | pause_bulk =>
      match o with
      | Some st => (Some (set_is_processing false st), emit AnsPaused w)
      | None => (None, w)
      end
  | resume_bulk =>
      match o with
      | Some st => process_next_bulk_number (set_is_processing true st) (emit AnsResumed w)
      | None => (None, w)
      end
  | skip_bulk_number =>
      match o with
      | Some st =>
          let st1 := set_failed_count (failed_count st + 1) st in
          let st2 := set_failed_numbers
                       (failed_numbers st1 ++ [(current_phone st1, "Skipped by admin")]) st1 in
          let w1 := disconnect_current_client st2 w in
          let st3 := set_current_index (current_index st2 + 1) st2 in
          let st4 := set_password_attempts 0 st3 in
          process_next_bulk_number st4 (emit AnsSkipped w1)
      | None => (None, w)
      end
  end.

(** ** Dispatch on the table of jobs *)

Inductive Event :=
| Pressed (data : Callback)
| Typed (text : string).

(** A text message goes to the handler whose filter matches the job's
    [step]; no bulk handler takes it otherwise. *)
Definition handle_message (user_id : Z) (text : string)
    (o : option BulkState) (w : World) : Outcome :=
  match o with
  | None => (None, w)
  | Some st =>
      match step st with
      | waiting_numbers => handle_bulk_numbers_input text o w
      | waiting_bulk_otp => handle_bulk_otp_input user_id text o w
      | waiting_bulk_password => handle_bulk_password_input user_id text o w
      | confirm_numbers => (o, w)
      end
  end.

Definition handle_event (user_id : Z) (ev : Event)
    (o : option BulkState) (w : World) : Outcome :=
  match ev with
  | Pressed data => handle_callbacks user_id data o w
  | Typed text => handle_message user_id text o w
  end.

(** One update from user [user_id] applied to [bulk_add_states]. *)
Definition dispatch (bulk_add_states : gmap Z BulkState) (user_id : Z) (ev : Event)
    (w : World) : gmap Z BulkState * World :=
  let '(o, w1) := handle_event user_id ev (bulk_add_states !! user_id) w in
  (match o with
   | Some st => <[user_id := st]> bulk_add_states
   | None => delete user_id bulk_add_states
   end, w1).

(** A sequence of updates, oldest first. *)
Fixpoint run (updates : list (Z * Event)) (bulk_add_states : gmap Z BulkState)
    (w : World) : gmap Z BulkState * World :=
  match updates with
  | [] => (bulk_add_states, w)
  | (user_id, ev) :: rest =>
      let '(t1, w1) := dispatch bulk_add_states user_id ev w in
      run rest t1 w1
  end.

End Engine.

Arguments AccountManager : clear implicits.
Arguments World : clear implicits.
Arguments Outcome : clear implicits.

(** ** A scripted account manager

    The environment is the list of answers the outside world will give, in
    order; a call takes the head when it has the shape the call expects and
    fails otherwise. *)

Inductive Reply :=
| ReplySend (r : SendResult)
| ReplyOtp (r : OtpResult)
| ReplyPassword (r : PasswordResult)
| ReplySave (success : bool) (message : string).

Definition scripted_send (phone_number : string) (e : list Reply) : SendResult * list Reply :=
  match e with
  | ReplySend r :: e' => (r, e')
  | _ => (SendFailed "no reply", e)
  end.

Definition scripted_otp (c : option Client) (phone hash : option string) (otp : string)
    (m : option Manager) (e : list Reply) : OtpResult * list Reply :=
  match e with
  | ReplyOtp r :: e' => (r, e')
  | _ => (OtpFailed "no reply", e)
  end.

Definition scripted_password (c : option Client) (password : string)
    (m : option Manager) (e : list Reply) : PasswordResult * list Reply :=
  match e with
  | ReplyPassword r :: e' => (r, e')
  | _ => (PasswordRejected "no reply", e)
  end.

Definition scripted_save (c : option Client) (phone : option string) (country_name : string)
    (user_id : Z) (m : option Manager) (password : option string) (e : list Reply)
    : (bool * string) * list Reply :=
  match e with
  | ReplySave b msg :: e' => ((b, msg), e')
  | _ => ((false, "no reply"), e)
  end.

Definition scripted : AccountManager (list Reply) :=
  mkAccountManager scripted_send scripted_otp scripted_password scripted_save (fun _ e => e).

Definition script (e : list Reply) : World (list Reply) := mkWorld e [] [].

(** The administrator of the examples. *)
Definition admin : Z := 7%Z.
Definition only_admin (user_id : Z) : bool := Z.eqb user_id admin.

Definition newline : string := String "010" EmptyString.

(** ** Saving an account ([account.py])

    [bulk_save_account_async], which [bulk_save_account_sync] runs: export
    the session string of the client, then insert the account document.
    The clock value [created_at] and the [api_id] and [api_hash] copied from
    the manager are left out of the document. *)

Record AccountData := mkAccountData {
  acc_country : string;
  acc_phone : option string;
  acc_session_string : string;
  acc_has_2fa : bool;
  acc_two_step_password : option string;
  acc_status : string;
  acc_used : bool;
  acc_created_by : Z
}.

Section Store.

Context {W : Type}.

(** [manager.get_session_string(client)]: the session string, or [None] when
    the client is not authorized or the export raised. *)
Variable get_session_string : option Client -> W -> option string * W.

(** [accounts_col]: [None] when the collection is not available; otherwise
    its [insert_one], which answers with the text of the exception it
    raised, if it raised one. *)
Variable accounts_col : option (AccountData -> W -> option string * W).

Definition bulk_save_account_async (client : option Client) (phone_number : option string)
    (country_name : string) (user_id : Z) (manager : option Manager)
    (password : option string) (e : W) : (bool * string) * W :=
  let '(session_string, e1) := get_session_string client e in
  match session_string with
  | None | Some EmptyString => ((false, "Failed to get session string"), e1)
  | Some session =>
      let account_data :=
        mkAccountData country_name phone_number session
          (match password with Some _ => true | None => false end)
          password "active" false user_id in
      match accounts_col with
      | Some insert_one =>
          let '(raised, e2) := insert_one account_data e1 in
          match raised with
          | None => ((true, "Account saved"), e2)
          | Some error => ((false, error), e2)
          end
      | None => ((false, "Database collection not available"), e1)
      end
  end.

End Store.

(** The scripted manager, saving through [bulk_save_account_async] into a
    collection whose [insert_one] always raises. *)
Definition failing_store : AccountManager (list Reply) :=
  mkAccountManager scripted_send scripted_otp scripted_password
    (bulk_save_account_async
       (fun _ e => (Some "session-string", e))
       (Some (fun _ e => (Some "connection closed", e))))
    (fun _ e => e).

(** ** The Pyrogram client manager and the bulk functions ([account.py])

    The Pyrogram [Client] is outside the repository: its calls are fields of
    a record over the environment, each answering with the exception it
    raised, if any.  The module tells three kinds of exception apart. *)

Inductive PyroError :=
| FloodWait (value : Z)
| SessionPasswordNeeded
| OtherError (text : string).

Record Pyrogram (W : Type) := mkPyrogram {
  (* [Client(name=..., api_id=..., in_memory=True, ...)] *)
  new_client : W -> Client * W;
  (* [client.is_connected] *)
  is_connected : Client -> W -> bool;
  (* [client.session] is set *)
  has_session : Client -> W -> bool;
  (* [await client.session.stop()] *)
  session_stop : Client -> W -> option PyroError * W;
  (* [await client.connect()] *)
  client_connect : Client -> W -> option PyroError * W;
  (* [await client.disconnect()] *)
  client_disconnect : Client -> W -> option PyroError * W;
  (* [await client.send_code(phone_number)]: the [phone_code_hash] *)
  client_send_code : Client -> string -> W -> (PyroError + string) * W;
  (* [await client.sign_in(phone_number=, phone_code=, phone_code_hash=)] *)
  client_sign_in :
    Client -> option string -> option string -> string -> W -> option PyroError * W;
  (* [await client.check_password(password)] *)
  client_check_password : Client -> string -> W -> option PyroError * W;
  (* [await client.get_me()]: whether the answer is truthy *)
  client_get_me : Client -> W -> (PyroError + bool) * W;
  (* [await client.export_session_string()] *)
  client_export_session_string : Client -> W -> (PyroError + string) * W;
  (* [str(e)] of a [FloodWait] and of a [SessionPasswordNeeded] *)
  error_str : PyroError -> string
}.

Arguments new_client {W}.
Arguments is_connected {W}.
Arguments has_session {W}.
Arguments session_stop {W}.
Arguments client_connect {W}.
Arguments client_disconnect {W}.
Arguments client_send_code {W}.
Arguments client_sign_in {W}.
Arguments client_check_password {W}.
Arguments client_get_me {W}.
Arguments client_export_session_string {W}.
Arguments error_str {W}.

(** [f"{value}"] of an integer. *)
Definition decimal (z : Z) : string := NilZero.string_of_int (Z.to_int z).

(** What [PyrogramClientManager.send_code] returns: [(True, hash, None)] or
    [(False, None, error)]. *)
Inductive SendCodeOutcome :=
| CodeSent (phone_code_hash : string)
| CodeNotSent (error : string).

Module PyrogramClientManager.

Section Methods.

Context {W : Type}.
Variable pyro : Pyrogram W.

(** [safe_disconnect]: a client that is set and connected has its session
    stopped, whatever that raises, and is disconnected; every exception is
    swallowed. *)
Definition safe_disconnect (client : option Client) (e : W) : W :=
  match client with
  | None => e
  | Some c =>
      if is_connected pyro c e
      then
        let e1 := if has_session pyro c e then (session_stop pyro c e).2 else e in
        (client_disconnect pyro c e1).2
      else e
  end.

(** [str(e)]: an exception of another kind carries its text. *)
Definition str_error (err : PyroError) : string :=
  match err with
  | OtherError text => text
  | _ => error_str pyro err
  end.

(** The message of the [except] branches of [send_code]. *)
Definition send_code_error (err : PyroError) : string :=
  match err with
  | FloodWait value => "FloodWait: Please wait " +:+ decimal value +:+ " seconds"
  | _ => str_error err
  end.

Definition send_code (c : Client) (phone_number : string) (e : W) : SendCodeOutcome * W :=
  let e1 := if is_connected pyro c e then safe_disconnect (Some c) e else e in
  let '(raised, e2) := client_connect pyro c e1 in
  match raised with
  | Some err => (CodeNotSent (send_code_error err), e2)
  | None =>
      let '(sent_code, e3) := client_send_code pyro c phone_number e2 in
      match sent_code with
      | inr phone_code_hash => (CodeSent phone_code_hash, e3)
      | inl err => (CodeNotSent (send_code_error err), e3)
      end
  end.

(** The step shared by the three methods below: connect unless connected.
    With [None] for the client the call of [connect] raises
    AttributeError. *)
Definition ensure_connected (client : option Client) (e : W) : option PyroError * W :=
  match client with
  | None => (Some (OtherError (none_has_no_attribute "connect")), e)
  | Some c => if is_connected pyro c e then (None, e) else client_connect pyro c e
  end.

(** The answer of [sign_in_with_otp] for an exception. *)
Definition otp_error (err : PyroError) : OtpResult :=
  match err with
  | SessionPasswordNeeded => OtpPasswordRequired
  | _ => OtpFailed (str_error err)
  end.

(** [sign_in_with_otp]: [(True, None, None)], [(False, "password_required",
    None)] or [(False, "error", str(e))]. *)
Definition sign_in_with_otp (client : option Client) (phone_number : option string)
    (phone_code_hash : option string) (otp_code : string) (e : W) : OtpResult * W :=
  let '(raised, e1) := ensure_connected client e in
  match raised, client with
  | Some err, _ => (otp_error err, e1)
  | None, None => (OtpFailed (none_has_no_attribute "sign_in"), e1)
  | None, Some c =>
      let '(raised2, e2) := client_sign_in pyro c phone_number phone_code_hash otp_code e1 in
      match raised2 with
      | Some err => (otp_error err, e2)
      | None => (OtpVerified, e2)
      end
  end.

(** [sign_in_with_password]: [(True, None)] or [(False, str(e))]. *)
Definition sign_in_with_password (client : option Client) (password : string) (e : W)
    : PasswordResult * W :=
  let '(raised, e1) := ensure_connected client e in
  match raised, client with
  | Some err, _ => (PasswordRejected (str_error err), e1)
  | None, None => (PasswordRejected (none_has_no_attribute "check_password"), e1)
  | None, Some c =>
      let '(raised2, e2) := client_check_password pyro c password e1 in
      match raised2 with
      | Some err => (PasswordRejected (str_error err), e2)
      | None => (PasswordAccepted, e2)
      end
  end.

(** [get_session_string]: the exported string when [get_me] answers, [None]
    in every other case. *)
Definition get_session_string (client : option Client) (e : W) : option string * W :=
  let '(raised, e1) := ensure_connected client e in
  match raised, client with
  | Some _, _ => (None, e1)
  | None, None => (None, e1)
  | None, Some c =>
      let '(me, e2) := client_get_me pyro c e1 in
      match me with
      | inr true =>
          let '(exported, e3) := client_export_session_string pyro c e2 in
          match exported with
          | inr session_string => (Some session_string, e3)
          | inl _ => (None, e3)
          end
      | _ => (None, e2)
      end
  end.

End Methods.

End PyrogramClientManager.

Section BulkFunctions.

Context {W : Type}.
Variable pyro : Pyrogram W.

(** The handle of the [PyrogramClientManager] that [bulk_send_code_async]
    makes; a manager holds nothing but the constant [api_id] and
    [api_hash]. *)
Variable manager : Manager.

(** [bulk_send_code_async]: on failure the new client is disconnected and
    the result carries no client. *)
Definition bulk_send_code_async (phone_number : string) (e : W) : SendResult * W :=
  let '(client, e1) := new_client pyro e in
  let '(outcome, e2) := PyrogramClientManager.send_code pyro client phone_number e1 in
  match outcome with
  | CodeSent phone_code_hash => (SendOk client phone_code_hash manager, e2)
  | CodeNotSent error =>
      (SendFailed error, PyrogramClientManager.safe_disconnect pyro (Some client) e2)
  end.

(** [bulk_verify_otp_async]; a method call on [None] for the manager raises
    AttributeError, which the function reports as an error. *)
Definition bulk_verify_otp_async (client : option Client) (phone_number : option string)
    (phone_code_hash : option string) (otp_code : string) (mgr : option Manager) (e : W)
    : OtpResult * W :=
  match mgr with
  | None => (OtpFailed (none_has_no_attribute "sign_in_with_otp"), e)
  | Some _ =>
      PyrogramClientManager.sign_in_with_otp pyro client phone_number phone_code_hash
        otp_code e
  end.

Definition bulk_verify_password_async (client : option Client) (password : string)
    (mgr : option Manager) (e : W) : PasswordResult * W :=
  match mgr with
  | None => (PasswordRejected (none_has_no_attribute "sign_in_with_password"), e)
  | Some _ => PyrogramClientManager.sign_in_with_password pyro client password e
  end.

(** [accounts_col], as in [bulk_save_account_async]. *)
Variable accounts_col : option (AccountData -> W -> option string * W).

(** The [AccountManager] of [account.py]: each [bulk_..._sync] runs its
    [bulk_..._async]. *)
Definition pyrogram_account_manager : AccountManager W :=
  mkAccountManager
    bulk_send_code_async
    bulk_verify_otp_async
    bulk_verify_password_async
    (fun client phone country_name user_id mgr password e =>
       match mgr with
       | None => ((false, none_has_no_attribute "get_session_string"), e)
       | Some _ =>
           bulk_save_account_async (PyrogramClientManager.get_session_string pyro)
             accounts_col client phone country_name user_id mgr password e
       end)
    (fun c e => PyrogramClientManager.safe_disconnect pyro (Some c) e).

End BulkFunctions.

(** ** Adding a single account ([bot.py] and [account.py])

    [login_states] maps a user id to the dictionary of the login in
    progress.  The functions of [account.py] get the table itself and
    update it, so they are written on the table.  The keys [chat_id],
    [message_id], [mode], [api_id] and [api_hash] are left out; a key that
    may be missing is an [option]. *)

Inductive LoginStep :=
| select_country
| entering_phone
| waiting_otp
| waiting_password.

Record LoginState := mkLoginState {
  login_step : LoginStep;
  login_country : option string;
  login_client : option Client;
  login_phone : option string;
  login_phone_code_hash : option string;
  login_manager : option Manager
}.

Definition set_login_step (v : LoginStep) (s : LoginState) : LoginState :=
  mkLoginState v (login_country s) (login_client s) (login_phone s)
    (login_phone_code_hash s) (login_manager s).

Definition set_login_country (v : option string) (s : LoginState) : LoginState :=
  mkLoginState (login_step s) v (login_client s) (login_phone s)
    (login_phone_code_hash s) (login_manager s).

(** What the bot tells the admin during a login. *)
Inductive LoginMessage :=
| LoginInvalidPhone
| LoginModuleNotLoaded
| LoginOtpSent (phone : string)
| LoginSendFailed (message : string)
| LoginError (text : string)
| LoginInvalidOtp
| LoginAccountAdded (country_name phone : option string) (two_factor : bool)
| LoginPasswordRequired (phone : option string)
| LoginOtpFailed (message : string)
| LoginPasswordEmpty
| LoginPasswordFailed (message : string)
| LoginCancelled
| LoginSessionExpired
| LoginSelectMode (country_name : string)
| LoginEnterPhone (country_name : string)
| LoginSelectCountry (countries : list string)
| LoginNoCountries
| LoginUnauthorized
| LoginBanned
| LoginCallbackError
| LoginCallbackReport (missing_key : Z).

(** The callbacks of a login.  The argument of [login_country_] and of
    [single_account_] is what [call.data.replace] leaves of the data. *)
Inductive LoginCallback :=
| add_account
| login_country_ (country_name : string)
| single_account_ (country_name : string)
| cancel_login.

(** [x or default] for a string. *)
Definition or_default (x default : string) : string :=
  if PyStr.nonempty x then x else default.

(** [str(e)] of the KeyError raised by [state[key]]. *)
Definition key_error (key : string) : string := "'" +:+ key +:+ "'".

Section Login.

Context {W : Type}.
Variable pyro : Pyrogram W.
Variable manager : Manager.
Variable accounts_col : option (AccountData -> W -> option string * W).

(** Whether [account_manager] is set. *)
Variable module_loaded : bool.

(** What the functions of [account.py] return: the pair [(success, message)],
    the table and the environment. *)
Definition LoginOutcome : Type := (bool * string) * gmap Z LoginState * W.

(** The [except] branch of the two verify functions: the client of the login,
    which is still in the table, is released and the login removed. *)
Definition login_failure (tbl : gmap Z LoginState) (user_id : Z) (c : Client)
    (text : string) (e : W) : LoginOutcome :=
  ((false, text), delete user_id tbl,
   PyrogramClientManager.safe_disconnect pyro (Some c) e).

Definition pyrogram_login_flow_async (tbl : gmap Z LoginState) (user_id : Z)
    (phone_number : string) (country_name : string) (e : W) : LoginOutcome :=
  match tbl !! user_id with
  | None => ((false, "Session expired"), tbl, e)
  | Some state =>
      let '(client, e1) := new_client pyro e in
      let '(outcome, e2) := PyrogramClientManager.send_code pyro client phone_number e1 in
      match outcome with
      | CodeSent phone_code_hash =>
          ((true, "OTP sent successfully"),
           <[user_id := mkLoginState waiting_otp (Some country_name) (Some client)
                          (Some phone_number) (Some phone_code_hash) (Some manager)]> tbl,
           e2)
      | CodeNotSent error =>
          ((false, or_default error "Failed to send OTP"), tbl,
           PyrogramClientManager.safe_disconnect pyro (Some client) e2)
      end
  end.

(** The account document and its insertion, shared by the two verify
    functions; [insert_one] may raise. *)
Definition save_login_account (tbl : gmap Z LoginState) (user_id : Z) (c : Client)
    (state : LoginState) (session_string : string) (password : option string) (e : W)
    : LoginOutcome :=
  match login_country state, login_phone state with
  | None, _ => login_failure tbl user_id c (key_error "country") e
  | Some _, None => login_failure tbl user_id c (key_error "phone") e
  | Some country_name, Some phone =>
      let account_data :=
        mkAccountData country_name (Some phone) session_string
          (match password with Some _ => true | None => false end)
          password "active" false user_id in
      match accounts_col with
      | Some insert_one =>
          let '(raised, e1) := insert_one account_data e in
          match raised with
          | Some error => login_failure tbl user_id c error e1
          | None =>
              ((true, "Account added successfully"), delete user_id tbl,
               PyrogramClientManager.safe_disconnect pyro (Some c) e1)
          end
      | None =>
          ((true, "Account added successfully"), delete user_id tbl,
           PyrogramClientManager.safe_disconnect pyro (Some c) e)
      end
  end.

Definition verify_otp_and_save_async (tbl : gmap Z LoginState) (user_id : Z)
    (otp_code : string) (e : W) : LoginOutcome :=
  match tbl !! user_id with
  | None => ((false, "Session expired"), tbl, e)
  | Some state =>
      match login_client state with
      | None => ((false, "Client not found"), tbl, e)
      | Some c =>
          match login_phone state, login_phone_code_hash state with
          | None, _ => login_failure tbl user_id c (key_error "phone") e
          | Some _, None => login_failure tbl user_id c (key_error "phone_code_hash") e
          | Some phone, Some phone_code_hash =>
              let '(result, e1) :=
                PyrogramClientManager.sign_in_with_otp pyro (Some c) (Some phone)
                  (Some phone_code_hash) otp_code e in
              match result with
              | OtpPasswordRequired =>
                  ((false, "password_required"),
                   <[user_id := set_login_step waiting_password state]> tbl, e1)
              | OtpFailed error =>
                  ((false, or_default error "OTP verification failed"),
                   delete user_id tbl,
                   PyrogramClientManager.safe_disconnect pyro (Some c) e1)
              | OtpVerified =>
                  let '(session_string, e2) :=
                    PyrogramClientManager.get_session_string pyro (Some c) e1 in
                  match session_string with
                  | None | Some EmptyString =>
                      ((false, "Failed to get session string"), delete user_id tbl,
                       PyrogramClientManager.safe_disconnect pyro (Some c) e2)
                  | Some session => save_login_account tbl user_id c state session None e2
                  end
              end
          end
      end
  end.

Definition verify_2fa_password_async (tbl : gmap Z LoginState) (user_id : Z)
    (password : string) (e : W) : LoginOutcome :=
  match tbl !! user_id with
  | None => ((false, "Session expired"), tbl, e)
  | Some state =>
      match login_client state with
      | None => ((false, "Client not found"), tbl, e)
      | Some c =>
          let '(result, e1) :=
            PyrogramClientManager.sign_in_with_password pyro (Some c) password e in
          match result with
          | PasswordRejected error =>
              ((false, error), tbl, PyrogramClientManager.safe_disconnect pyro (Some c) e1)
          | PasswordAccepted =>
              let '(session_string, e2) :=
                PyrogramClientManager.get_session_string pyro (Some c) e1 in
              match session_string with
              | None | Some EmptyString =>
                  ((false, "Failed to get session string"), delete user_id tbl,
                   PyrogramClientManager.safe_disconnect pyro (Some c) e2)
              | Some session =>
                  save_login_account tbl user_id c state session (Some password) e2
              end
          end
      end
  end.

(** What a handler of the bot leaves: the table, the environment and the
    messages it sent. *)
Definition LoginResult : Type := gmap Z LoginState * W * list LoginMessage.

(** [handle_login_flow_messages]; its filter lets through the steps
    ["phone"], ["waiting_otp"] and ["waiting_password"]. *)
Definition handle_login_flow_messages (user_id : Z) (text : string)
    (tbl : gmap Z LoginState) (e : W) : LoginResult :=
  match tbl !! user_id with
  | None => (tbl, e, [])
  | Some state =>
      match login_step state with
      | select_country => (tbl, e, [])
      | entering_phone =>
          let phone := PyStr.strip text in
          if negb (PyStr.phone_re_match phone) then (tbl, e, [LoginInvalidPhone])
          else if negb module_loaded
          then (delete user_id tbl, e, [LoginModuleNotLoaded])
          else
            match login_country state with
            | None => (delete user_id tbl, e, [LoginError (key_error "country")])
            | Some country_name =>
                let '((success, message), tbl1, e1) :=
                  pyrogram_login_flow_async tbl user_id phone country_name e in
                if success then (tbl1, e1, [LoginOtpSent phone])
                else (delete user_id tbl1, e1, [LoginSendFailed message])
            end
      | waiting_otp =>
          let otp := PyStr.strip text in
          if negb (PyStr.isdigit otp) || negb (String.length otp =? 5)
          then (tbl, e, [LoginInvalidOtp])
          else if negb module_loaded
          then (delete user_id tbl, e, [LoginModuleNotLoaded])
          else
            let '((success, message), tbl1, e1) :=
              verify_otp_and_save_async tbl user_id otp e in
            if success
            then (delete user_id tbl1, e1,
                  [LoginAccountAdded (login_country state) (login_phone state) false])
            else if String.eqb message "password_required"
            then (tbl1, e1, [LoginPasswordRequired (login_phone state)])
            else (delete user_id tbl1, e1, [LoginOtpFailed message])
      | waiting_password =>
          let password := PyStr.strip text in
          if negb (PyStr.nonempty password) then (tbl, e, [LoginPasswordEmpty])
          else if negb module_loaded
          then (delete user_id tbl, e, [LoginModuleNotLoaded])
          else
            let '((success, message), tbl1, e1) :=
              verify_2fa_password_async tbl user_id password e in
            if success
            then (delete user_id tbl1, e1,
                  [LoginAccountAdded (login_country state) (login_phone state) true])
            else (delete user_id tbl1, e1, [LoginPasswordFailed message])
      end
  end.

(** [handle_cancel_login]. *)
Definition handle_cancel_login (user_id : Z) (tbl : gmap Z LoginState) (e : W)
    : LoginResult :=
  match tbl !! user_id with
  | None => (tbl, e, [LoginCancelled])
  | Some state =>
      let e1 :=
        match login_client state with
        | Some c =>
            if module_loaded
            then PyrogramClientManager.safe_disconnect pyro (Some c) e
            else e
        | None => e
        end in
      (delete user_id tbl, e1, [LoginCancelled])
  end.

Definition handle_login_country_selection (user_id : Z) (country_name : string)
    (tbl : gmap Z LoginState) (e : W) : LoginResult :=
  match tbl !! user_id with
  | None => (tbl, e, [LoginSessionExpired])
  | Some state =>
      (<[user_id := set_login_country (Some country_name) state]> tbl, e,
       [LoginSelectMode country_name])
  end.

(** [is_admin], [is_user_banned] and the names [get_all_countries] finds;
    the last two read the database. *)
Variable is_admin : Z -> bool.
Variable is_user_banned : Z -> W -> bool.
Variable get_all_countries : W -> list string.

(** The branches of [handle_callbacks] that a login uses.  [add_account]
    replaces the entry of the user before it looks for countries;
    [single_account_] on a user without an entry raises KeyError, which the
    handler answers and reports to an admin. *)
Definition login_callbacks (user_id : Z) (data : LoginCallback)
    (tbl : gmap Z LoginState) (e : W) : LoginResult :=
  if is_user_banned user_id e then (tbl, e, [LoginBanned])
  else
    match data with
    | add_account =>
        if negb (is_admin user_id) then (tbl, e, [LoginUnauthorized])
        else
          let tbl1 :=
            <[user_id := mkLoginState select_country None None None None None]> tbl in
          match get_all_countries e with
          | [] => (tbl1, e, [LoginNoCountries])
          | countries => (tbl1, e, [LoginSelectCountry countries])
          end
    | login_country_ country_name =>
        handle_login_country_selection user_id country_name tbl e
    | single_account_ country_name =>
        match tbl !! user_id with
        | None =>
            (tbl, e,
             LoginCallbackError ::
             (if is_admin user_id then [LoginCallbackReport user_id] else []))
        | Some state =>
            (<[user_id := set_login_step entering_phone
                            (set_login_country (Some country_name) state)]> tbl,
             e, [LoginEnterPhone country_name])
        end
    | cancel_login => handle_cancel_login user_id tbl e
    end.

(** What reaches the login: a callback, a text that no earlier handler
    took, or anything else the bot does, which leaves [login_states] alone
    and may change the environment. *)
Inductive LoginEvent :=
| LoginPressed (data : LoginCallback)
| LoginTyped (text : string)
| LoginElsewhere (change : W -> W).

Definition login_event (user_id : Z) (ev : LoginEvent)
    (tbl : gmap Z LoginState) (e : W) : LoginResult :=
  match ev with
  | LoginPressed data => login_callbacks user_id data tbl e
  | LoginTyped text => handle_login_flow_messages user_id text tbl e
  | LoginElsewhere change => (tbl, change e, [])
  end.

(** The updates of a run, oldest first; the messages accumulate. *)
Fixpoint login_run (updates : list (Z * LoginEvent)) (tbl : gmap Z LoginState) (e : W)
    : LoginResult :=
  match updates with
  | [] => (tbl, e, [])
  | (user_id, ev) :: rest =>
      let '(tbl1, e1, sent) := login_event user_id ev tbl e in
      let '(tbl2, e2, sent2) := login_run rest tbl1 e1 in
      (tbl2, e2, sent ++ sent2)
  end.

End Login.

Arguments LoginEvent W : clear implicits.

(** ** Looking for the login code in the chats ([otp_searcher], [account.py]) *)

Module PyRe.

(** The class [\w] of [re] on [str] patterns, on the code points 0..255:
    the letters, the digits and the other numbers, and the underscore. *)
Definition is_word (c : ascii) : bool :=
  let n := PyStr.ord c in
  ((48 <=? n) && (n <=? 57)) || ((65 <=? n) && (n <=? 90)) || (n =? 95)
  || ((97 <=? n) && (n <=? 122))
  || (n =? 170) || (n =? 178) || (n =? 179) || (n =? 181) || (n =? 185) || (n =? 186)
  || ((188 <=? n) && (n <=? 190))
  || ((192 <=? n) && (n <=? 214)) || ((216 <=? n) && (n <=? 246)) || (248 <=? n).

(** [\d{5}\b] at the start of [s]: five decimal digits that no word
    character follows. *)
Definition code_here (s : string) : option string :=
  match s with
  | String a (String b (String c (String d (String e rest)))) =>
      if PyStr.is_decimal a && PyStr.is_decimal b && PyStr.is_decimal c
         && PyStr.is_decimal d && PyStr.is_decimal e
         && negb (match rest with
                  | String x _ => is_word x
                  | EmptyString => false
                  end)
      then Some (String a (String b (String c (String d (String e EmptyString)))))
      else None
  | _ => None
  end.

(** [re.findall(r'\b\d{5}\b', s)], scanning from the left: [skip] counts the
    characters of the last match still to pass, [after_word] tells whether
    the character before is a word character. *)
Fixpoint findall_codes (skip : nat) (after_word : bool) (s : string) : list string :=
  match s with
  | EmptyString => []
  | String c r =>
      match skip with
      | S k => findall_codes k (is_word c) r
      | O =>
          match (if after_word then None else code_here s) with
          | Some code => code :: findall_codes 4 true r
          | None => findall_codes 0 (is_word c) r
          end
      end
  end.

Definition findall (s : string) : list string := findall_codes 0 false s.

(** [keyword in s]. *)
Fixpoint contains (keyword s : string) : bool :=
  String.prefix keyword s ||
  match s with
  | EmptyString => false
  | String _ r => contains keyword r
  end.

End PyRe.

(** A message of a chat history: [message.text] and the timestamp of
    [message.date], an integer number of seconds. *)
Record ChatMessage := mkChatMessage {
  message_text : option string;
  message_date : option Z
}.

(** The chats read: ["Telegram"] and [777000]. *)
Inductive Chat :=
| ChatName (name : string)
| ChatId (id : Z).

(** The keywords of a login message.  The two further keywords of the first
    loop contain capital letters, which no lowered text contains. *)
Definition otp_keywords : list string := ["code"; "login"; "verification"].

(** The body of the two loops over a history: [latest] is the pair of
    [latest_otp] and [otp_time]. *)
Definition search_message (message : ChatMessage) (latest : option (string * Z))
    : option (string * Z) :=
  match message_text message with
  | Some text =>
      if PyStr.nonempty text
         && existsb (fun keyword => PyRe.contains keyword (PyStr.lower text)) otp_keywords
      then
        match PyRe.findall text, message_date message with
        | code :: _, Some current_time =>
            match latest with
            | None => Some (code, current_time)
            | Some (_, otp_time) =>
                if (otp_time <? current_time)%Z then Some (code, current_time) else latest
            end
        | _, _ => latest
        end
      else latest
  | None => latest
  end.

Definition search_history (messages : list ChatMessage) (latest : option (string * Z))
    : option (string * Z) :=
  fold_left (fun found message => search_message message found) messages latest.

Section OtpSearcher.

Context {W : Type}.
Variable pyro : Pyrogram W.

(** [Client(name, session_string=session_string, ...)]. *)
Variable session_client : string -> W -> Client * W.

(** [client.get_chat_history(chat, limit=...)]: the messages it yields,
    newest first, and the exception that ended it, if any. *)
Variable get_chat_history :
  Client -> Chat -> nat -> W -> (list ChatMessage * option PyroError) * W.

(** [otp_searcher]: the histories are read between [connect] and
    [disconnect]; an exception of the first history skips the second, and
    [777000] is read only when ["Telegram"] gave no code. *)
Definition otp_searcher (session_string : string) (e : W) : option string * W :=
  let '(client, e1) := session_client session_string e in
  let '(raised, e2) := client_connect pyro client e1 in
  match raised with
  | Some _ => (None, (client_disconnect pyro client e2).2)
  | None =>
      let '((telegram, raised1), e3) := get_chat_history client (ChatName "Telegram") 50 e2 in
      let latest := search_history telegram None in
      let '(latest_otp, e5) :=
        match raised1, latest with
        | None, None =>
            let '((service, _), e4) := get_chat_history client (ChatId 777000) 50 e3 in
            (search_history service None, e4)
        | _, _ => (latest, e3)
        end in
      (option_map fst latest_otp, (client_disconnect pyro client e5).2)
  end.

(** [get_latest_otp_async], and [get_latest_otp_sync] which runs it. *)
Definition get_latest_otp_async (session_string : string) (e : W) : option string * W :=
  otp_searcher session_string e.

End OtpSearcher.

(** A small Pyrogram for the examples: the environment is the list of the
    connected clients; clients are numbered from 1 by the number of the
    connected ones; the phone number [+910000000000] is flooded, the code
    [22222] meets a second factor, the code [00000] is wrong, and the only
    password is [secret]. *)
Definition toy_connected (c : Client) (e : list Client) : bool :=
  bool_decide (c ∈ e).

Definition toy_pyrogram : Pyrogram (list Client) :=
  mkPyrogram (list Client)
    (fun e => (S (length e), e))
    toy_connected
    (fun _ _ => true)
    (fun _ e => (Some (OtherError "ping"), e))
    (fun c e => (None, c :: e))
    (fun c e => (None, List.filter (fun x => negb (x =? c)) e))
    (fun _ phone e =>
       if String.eqb phone "+910000000000" then (inl (FloodWait 30), e)
       else (inr ("hash-" +:+ phone), e))
    (fun _ _ _ code e =>
       if String.eqb code "22222" then (Some SessionPasswordNeeded, e)
       else if String.eqb code "00000" then (Some (OtherError "PHONE_CODE_INVALID"), e)
       else (None, e))
    (fun _ password e =>
       if String.eqb password "secret" then (None, e)
       else (Some (OtherError "PASSWORD_HASH_INVALID"), e))
    (fun _ e => (inr true, e))
    (fun c e => (inr "session", e))
    (fun err => match err with
                | FloodWait _ => "FLOOD_WAIT"
                | SessionPasswordNeeded => "SESSION_PASSWORD_NEEDED"
                | OtherError text => text
                end).

Definition toy_manager : AccountManager (list Client) :=
  pyrogram_account_manager toy_pyrogram 0 None.

(** ** Vocabulary of the statements *)

(** The calls [process_next_bulk_number] can make: sending a code and
    releasing a client. *)
Definition is_send_or_disconnect (c : Call) : bool :=
  match c with
  | CallSendCode _ | CallDisconnect _ => true
  | _ => false
  end.


(** [st'] is a later state of the job [st]: the list is the same, neither the
    cursor nor a counter has gone back, and the counters have grown by what
    the cursor has. *)
Definition advanced (st st' : BulkState) : Prop :=
  phone_numbers st' = phone_numbers st /\
  total_numbers st' = total_numbers st /\
  country st' = country st /\
  current_index st <= current_index st' /\
  success_count st <= success_count st' /\
  failed_count st <= failed_count st' /\
  success_count st' + failed_count st' + current_index st =
    success_count st + failed_count st + current_index st'.

(** The counters add up to the cursor, and [total_numbers] is the length of
    the list. *)
Definition consistent (st : BulkState) : Prop :=
  success_count st + failed_count st = current_index st /\
  total_numbers st = length (phone_numbers st).

(** The [safe_disconnect] call an exit path makes for the job [st]: one, on
    the client the job holds, when it holds one and the account module is
    loaded. *)
Definition release_calls {W : Type} (am : option (AccountManager W)) (st : BulkState)
    : list Call :=
  match current_client st, am with
  | Some c, Some _ => [CallDisconnect c]
  | _, _ => []
  end.

(** The format test of [handle_bulk_otp_input]:
    [otp_code.isdigit() and len(otp_code) == 5]. *)
Definition otp_format_ok (otp_code : string) : bool :=
  PyStr.isdigit otp_code && (String.length otp_code =? 5).


(** Every state an outcome can leave is a later state of [st]. *)
Definition later {W : Type} (st : BulkState) (r : Outcome W) : Prop :=
  forall st', r.1 = Some st' -> advanced st st'.

(** Every job of the table is consistent. *)
Definition table_consistent (bulk_add_states : gmap Z BulkState) : Prop :=
  forall user_id st, bulk_add_states !! user_id = Some st -> consistent st.

(** A text the password handler passes on to the account manager: not
    empty once stripped, and not the skip token. *)
Definition usable_password (text : string) : Prop :=
  PyStr.strip text <> "" /\ PyStr.lower (PyStr.strip text) <> "skip".


(** The attempts of a new job as the specification words them: the entries
    that pass the syntactic check, in input order, capped at 50. *)
Definition spec_create_job_attempts (entries : list string) : list string :=
  take 50 (List.filter PyStr.phone_re_match entries).

(** The specification's bound on second-factor submissions, for a job that
    waits for the password: after two rejected submissions the current
    number has not failed yet and a third submission is still awaited. *)
Definition spec_third_submission_awaited {W : Type} (am : option (AccountManager W))
    (user_id : Z) (st : BulkState) (w : World W) (text1 text2 : string) : Prop :=
  let r1 := handle_bulk_password_input am user_id text1 (Some st) w in
  let r2 := handle_bulk_password_input am user_id text2 r1.1 r1.2 in
  exists st2, r2.1 = Some st2 /\ step st2 = waiting_bulk_password /\
              current_index st2 = current_index st /\
              failed_count st2 = failed_count st.


(** ** Concrete jobs used by the examples *)

Fixpoint lines_of (entries : list string) : string :=
  match entries with
  | [] => ""
  | [e] => e
  | e :: rest => e +:+ newline +:+ lines_of rest
  end.

Definition three_entries : string :=
  lines_of ["+911111111111"; "bad"; "+912222222222"].

(** Fifty-one lines: one that is not a number, then fifty numbers. *)
Definition fifty_one_entries : string :=
  lines_of ("bad" :: repeat "+911111111111" 50).

Definition run_scripted (updates : list Event) (replies : list Reply)
    : gmap Z BulkState * World (list Reply) :=
  run (Some scripted) only_admin (List.map (fun ev => (admin, ev)) updates) ∅
    (script replies).

(** A job of two numbers that waits for the password of the first. *)
Definition awaiting_password : BulkState :=
  mkBulkState "India" ["+911111111111"; "+912222222222"] 0 2 0 0 []
    (Some 1) (Some "h1") (Some "+911111111111") (Some 1) 0 waiting_bulk_password true.

(** A job of two numbers that waits for the code of the first. *)
Definition awaiting_code : BulkState :=
  mkBulkState "India" ["+911111111111"; "+912222222222"] 0 2 0 0 []
    (Some 1) (Some "h1") (Some "+911111111111") (Some 1) 0 waiting_bulk_otp true.

(** One number; the code is sent, the job is paused, and Skip is pressed
    twice. *)
Definition skip_twice_while_paused : list Event :=
  [Pressed (bulk_account "India"); Typed "+911111111111"; Pressed start_bulk_add;
   Pressed pause_bulk; Pressed skip_bulk_number; Pressed skip_bulk_number].

(** Two numbers; the first is verified and saved, sending the code to the
    second fails. *)
Definition first_saved_second_unreachable : list Event :=
  [Pressed (bulk_account "India"); Typed three_entries; Pressed start_bulk_add;
   Typed "12345"].


(** A new job on which Skip is pressed before any number was entered. *)
Definition skip_before_start : list Event :=
  [Pressed (bulk_account "India"); Pressed skip_bulk_number].

(** Three numbers; the job is paused while it waits for the code of the
    first, the code is then typed and the account saved; later the job is
    resumed. *)
Definition three_numbers : string :=
  lines_of ["+911111111111"; "+912222222222"; "+913333333333"].

Definition pause_during_first : list Event :=
  [Pressed (bulk_account "India"); Typed three_numbers; Pressed start_bulk_add;
   Pressed pause_bulk; Pressed pause_bulk; Typed "12345"].

Definition pause_during_first_replies : list Reply :=
  [ReplySend (SendOk 1 "h1" 1); ReplyOtp OtpVerified; ReplySave true "Account saved";
   ReplySend (SendOk 2 "h2" 2)].

(** One number with a second factor: the first password is rejected, the
    second accepted. *)
Definition rejected_then_accepted : list Event :=
  [Pressed (bulk_account "India"); Typed "+911111111111"; Pressed start_bulk_add;
   Typed "12345"; Typed "first"; Typed "second"].

Definition rejected_then_accepted_replies : list Reply :=
  [ReplySend (SendOk 1 "h1" 1); ReplyOtp OtpPasswordRequired;
   ReplyPassword (PasswordRejected "PASSWORD_HASH_INVALID");
   ReplyPassword PasswordAccepted; ReplySave true "Account saved"].

(** ** Further vocabulary: what every reachable job satisfies *)

(** The list of a job holds only lines that passed the pattern, at most 50
    of them, and [total_numbers] is its length. *)
Definition numbers_well_formed (st : BulkState) : Prop :=
  Forall (fun line => PyStr.phone_re_match line = true) (phone_numbers st) /\
  length (phone_numbers st) <= 50 /\
  total_numbers st = length (phone_numbers st).


(** The phone numbers of the [bulk_send_code_sync] calls of a log, in order. *)
Fixpoint sent_phones (log : list Call) : list string :=
  match log with
  | [] => []
  | CallSendCode phone :: rest => phone :: sent_phones rest
  | _ :: rest => sent_phones rest
  end.

(** The entries [bulk_number_failed] records for the numbers [phones], all
    with the same reason. *)
Definition failures_of (reason : string) (phones : list string)
    : list (option string * string) :=
  List.map (fun phone => (Some phone, reason)) phones.

(** The job of an outcome is gone only after its summary was sent. *)
Definition ends_with_summary {W : Type} (st : BulkState) (r : Outcome W) : Prop :=
  r.1 = None ->
  exists success failed shown more,
    last (outbox r.2) =
      Some (MsgSummary (country st) (total_numbers st) success failed shown more) /\
    total_numbers st <= success + failed /\
    success + failed = success_count st + failed_count st
                       + (total_numbers st - current_index st).

(** What a handler leaves of the job [st] satisfies [P]. *)
Definition keeps {W : Type} (P : BulkState -> Prop) (st : BulkState) (r : Outcome W)
    : Prop :=
  forall st', r.1 = Some st' -> P st'.

(** [st1] is a state of the job [st] whose counters add up to its cursor. *)
Definition same_job (st st1 : BulkState) : Prop :=
  country st1 = country st /\ total_numbers st1 = total_numbers st /\
  success_count st1 + failed_count st1 = current_index st1.


(** A login that waits for the code or for the password holds all that
    the verification reads: the country, the client, a phone number of the
    accepted form, the hash of the code and the manager. *)
Definition login_entry_complete (state : LoginState) : Prop :=
  login_step state = waiting_otp \/ login_step state = waiting_password ->
  is_Some (login_country state) /\
  is_Some (login_client state) /\
  (exists phone, login_phone state = Some phone /\ PyStr.phone_re_match phone = true) /\
  is_Some (login_phone_code_hash state) /\
  is_Some (login_manager state).

(** The last character of a string. *)
Fixpoint last_char (s : string) : option ascii :=
  match s with
  | EmptyString => None
  | String c EmptyString => Some c
  | String _ r => last_char r
  end.

(** What the pattern of the login code means: five decimal digits with no
    word character before or after them. *)
Definition starts_without_word (after : string) : Prop :=
  match after with
  | String x _ => PyRe.is_word x = false
  | EmptyString => True
  end.

(** [after_word] stands for the character before the text scanned. *)
Definition boundary_before (after_word : bool) (before : string) : Prop :=
  match last_char before with
  | Some c => PyRe.is_word c = false
  | None => after_word = false
  end.

Definition code_shape (code : string) : Prop :=
  String.length code = 5 /\ PyStr.all_chars PyStr.is_decimal code = true.

Definition code_from (after_word : bool) (text code : string) : Prop :=
  exists before after,
    text = before +:+ code +:+ after /\ code_shape code /\
    boundary_before after_word before /\ starts_without_word after.

Definition standalone_code (text code : string) : Prop := code_from false text code.

(** The first [skip] characters are word characters. *)
Fixpoint word_prefix (skip : nat) (s : string) : Prop :=
  match skip, s with
  | S k, String c r => PyRe.is_word c = true /\ word_prefix k r
  | _, _ => True
  end.

(** What a message offers to the search: its first code and its time, when
    it has a text with a keyword, a code and a date. *)
Definition offers (message : ChatMessage) : option (string * Z) :=
  search_message message None.

(** ** Facts about the engine *)

Section EngineFacts.

Context {W : Type}.
Implicit Types (am : option (AccountManager W)) (st : BulkState) (w : World W).

Lemma process_next_fuel_enough am (f1 : nat) :
  forall (f2 : nat) (st : BulkState) (w : World W),
    total_numbers st - current_index st <= f1 ->
    total_numbers st - current_index st <= f2 ->
    process_next_fuel am f1 st w = process_next_fuel am f2 st w.
Proof.
  induction f1 as [|f1 IH]; intros f2 st w H1 H2.
  - destruct f2 as [|f2]; [reflexivity|].
    simpl. destruct (is_processing st); simpl; [|reflexivity].
    destruct (total_numbers st <=? current_index st) eqn:E; [reflexivity|].
    apply Nat.leb_gt in E. lia.
  - destruct f2 as [|f2]; simpl.
    + destruct (is_processing st); simpl; [|reflexivity].
      destruct (total_numbers st <=? current_index st) eqn:E; [reflexivity|].
      apply Nat.leb_gt in E. lia.
    + destruct (is_processing st); simpl; [|reflexivity].
      destruct (total_numbers st <=? current_index st) eqn:E; [reflexivity|].
      apply Nat.leb_gt in E.
      destruct (phone_numbers st !! current_index st) as [phone|]; [|reflexivity].
      unfold send_bulk_otp_k, bulk_number_failed_k.
      destruct am as [a|].
      * destruct (bulk_send_code_sync a phone _) as [[c h m|err] e]; [reflexivity|].
        apply IH; simpl; lia.
      * apply IH; simpl; lia.
Qed.

(** The body of [process_next_bulk_number], as the source has it. *)
Lemma process_next_bulk_number_eq am st w :
  process_next_bulk_number am st w =
  if negb (is_processing st) then (Some st, w)
  else if total_numbers st <=? current_index st then show_bulk_summary st w
  else
    match phone_numbers st !! current_index st with
    | None => (Some st, w)
    | Some phone_number =>
        let st2 := set_password_attempts 0 (set_current_phone (Some phone_number) st) in
        send_bulk_otp am phone_number st2
          (emit (MsgProcessing (current_index st + 1) (total_numbers st) phone_number
                   (success_count st) (failed_count st)) w)
    end.
Proof.
  unfold process_next_bulk_number at 1.
  destruct (total_numbers st - current_index st) as [|n] eqn:En; simpl.
  - destruct (is_processing st); simpl; [|reflexivity].
    destruct (total_numbers st <=? current_index st) eqn:E; [reflexivity|].
    apply Nat.leb_gt in E. lia.
  - destruct (is_processing st); simpl; [|reflexivity].
    destruct (total_numbers st <=? current_index st) eqn:E; [reflexivity|].
    destruct (phone_numbers st !! current_index st) as [phone|]; [|reflexivity].
    unfold send_bulk_otp, send_bulk_otp_k, bulk_number_failed_k,
      process_next_bulk_number.
    destruct am as [a|].
    + destruct (bulk_send_code_sync a phone _) as [[c h m|err] e]; [reflexivity|].
      apply process_next_fuel_enough; simpl; lia.
    + apply process_next_fuel_enough; simpl; lia.
Qed.

Ltac solve_advanced :=
  unfold advanced, mark_failed, mark_success; simpl; repeat split; (reflexivity || lia).

Lemma advanced_refl st : advanced st st.
Proof. unfold advanced. repeat split; lia. Qed.

Lemma advanced_trans st1 st2 st3 :
  advanced st1 st2 -> advanced st2 st3 -> advanced st1 st3.
Proof.
  unfold advanced. intros (P1 & T1 & C1 & I1 & A1 & B1 & S1) (P2 & T2 & C2 & I2 & A2 & B2 & S2).
  repeat split; try congruence; lia.
Qed.

Lemma advanced_consistent st st' : advanced st st' -> consistent st -> consistent st'.
Proof.
  unfold advanced, consistent. intros (P & T & _ & I & _ & _ & S) [Hc Ht].
  split; [lia | congruence].
Qed.

Lemma advanced_mark_failed reason st : advanced st (mark_failed reason st).
Proof. unfold advanced, mark_failed. simpl. repeat split; lia. Qed.

Lemma advanced_mark_success st : advanced st (mark_success st).
Proof. unfold advanced, mark_success. simpl. repeat split; lia. Qed.

Lemma calls_disconnect am st w :
  calls (disconnect_current_client am st w) =
  calls w ++ release_calls am st.
Proof.
  unfold disconnect_current_client, release_calls.
  destruct (current_client st), am; simpl; try reflexivity;
    symmetry; apply app_nil_r.
Qed.

(** What [process_next_bulk_number] can do, whatever the fuel: it only sends
    codes and releases clients, and it leaves a later state of the same job. *)
Lemma process_next_fuel_trace am (fuel : nat) :
  forall st w o w',
    process_next_fuel am fuel st w = (o, w') ->
    (exists extra, calls w' = calls w ++ extra /\
                   forallb is_send_or_disconnect extra = true) /\
    (forall st', o = Some st' ->
       advanced st st' /\ is_processing st' = is_processing st /\
       success_count st' = success_count st).
Proof.
  assert (Nil : forall l : list Call, exists extra,
             l = l ++ extra /\ forallb is_send_or_disconnect extra = true).
  { intros l. exists []. rewrite app_nil_r. auto. }
  induction fuel as [|fuel IH]; intros st w o w' H; simpl in H.
  - destruct (is_processing st) eqn:Ep; simpl in H.
    + destruct (total_numbers st <=? current_index st).
      * injection H as <- <-. split; [simpl; apply Nil|]. intros st' [=].
      * destruct (phone_numbers st !! current_index st);
          injection H as <- <-; (split; [simpl; apply Nil|]);
          intros st' [= <-]; (split; [solve_advanced|]); simpl; split; congruence.
    + injection H as <- <-. split; [simpl; apply Nil|].
      intros st' [= <-]. split; [apply advanced_refl | split; congruence].
  - destruct (is_processing st) eqn:Ep; simpl in H.
    + destruct (total_numbers st <=? current_index st).
      * injection H as <- <-. split; [simpl; apply Nil|]. intros st' [=].
      * destruct (phone_numbers st !! current_index st) as [phone|].
        2:{ injection H as <- <-. split; [simpl; apply Nil|].
            intros st' [= <-]. split; [apply advanced_refl | split; congruence]. }
        unfold send_bulk_otp_k, bulk_number_failed_k in H.
        destruct am as [a|].
        -- destruct (bulk_send_code_sync a phone _) as [[c h m|err] e].
           ++ injection H as <- <-. split.
              ** exists [CallSendCode phone]. simpl. auto.
              ** intros st' [= <-]. split; [solve_advanced|]. simpl. split; congruence.
           ++ apply IH in H as [(extra & Hc & Hf) Hs]. split.
              ** rewrite calls_disconnect in Hc. unfold release_calls in Hc. simpl in Hc.
                 eexists. rewrite Hc, <- !app_assoc. split; [reflexivity|].
                 rewrite !forallb_app. simpl. rewrite Hf.
                 destruct (current_client st); reflexivity.
              ** intros st' Ho. destruct (Hs st' Ho) as (Ha & Hp & Hsc). split.
                 --- eapply advanced_trans; [|exact Ha]. solve_advanced.
                 --- rewrite Hp, Hsc. simpl. split; congruence.
        -- apply IH in H as [(extra & Hc & Hf) Hs]. split.
           ++ rewrite calls_disconnect in Hc. unfold release_calls in Hc. simpl in Hc.
              exists extra. split; [|exact Hf].
              rewrite Hc. destruct (current_client st); simpl; rewrite ?app_nil_r; reflexivity.
           ++ intros st' Ho. destruct (Hs st' Ho) as (Ha & Hp & Hsc). split.
              ** eapply advanced_trans; [|exact Ha]. solve_advanced.
              ** rewrite Hp, Hsc. simpl. split; congruence.
    + injection H as <- <-. split; [simpl; apply Nil|].
      intros st' [= <-]. split; [apply advanced_refl | split; congruence].
Qed.

Lemma process_next_trace am st w o w' :
  process_next_bulk_number am st w = (o, w') ->
  (exists extra, calls w' = calls w ++ extra /\
                 forallb is_send_or_disconnect extra = true) /\
  (forall st', o = Some st' ->
     advanced st st' /\ is_processing st' = is_processing st /\
     success_count st' = success_count st).
Proof. apply process_next_fuel_trace. Qed.

Lemma later_here st w : later st (Some st, w).
Proof. intros st' [= <-]. apply advanced_refl. Qed.

Lemma later_step st st1 (r : Outcome W) : advanced st st1 -> later st1 r -> later st r.
Proof. intros H1 H2 st' E. eapply advanced_trans; [exact H1 | apply H2, E]. Qed.

Lemma later_process_next am st w : later st (process_next_bulk_number am st w).
Proof.
  intros st' E. destruct (process_next_bulk_number am st w) as [o w'] eqn:R.
  apply process_next_trace in R as [_ Hs]. apply Hs, E.
Qed.

Lemma later_bulk_number_failed am reason st w : later st (bulk_number_failed am reason st w).
Proof.
  unfold bulk_number_failed, bulk_number_failed_k.
  eapply later_step; [apply advanced_mark_failed | apply later_process_next].
Qed.

Lemma later_bulk_number_success am st w : later st (bulk_number_success am st w).
Proof.
  unfold bulk_number_success.
  eapply later_step; [apply advanced_mark_success | apply later_process_next].
Qed.

Lemma later_save_bulk_account am user_id password st w :
  later st (save_bulk_account am user_id password st w).
Proof.
  unfold save_bulk_account. destruct am as [a|].
  - destruct (bulk_save_account_sync a _ _ _ _ _ _ _) as [[[] msg] e].
    + apply later_bulk_number_success.
    + apply later_bulk_number_failed.
  - apply later_bulk_number_failed.
Qed.

Lemma later_handle_bulk_otp_input am user_id text st w :
  later st (handle_bulk_otp_input am user_id text (Some st) w).
Proof.
  unfold handle_bulk_otp_input.
  destruct (negb (Step_eqb (step st) waiting_bulk_otp)); [apply later_here|].
  destruct (String.eqb _ "skip"); [apply later_bulk_number_failed|].
  destruct (negb _ || negb _); [apply later_here|].
  destruct am as [a|]; [|apply later_bulk_number_failed].
  destruct (bulk_verify_otp_sync a _ _ _ _ _ _) as [[| |err] e].
  - apply later_save_bulk_account.
  - intros st' [= <-]. solve_advanced.
  - apply later_bulk_number_failed.
Qed.

Lemma later_handle_bulk_password_input am user_id text st w :
  later st (handle_bulk_password_input am user_id text (Some st) w).
Proof.
  unfold handle_bulk_password_input.
  destruct (negb (Step_eqb (step st) waiting_bulk_password)); [apply later_here|].
  destruct (String.eqb _ "skip"); [apply later_bulk_number_failed|].
  destruct (negb (PyStr.nonempty _)); [apply later_here|].
  assert (A : advanced st (set_password_attempts (password_attempts st + 1) st))
    by solve_advanced.
  destruct (2 <? _).
  { eapply later_step; [exact A | apply later_bulk_number_failed]. }
  destruct am as [a|].
  2:{ eapply later_step; [exact A | apply later_bulk_number_failed]. }
  destruct (bulk_verify_password_sync a _ _ _ _) as [[|err] e].
  - eapply later_step; [exact A | apply later_save_bulk_account].
  - destruct (2 <=? _).
    + eapply later_step; [exact A | apply later_bulk_number_failed].
    + intros st' [= <-]. exact A.
Qed.

Lemma classify_lines_filter (lines : list string) :
  classify_lines lines =
  (List.filter PyStr.phone_re_match lines,
   List.filter (fun l => negb (PyStr.phone_re_match l)) lines).
Proof.
  induction lines as [|l rest IH]; [reflexivity|].
  simpl. rewrite IH. destruct (PyStr.phone_re_match l); reflexivity.
Qed.

Lemma handle_event_consistent am is_admin user_id ev o w :
  (forall st, o = Some st -> consistent st) ->
  forall st', (handle_event am is_admin user_id ev o w).1 = Some st' -> consistent st'.
Proof.
  intros Ho st'.
  assert (L : forall st (r : Outcome W), o = Some st -> later st r ->
              r.1 = Some st' -> consistent st').
  { intros st r E Hl Hr. eapply advanced_consistent; [apply Hl, Hr | apply Ho, E]. }
  destruct ev as [data|text]; simpl.
  - destruct data as [c| | | | |]; simpl.
    + destruct (negb (is_admin user_id)); simpl.
      * apply Ho.
      * intros [= <-]. split; reflexivity.
    + destruct (negb (is_admin user_id)); simpl; [apply Ho|].
      destruct o as [st|]; [|intros [=]].
      destruct (phone_numbers st) eqn:Ep; simpl; [apply Ho|].
      apply (L st); [reflexivity|]. unfold start_bulk_processing.
      eapply later_step; [|apply later_process_next]. solve_advanced.
    + destruct o; simpl; intros [=].
    + destruct o as [st|]; simpl; intros [= <-].
      eapply advanced_consistent; [|apply Ho; reflexivity]. solve_advanced.
    + destruct o as [st|]; [|intros [=]].
      apply (L st); [reflexivity|].
      eapply later_step; [|apply later_process_next]. solve_advanced.
    + destruct o as [st|]; [|intros [=]].
      apply (L st); [reflexivity|].
      eapply later_step; [|apply later_process_next]. solve_advanced.
  - unfold handle_message. destruct o as [st|]; [|intros [=]].
    destruct (step st) eqn:Es.
    + unfold handle_bulk_numbers_input. rewrite Es. simpl.
      rewrite classify_lines_filter.
      destruct (List.filter PyStr.phone_re_match _) as [|v vs] eqn:Ev; simpl.
      * apply Ho.
      * intros [= <-]. destruct (Ho st eq_refl) as [Hc _].
        split; simpl; [exact Hc | reflexivity].
    + apply Ho.
    + apply (L st); [reflexivity | apply later_handle_bulk_otp_input].
    + apply (L st); [reflexivity | apply later_handle_bulk_password_input].
Qed.

Lemma dispatch_consistent am is_admin tbl user_id ev w :
  table_consistent tbl ->
  table_consistent (dispatch am is_admin tbl user_id ev w).1.
Proof.
  intros Ht. unfold dispatch.
  pose proof (handle_event_consistent am is_admin user_id ev (tbl !! user_id) w
                (fun st E => Ht user_id st E)) as Hh.
  destruct (handle_event am is_admin user_id ev (tbl !! user_id) w) as [o w1].
  simpl in *. intros u st. destruct o as [st1|].
  - rewrite lookup_insert. case_decide.
    + intros [= <-]. apply Hh. reflexivity.
    + apply Ht.
  - rewrite lookup_delete. case_decide; [intros [=] | apply Ht].
Qed.

Lemma run_consistent am is_admin (updates : list (Z * Event)) :
  forall tbl w, table_consistent tbl ->
    table_consistent (run am is_admin updates tbl w).1.
Proof.
  induction updates as [|[u ev] rest IH]; intros tbl w Ht; simpl; [exact Ht|].
  pose proof (dispatch_consistent am is_admin tbl u ev w Ht) as Hd.
  destruct (dispatch am is_admin tbl u ev w) as [t1 w1]. apply IH, Hd.
Qed.

(** No reachable job can make the lookup [phone_numbers[current_index]] of
    [process_next_bulk_number] fail. *)
Lemma run_total_numbers am is_admin (updates : list (Z * Event)) w user_id st :
  (run am is_admin updates ∅ w).1 !! user_id = Some st ->
  current_index st < total_numbers st ->
  is_Some (phone_numbers st !! current_index st).
Proof.
  intros H Hlt.
  assert (Hc : consistent st).
  { eapply (run_consistent am is_admin updates ∅ w); [|exact H].
    intros u s. rewrite lookup_empty. intros [=]. }
  apply lookup_lt_is_Some. destruct Hc as [_ <-]. exact Hlt.
Qed.

Lemma process_next_paused am st w :
  is_processing st = false -> process_next_bulk_number am st w = (Some st, w).
Proof. intros H. rewrite process_next_bulk_number_eq, H. reflexivity. Qed.

(** C10: while the job waits for the second-factor password, a text that is
    empty after stripping is answered with "Password cannot be empty" and
    nothing else happens: the job record (with [password_attempts],
    [current_index], the counters and [step]) is the same, and the account
    manager is not called. *)
Theorem empty_password_changes_nothing am user_id text st w :
  step st = waiting_bulk_password ->
  PyStr.strip text = "" ->
  let r := handle_bulk_password_input am user_id text (Some st) w in
  r.1 = Some st /\ calls r.2 = calls w /\ env r.2 = env w /\
  outbox r.2 = outbox w ++ [MsgPasswordEmpty].
Proof.
  intros Hs Ht. unfold handle_bulk_password_input. rewrite Hs, Ht. simpl. auto.
Qed.

Lemma calls_process_next am st w :
  exists extra,
    calls (process_next_bulk_number am st w).2 = calls w ++ extra /\
    forallb is_send_or_disconnect extra = true.
Proof.
  destruct (process_next_bulk_number am st w) as [o w'] eqn:R.
  apply process_next_trace in R as [H _]. exact H.
Qed.

Lemma calls_bulk_number_failed am reason st w :
  exists extra,
    calls (bulk_number_failed am reason st w).2 = calls w ++ release_calls am st ++ extra /\
    forallb is_send_or_disconnect extra = true.
Proof.
  unfold bulk_number_failed, bulk_number_failed_k.
  destruct (calls_process_next am (mark_failed reason st)
              (disconnect_current_client am st w)) as (extra & Hc & Hf).
  exists extra. rewrite Hc, calls_disconnect, <- app_assoc. auto.
Qed.



(** Five decimal digits pass the format test of the code. *)
Lemma otp_format_ok_decimal (otp_code : string) :
  PyStr.all_chars PyStr.is_decimal otp_code = true ->
  String.length otp_code = 5 ->
  otp_format_ok otp_code = true.
Proof.
  intros Hd Hl. unfold otp_format_ok. rewrite Hl. simpl. rewrite andb_true_r.
  unfold PyStr.isdigit. destruct otp_code as [|c r]; [discriminate|].
  clear Hl. revert Hd. generalize (String c r). intros s.
  induction s as [|x xs IH]; simpl; [reflexivity|].
  intros [Hx Hxs]%andb_true_iff. rewrite (IH Hxs), andb_true_r.
  unfold PyStr.is_digit_char. rewrite Hx. reflexivity.
Qed.


(** C5: the token [skip], in any letter case, typed while the job waits for
    the code or for the password, skips the current number whatever
    [is_processing] is: the number is recorded as failed with the reason
    "Skipped by admin", [failed_count] and [current_index] grow by one, and
    [process_next_bulk_number] runs on that state (it leaves it as it is
    when the job is paused). *)
Theorem skip_token_skips_current_number am user_id text st w :
  PyStr.lower (PyStr.strip text) = "skip" ->
  let skipped := mark_failed "Skipped by admin" st in
  let expected :=
    process_next_bulk_number am skipped (disconnect_current_client am st w) in
  (step st = waiting_bulk_otp ->
     handle_bulk_otp_input am user_id text (Some st) w = expected) /\
  (step st = waiting_bulk_password ->
     handle_bulk_password_input am user_id text (Some st) w = expected) /\
  failed_count skipped = failed_count st + 1 /\
  current_index skipped = current_index st + 1 /\
  failed_numbers skipped = failed_numbers st ++ [(current_phone st, "Skipped by admin")] /\
  success_count skipped = success_count st /\
  (is_processing st = false -> expected.1 = Some skipped) /\
  (forall st', expected.1 = Some st' ->
     failed_count st + 1 <= failed_count st' /\
     current_index st + 1 <= current_index st').
Proof.
  intros Hk skipped expected. subst skipped expected.
  repeat split.
  - intros Hs. unfold handle_bulk_otp_input. rewrite Hs, Hk. reflexivity.
  - intros Hs. unfold handle_bulk_password_input. rewrite Hs, Hk. reflexivity.
  - intros Hp. rewrite process_next_paused; [reflexivity | exact Hp].
  - apply later_process_next in H as (_ & _ & _ & _ & _ & Hf & _). simpl in Hf. lia.
  - apply later_process_next in H as (_ & _ & _ & Hi & _). simpl in Hi. lia.
Qed.

(** C2: in every job of every table reached from the empty table by any
    sequence of updates, with any account manager,
    [success_count + failed_count = current_index]. *)
Theorem counters_add_up_to_cursor am is_admin (updates : list (Z * Event)) w user_id st :
  (run am is_admin updates ∅ w).1 !! user_id = Some st ->
  success_count st + failed_count st = current_index st.
Proof.
  intros H.
  assert (Hc : consistent st).
  { eapply (run_consistent am is_admin updates ∅ w); [|exact H].
    intros u s. rewrite lookup_empty. intros [=]. }
  apply Hc.
Qed.







Lemma process_next_running am st w phone :
  is_processing st = true ->
  current_index st < total_numbers st ->
  phone_numbers st !! current_index st = Some phone ->
  process_next_bulk_number am st w =
  send_bulk_otp am phone (set_password_attempts 0 (set_current_phone (Some phone) st))
    (emit (MsgProcessing (current_index st + 1) (total_numbers st) phone
             (success_count st) (failed_count st)) w).
Proof.
  intros Hp Hlt Hph. rewrite process_next_bulk_number_eq, Hp, Hph. simpl.
  replace (total_numbers st <=? current_index st) with false
    by (symmetry; apply Nat.leb_gt; lia).
  reflexivity.
Qed.

Lemma calls_send_bulk_otp a phone st w :
  exists rest,
    calls (send_bulk_otp (Some a) phone st w).2 = calls w ++ CallSendCode phone :: rest.
Proof.
  unfold send_bulk_otp, send_bulk_otp_k.
  destruct (bulk_send_code_sync a phone (env w)) as [[c h m|err] e].
  - exists []. reflexivity.
  - destruct (calls_bulk_number_failed (Some a) ("Failed to send OTP: " +:+ err) st
                (invoke (CallSendCode phone) e w)) as (extra & Hc & _).
    unfold bulk_number_failed in Hc. eexists. rewrite Hc. simpl.
    rewrite <- app_assoc. reflexivity.
Qed.

(** What [bulk_save_account_async] answers when the session string cannot be
    exported, when the collection is missing, and when the insert raises:
    [(False, message)] each time. *)
Lemma bulk_save_account_async_failures
    (get_session_string : option Client -> W -> option string * W)
    (insert_one : AccountData -> W -> option string * W)
    client phone country_name user_id manager password (e e1 : W) :
  (get_session_string client e = (None, e1) ->
   forall col,
     bulk_save_account_async get_session_string col client phone country_name user_id
       manager password e = ((false, "Failed to get session string"), e1)) /\
  (forall session,
     session <> "" ->
     get_session_string client e = (Some session, e1) ->
     bulk_save_account_async get_session_string None client phone country_name user_id
       manager password e = ((false, "Database collection not available"), e1)) /\
  (forall session data error e2,
     session <> "" ->
     get_session_string client e = (Some session, e1) ->
     data = mkAccountData country_name phone session
              (match password with Some _ => true | None => false end)
              password "active" false user_id ->
     insert_one data e1 = (Some error, e2) ->
     bulk_save_account_async get_session_string (Some insert_one) client phone
       country_name user_id manager password e = ((false, error), e2)).
Proof.
  unfold bulk_save_account_async. repeat split.
  - intros -> col. reflexivity.
  - intros session Hn ->. destruct session; [contradiction | reflexivity].
  - intros session data error e2 Hn -> -> Hi.
    destruct session; [contradiction|]. rewrite Hi. reflexivity.
Qed.

(** C7: when saving the verified account fails ([bulk_save_account_sync]
    answers [(False, message)]), only the current number fails: it is recorded with the reason "Save error: ..." and counted in
    [failed_count], not in [success_count]; the save is not tried again (the
    calls that follow only release clients and send codes); the cursor moves
    on, and a running job sends the code to the next number. *)
Theorem save_failure_fails_only_this_number a user_id password st w message e :
  bulk_save_account_sync a (current_client st) (current_phone st) (country st) user_id
    (current_manager st) password (env w) = ((false, message), e) ->
  let save_call := CallSaveAccount (current_client st) (current_phone st) (country st)
                     user_id (current_manager st) password in
  let failed := mark_failed ("Save error: " +:+ message) st in
  let r := save_bulk_account (Some a) user_id password st w in
  r = process_next_bulk_number (Some a) failed
        (disconnect_current_client (Some a) st (invoke save_call e w)) /\
  failed_count failed = failed_count st + 1 /\
  current_index failed = current_index st + 1 /\
  success_count failed = success_count st /\
  failed_numbers failed =
    failed_numbers st ++ [(current_phone st, "Save error: " +:+ message)] /\
  (exists extra,
     calls r.2 = calls w ++ save_call :: release_calls (Some a) st ++ extra /\
     forallb is_send_or_disconnect extra = true) /\
  (forall st', r.1 = Some st' ->
     success_count st' = success_count st /\
     failed_count st + 1 <= failed_count st' /\
     current_index st + 1 <= current_index st' /\
     phone_numbers st' = phone_numbers st) /\
  (is_processing st = true ->
   forall phone,
     current_index st + 1 < total_numbers st ->
     phone_numbers st !! (current_index st + 1) = Some phone ->
     exists rest,
       calls r.2 =
         calls w ++ save_call :: release_calls (Some a) st ++ CallSendCode phone :: rest).
Proof.
  intros Hsave save_call failed r.
  assert (Hr : r = process_next_bulk_number (Some a) failed
                     (disconnect_current_client (Some a) st (invoke save_call e w))).
  { subst r. unfold save_bulk_account. rewrite Hsave. reflexivity. }
  split; [exact Hr|]. repeat split.
  - destruct (calls_process_next (Some a) failed
                (disconnect_current_client (Some a) st (invoke save_call e w)))
      as (extra & Hc & Hf).
    exists extra. rewrite Hr, Hc, calls_disconnect. simpl.
    rewrite <- !app_assoc. auto.
  - rewrite Hr in H.
    destruct (process_next_bulk_number (Some a) failed _) as [o w'] eqn:R.
    apply process_next_trace in R as [_ Hs]. destruct (Hs st' H) as (_ & _ & ->).
    reflexivity.
  - rewrite Hr in H. apply later_process_next in H as (_ & _ & _ & _ & _ & Hf & _).
    simpl in Hf. lia.
  - rewrite Hr in H. apply later_process_next in H as (_ & _ & _ & Hi & _).
    simpl in Hi. lia.
  - rewrite Hr in H. apply later_process_next in H as (Hp & _). exact Hp.
  - intros Hp phone Hlt Hph.
    rewrite Hr, (process_next_running (Some a) failed _ phone);
      [| exact Hp | simpl; lia | exact Hph].
    match goal with
    | |- context [send_bulk_otp (Some a) phone ?s ?w0] =>
        destruct (calls_send_bulk_otp a phone s w0) as (rest & Hc)
    end.
    exists rest. rewrite Hc. simpl. rewrite calls_disconnect. simpl.
    rewrite <- !app_assoc. reflexivity.
Qed.


(** C1, as the code has it: two submissions of the second-factor password
    are allowed, not three.  After the first rejected one the job still waits
    for the password, with [password_attempts = 1] and "1 attempt(s) left";
    a second rejected one fails the number; a second accepted one goes on to
    save the account with [password_attempts = 2], and the number succeeds
    when the save does. *)
Theorem second_factor_allows_two_submissions a user_id st w text1 text2 err1 e1 :
  step st = waiting_bulk_password ->
  password_attempts st = 0 ->
  usable_password text1 ->
  usable_password text2 ->
  let password1 := PyStr.strip text1 in
  let password2 := PyStr.strip text2 in
  bulk_verify_password_sync a (current_client st) password1 (current_manager st) (env w)
    = (PasswordRejected err1, e1) ->
  let st1 := set_password_attempts 1 st in
  let st2 := set_password_attempts 2 st in
  let w1 := emit (MsgIncorrectPassword 1)
              (invoke (CallVerifyPassword (current_client st) password1
                         (current_manager st)) e1 w) in
  let second e2 := invoke (CallVerifyPassword (current_client st) password2
                             (current_manager st)) e2 w1 in
  handle_bulk_password_input (Some a) user_id text1 (Some st) w = (Some st1, w1) /\
  (forall err2 e2,
     bulk_verify_password_sync a (current_client st) password2 (current_manager st) e1
       = (PasswordRejected err2, e2) ->
     handle_bulk_password_input (Some a) user_id text2 (Some st1) w1 =
       process_next_bulk_number (Some a) (mark_failed ("Password error: " +:+ err2) st2)
         (disconnect_current_client (Some a) st (second e2)) /\
     failed_count (mark_failed ("Password error: " +:+ err2) st2) = failed_count st + 1 /\
     current_index (mark_failed ("Password error: " +:+ err2) st2) = current_index st + 1) /\
  (forall e2,
     bulk_verify_password_sync a (current_client st) password2 (current_manager st) e1
       = (PasswordAccepted, e2) ->
     handle_bulk_password_input (Some a) user_id text2 (Some st1) w1 =
       save_bulk_account (Some a) user_id (Some password2) st2 (second e2) /\
     password_attempts st2 = 2 /\
     (forall message e3,
        bulk_save_account_sync a (current_client st) (current_phone st) (country st)
          user_id (current_manager st) (Some password2) e2 = ((true, message), e3) ->
        exists w3,
          save_bulk_account (Some a) user_id (Some password2) st2 (second e2) =
            process_next_bulk_number (Some a) (mark_success st2) w3 /\
          success_count (mark_success st2) = success_count st + 1 /\
          current_index (mark_success st2) = current_index st + 1)).
Proof.
  intros Hs Ha [Hn1 Hk1] [Hn2 Hk2] password1 password2 Hv1 st1 st2 w1 second.
  subst password1 password2.
  apply String.eqb_neq in Hk1, Hk2.
  assert (N1 : PyStr.nonempty (PyStr.strip text1) = true)
    by (destruct (PyStr.strip text1); [contradiction | reflexivity]).
  assert (N2 : PyStr.nonempty (PyStr.strip text2) = true)
    by (destruct (PyStr.strip text2); [contradiction | reflexivity]).
  split; [|split].
  - unfold handle_bulk_password_input. rewrite Hs, Hk1, N1. simpl.
    rewrite Ha. simpl. rewrite Hv1. simpl. reflexivity.
  - intros err2 e2 Hv2. split; [|split; reflexivity].
    unfold handle_bulk_password_input. simpl. rewrite Hs, Hk2, N2. simpl.
    rewrite ?Ha. simpl. rewrite Hv2. simpl. reflexivity.
  - intros e2 Hv2. split; [|split; [reflexivity|]].
    + unfold handle_bulk_password_input. simpl. rewrite Hs, Hk2, N2. simpl.
      rewrite ?Ha. simpl. rewrite Hv2. simpl. reflexivity.
    + intros message e3 Hsv. unfold save_bulk_account. simpl. rewrite Hsv.
      eexists. split; [reflexivity | split; reflexivity].
Qed.

Lemma length_filter_take (f : string -> bool) (n : nat) (l : list string) :
  length (List.filter f (take n l)) <= n.
Proof.
  transitivity (length (take n l)).
  - induction (take n l) as [|x xs IH]; simpl; [lia|].
    destruct (f x); simpl; lia.
  - rewrite length_take. lia.
Qed.

(** C4, as the code has it: of the non-empty stripped lines of the message,
    only the first 50 are looked at; the job gets exactly those of them that
    match the pattern, in order, so at most 50; when none matches the bot
    answers "No valid phone numbers found" and the job record is unchanged.
    The three lines [+911111111111], [bad], [+912222222222] give two
    numbers. *)
Theorem numbers_are_the_valid_ones_of_the_first_fifty (text : string) st w :
  step st = waiting_numbers ->
  let kept := List.filter PyStr.phone_re_match (take 50 (input_lines text)) in
  let r := handle_bulk_numbers_input text (Some st) w in
  (kept = [] -> r = (Some st, emit MsgNoValidNumbers w)) /\
  (kept <> [] ->
     exists st', r.1 = Some st' /\
       phone_numbers st' = kept /\
       total_numbers st' = length kept /\
       step st' = confirm_numbers /\
       current_index st' = current_index st) /\
  length kept <= 50 /\
  calls r.2 = calls w /\
  input_lines three_entries = ["+911111111111"; "bad"; "+912222222222"] /\
  List.filter PyStr.phone_re_match (take 50 (input_lines three_entries)) =
    ["+911111111111"; "+912222222222"].
Proof.
  intros Hs kept r. subst r.
  unfold handle_bulk_numbers_input. rewrite Hs. simpl.
  rewrite classify_lines_filter. fold kept.
  repeat split.
  - intros ->. reflexivity.
  - intros Hk. destruct kept as [|k ks] eqn:Ek; [contradiction|].
    eexists. split; [reflexivity|]. simpl. auto.
  - apply length_filter_take.
  - destruct kept; reflexivity.
Qed.

(** The cursor of a job never goes back: every update other than the one that
    replaces the job by a new one leaves [current_index] where it was or
    further on. *)
Lemma cursor_never_goes_back am is_admin user_id ev st w st' :
  (forall c, ev <> Pressed (bulk_account c)) ->
  (handle_event am is_admin user_id ev (Some st) w).1 = Some st' ->
  current_index st <= current_index st'.
Proof.
  intros Hnew.
  assert (L : forall r : Outcome W, later st r -> r.1 = Some st' ->
              current_index st <= current_index st').
  { intros r Hl Hr. apply Hl in Hr as (_ & _ & _ & Hi & _). exact Hi. }
  destruct ev as [data|text].
  - destruct data as [c| | | | |]; simpl.
    + destruct (Hnew c). reflexivity.
    + destruct (negb (is_admin user_id)); simpl; [intros [= <-]; lia|].
      destruct (phone_numbers st); simpl; [intros [= <-]; lia|].
      apply L. unfold start_bulk_processing.
      eapply later_step; [|apply later_process_next]. solve_advanced.
    + intros [=].
    + intros [= <-]. simpl. lia.
    + apply L. eapply later_step; [|apply later_process_next]. solve_advanced.
    + apply L. eapply later_step; [|apply later_process_next]. solve_advanced.
  - unfold handle_event, handle_message. destruct (step st) eqn:Es.
    + unfold handle_bulk_numbers_input. rewrite Es. simpl.
      destruct (classify_lines _) as [[|v vs] inv]; simpl; intros [= <-]; simpl; lia.
    + intros [= <-]. lia.
    + apply L, later_handle_bulk_otp_input.
    + apply L, later_handle_bulk_password_input.
Qed.

End EngineFacts.

(** ** The theorems at concrete jobs *)

Lemma empty_password_changes_nothing_witness :
  step awaiting_password = waiting_bulk_password /\
  PyStr.strip "   " = "" /\
  let r := handle_bulk_password_input (Some scripted) admin "   "
             (Some awaiting_password) (script []) in
  r.1 = Some awaiting_password /\ calls r.2 = [] /\ env r.2 = [] /\
  outbox r.2 = [MsgPasswordEmpty].
Proof.
  split; [reflexivity|]. split; [reflexivity|].
  apply (empty_password_changes_nothing (Some scripted) admin "   "
           awaiting_password (script [])); reflexivity.
Defined.


Lemma skip_token_skips_current_number_witness :
  PyStr.lower (PyStr.strip " SKip ") = "skip" /\
  handle_bulk_otp_input (Some scripted) admin " SKip "
    (Some (set_is_processing false awaiting_code)) (script []) =
  (Some (mark_failed "Skipped by admin" (set_is_processing false awaiting_code)),
   mkWorld [] [CallDisconnect 1] []).
Proof.
  split; [reflexivity|].
  destruct (skip_token_skips_current_number (Some scripted) admin " SKip "
              (set_is_processing false awaiting_code) (script []) eq_refl)
    as (Hotp & _).
  rewrite (Hotp eq_refl). reflexivity.
Defined.

Lemma counters_add_up_to_cursor_witness :
  exists st,
    (run_scripted first_saved_second_unreachable
       [ReplySend (SendOk 1 "h1" 1); ReplyOtp OtpVerified; ReplySave true "Account saved";
        ReplySend (SendOk 2 "h2" 2)]).1 !! admin = Some st /\
    success_count st = 1 /\ failed_count st = 0 /\ current_index st = 1 /\
    success_count st + failed_count st = current_index st.
Proof.
  eexists. split; [vm_compute; reflexivity|].
  split; [reflexivity|]. split; [reflexivity|]. split; [reflexivity|].
  apply (counters_add_up_to_cursor (Some scripted) only_admin
           (List.map (fun ev => (admin, ev)) first_saved_second_unreachable)
           (script [ReplySend (SendOk 1 "h1" 1); ReplyOtp OtpVerified;
                    ReplySave true "Account saved"; ReplySend (SendOk 2 "h2" 2)])
           admin).
  vm_compute. reflexivity.
Defined.


Lemma save_failure_fails_only_this_number_witness :
  let w := script [ReplySend (SendOk 2 "h2" 2)] in
  bulk_save_account_sync failing_store (current_client awaiting_code)
    (current_phone awaiting_code) (country awaiting_code) admin
    (current_manager awaiting_code) None (env w)
    = ((false, "connection closed"), [ReplySend (SendOk 2 "h2" 2)]) /\
  exists rest,
    calls (save_bulk_account (Some failing_store) admin None awaiting_code w).2 =
      CallSaveAccount (Some 1) (Some "+911111111111") "India" admin (Some 1) None
      :: CallDisconnect 1 :: CallSendCode "+912222222222" :: rest.
Proof.
  intros w. split; [reflexivity|].
  destruct (save_failure_fails_only_this_number failing_store admin None awaiting_code w
              "connection closed" [ReplySend (SendOk 2 "h2" 2)] eq_refl)
    as (_ & _ & _ & _ & _ & _ & _ & Hnext).
  apply (Hnext eq_refl "+912222222222"); [simpl; lia | reflexivity].
Defined.


Lemma second_factor_allows_two_submissions_witness :
  let w := script [ReplyPassword (PasswordRejected "PASSWORD_HASH_INVALID");
                   ReplyPassword PasswordAccepted; ReplySave true "Account saved"] in
  let r1 := handle_bulk_password_input (Some scripted) admin "first"
              (Some awaiting_password) w in
  r1.1 = Some (set_password_attempts 1 awaiting_password) /\
  outbox r1.2 = [MsgIncorrectPassword 1].
Proof.
  intros w r1.
  assert (U1 : usable_password "first") by (split; vm_compute; discriminate).
  assert (U2 : usable_password "second") by (split; vm_compute; discriminate).
  assert (V : bulk_verify_password_sync scripted (current_client awaiting_password)
                (PyStr.strip "first") (current_manager awaiting_password) (env w)
              = (PasswordRejected "PASSWORD_HASH_INVALID",
                 [ReplyPassword PasswordAccepted; ReplySave true "Account saved"]))
    by (vm_compute; reflexivity).
  destruct (second_factor_allows_two_submissions scripted admin awaiting_password w
              "first" "second" _ _ eq_refl eq_refl U1 U2 V) as (H1 & _).
  subst r1. rewrite H1. split; reflexivity.
Defined.

Lemma numbers_are_the_valid_ones_of_the_first_fifty_witness :
  step (new_bulk_state "India") = waiting_numbers /\
  exists st',
    (handle_bulk_numbers_input three_entries (Some (new_bulk_state "India"))
       (script [])).1 = Some st' /\
    phone_numbers st' = ["+911111111111"; "+912222222222"] /\
    total_numbers st' = 2.
Proof.
  split; [reflexivity|].
  destruct (numbers_are_the_valid_ones_of_the_first_fifty three_entries
              (new_bulk_state "India") (script []) eq_refl)
    as (_ & Hkept & _).
  destruct (Hkept ltac:(discriminate)) as (st' & Hr & Hp & Ht & _).
  exists st'. split; [exact Hr|]. split; [exact Hp | exact Ht].
Defined.

(** ** Where the code and the specification part *)

(** C1 as stated fails: with an account manager that rejects every password,
    the second rejected submission already fails the number (the job goes on
    to the next one), so no third submission is awaited. *)
Lemma third_submission_is_not_awaited :
  ~ spec_third_submission_awaited (Some scripted) admin awaiting_password
      (script [ReplyPassword (PasswordRejected "PASSWORD_HASH_INVALID");
               ReplyPassword (PasswordRejected "PASSWORD_HASH_INVALID");
               ReplySend (SendOk 2 "h2" 2)])
      "first" "second".
Proof.
  intros (st2 & H & Hs & Hi & Hf). vm_compute in H. injection H as <-. discriminate.
Qed.

(** C4 as stated fails: of fifty-one lines, the first one invalid and the
    other fifty valid, the job gets forty-nine numbers, where keeping the
    valid entries and capping at 50 gives fifty. *)
Lemma fifty_first_entry_is_not_kept :
  let r := handle_bulk_numbers_input fifty_one_entries (Some (new_bulk_state "India"))
             (script []) in
  (length <$> (phone_numbers <$> r.1)) = Some 49 /\
  length (spec_create_job_attempts (input_lines fifty_one_entries)) = 50 /\
  phone_numbers <$> r.1 <> Some (spec_create_job_attempts (input_lines fifty_one_entries)).
Proof.
  split; [vm_compute; reflexivity|]. split; [vm_compute; reflexivity|].
  intros H. apply (f_equal (fmap length)) in H. vm_compute in H. discriminate.
Qed.


(** C3: the cursor does pass the end of the list.  A job of one number whose
    code has been sent is paused, and Skip is pressed twice: each press adds
    one to [current_index], and the paused [process_next_bulk_number] does
    not finish the job, so [current_index] is 2 with one number in the
    list.  Likewise Skip pressed on a new job, before any number was
    entered, gives [current_index = 1] with an empty list. *)
Theorem cursor_passes_the_end_when_skipping_while_paused :
  (exists st,
     (run_scripted skip_twice_while_paused [ReplySend (SendOk 1 "h1" 1)]).1 !! admin
       = Some st /\
     current_index st = 2 /\ total_numbers st = 1 /\ length (phone_numbers st) = 1 /\
     ~ current_index st <= length (phone_numbers st)) /\
  (exists st,
     (run_scripted skip_before_start []).1 !! admin = Some st /\
     current_index st = 1 /\ phone_numbers st = [] /\
     ~ current_index st <= length (phone_numbers st)).
Proof.
  split; (eexists; split; [vm_compute; reflexivity|]); simpl; repeat split; lia.
Qed.

(** ** Examples *)

Example strip_example : PyStr.strip "  +911111111111 " = "+911111111111".
Proof. reflexivity. Qed.

Example lower_example : PyStr.lower "SkIp" = "skip".
Proof. reflexivity. Qed.

Example split_newline_example :
  PyStr.split_newline ("a" +:+ newline +:+ newline +:+ "b") = ["a"; ""; "b"].
Proof. reflexivity. Qed.

Example phone_re_match_example :
  PyStr.phone_re_match "+911111111111" = true /\
  PyStr.phone_re_match "bad" = false /\
  PyStr.phone_re_match "+123456789" = false /\
  PyStr.phone_re_match "+1234567890123456" = false /\
  PyStr.phone_re_match "911111111111" = false /\
  PyStr.phone_re_match "+91111111111a" = false.
Proof. repeat split; reflexivity. Qed.

Example otp_format_example :
  otp_format_ok "12345" = true /\ otp_format_ok "1234" = false /\
  otp_format_ok "123456" = false /\ otp_format_ok "12a45" = false /\
  otp_format_ok "" = false.
Proof. repeat split; reflexivity. Qed.

(** A job of three numbers paused during the first: when the first is saved
    the cursor is 1, no code is sent to the second, and a second press of
    Pause changed nothing; [resume_bulk] then sends the code. *)
Example paused_job_waits_for_resume :
  (exists st,
     (run_scripted pause_during_first pause_during_first_replies).1 !! admin = Some st /\
     current_index st = 1 /\ success_count st = 1 /\ is_processing st = false) /\
  calls (run_scripted pause_during_first pause_during_first_replies).2 =
    [CallSendCode "+911111111111";
     CallVerifyOtp (Some 1) (Some "+911111111111") (Some "h1") "12345" (Some 1);
     CallSaveAccount (Some 1) (Some "+911111111111") "India" admin (Some 1) None;
     CallDisconnect 1] /\
  calls (run_scripted (pause_during_first ++ [Pressed resume_bulk])
           pause_during_first_replies).2 =
    [CallSendCode "+911111111111";
     CallVerifyOtp (Some 1) (Some "+911111111111") (Some "h1") "12345" (Some 1);
     CallSaveAccount (Some 1) (Some "+911111111111") "India" admin (Some 1) None;
     CallDisconnect 1;
     CallSendCode "+912222222222"].
Proof.
  split; [eexists; split; [vm_compute; reflexivity | repeat split]|].
  split; vm_compute; reflexivity.
Qed.

(** A second factor rejected once and then accepted: the account is saved
    with the password, and the summary counts one success. *)
Example second_password_accepted :
  (run_scripted rejected_then_accepted rejected_then_accepted_replies).1 !! admin = None /\
  calls (run_scripted rejected_then_accepted rejected_then_accepted_replies).2 =
    [CallSendCode "+911111111111";
     CallVerifyOtp (Some 1) (Some "+911111111111") (Some "h1") "12345" (Some 1);
     CallVerifyPassword (Some 1) "first" (Some 1);
     CallVerifyPassword (Some 1) "second" (Some 1);
     CallSaveAccount (Some 1) (Some "+911111111111") "India" admin (Some 1) (Some "second");
     CallDisconnect 1] /\
  last (outbox (run_scripted rejected_then_accepted rejected_then_accepted_replies).2) =
    Some (MsgSummary "India" 1 1 0 [] 0).
Proof. repeat split; vm_compute; reflexivity. Qed.

(** * Further properties of the bulk flow *)

(** ** A rule for invariants of the jobs

    A property of job records that holds of a new job and is kept by each
    assignment the handlers make holds of every job of every reachable
    table. *)

Section InvariantRule.

Context {W : Type}.
Implicit Types (am : option (AccountManager W)).
Variable is_admin : Z -> bool.
Variable P : BulkState -> Prop.

Hypothesis P_new : forall c, P (new_bulk_state c).
Hypothesis P_numbers :
  forall st text,
    P st -> step st = waiting_numbers ->
    let kept := List.filter PyStr.phone_re_match (take 50 (input_lines text)) in
    kept <> [] ->
    P (set_step confirm_numbers (set_total_numbers (length kept) (set_phone_numbers kept st))).
Hypothesis P_processing : forall st b, P st -> P (set_is_processing b st).
Hypothesis P_begin :
  forall st phone,
    P st -> phone_numbers st !! current_index st = Some phone ->
    P (set_password_attempts 0 (set_current_phone (Some phone) st)).
Hypothesis P_sent :
  forall st c h m,
    P st ->
    P (set_step waiting_bulk_otp
         (set_current_manager (Some m)
            (set_current_phone_code_hash (Some h) (set_current_client (Some c) st)))).
Hypothesis P_failed : forall st reason, P st -> P (mark_failed reason st).
Hypothesis P_success : forall st, P st -> P (mark_success st).
Hypothesis P_password_required :
  forall st, P st -> step st = waiting_bulk_otp ->
    P (set_password_attempts 0 (set_step waiting_bulk_password st)).
Hypothesis P_retry :
  forall st, P st -> step st = waiting_bulk_password ->
    password_attempts st + 1 < 2 ->
    P (set_password_attempts (password_attempts st + 1) st).

Lemma keeps_process_next_fuel am (fuel : nat) :
  forall st w, P st -> keeps P st (process_next_fuel am fuel st w).
Proof.
  induction fuel as [|fuel IH]; intros st w HP st'; simpl.
  - destruct (is_processing st); simpl; [|intros [= <-]; exact HP].
    destruct (total_numbers st <=? current_index st); [intros [=]|].
    destruct (phone_numbers st !! current_index st) as [phone|] eqn:E;
      intros [= <-]; [apply P_begin; assumption | exact HP].
  - destruct (is_processing st); simpl; [|intros [= <-]; exact HP].
    destruct (total_numbers st <=? current_index st); [intros [=]|].
    destruct (phone_numbers st !! current_index st) as [phone|] eqn:E;
      [|intros [= <-]; exact HP].
    pose proof (P_begin st phone HP E) as HB.
    unfold send_bulk_otp_k, bulk_number_failed_k.
    destruct am as [a|].
    + destruct (bulk_send_code_sync a phone _) as [[c h m|err] e].
      * intros [= <-]. apply P_sent. exact HB.
      * apply IH. apply P_failed. exact HB.
    + apply IH. apply P_failed. exact HB.
Qed.

Lemma keeps_process_next am st w : P st -> keeps P st (process_next_bulk_number am st w).
Proof. apply (keeps_process_next_fuel am). Qed.

Lemma keeps_bulk_number_failed am reason st w :
  P st -> keeps P st (bulk_number_failed am reason st w).
Proof.
  intros HP. unfold bulk_number_failed, bulk_number_failed_k.
  intros st' E. eapply (keeps_process_next am (mark_failed reason st)); [|exact E].
  apply P_failed, HP.
Qed.

Lemma keeps_bulk_number_success am st w : P st -> keeps P st (bulk_number_success am st w).
Proof.
  intros HP. unfold bulk_number_success.
  intros st' E. eapply (keeps_process_next am (mark_success st)); [|exact E].
  apply P_success, HP.
Qed.

Lemma keeps_save_bulk_account am user_id password st w :
  P st -> keeps P st (save_bulk_account am user_id password st w).
Proof.
  intros HP. unfold save_bulk_account. destruct am as [a|].
  - destruct (bulk_save_account_sync a _ _ _ _ _ _ _) as [[[] msg] e].
    + apply keeps_bulk_number_success, HP.
    + apply keeps_bulk_number_failed, HP.
  - apply keeps_bulk_number_failed, HP.
Qed.

(** After the increment of [password_attempts] the handler either fails the
    number, saves it, or keeps waiting: the incremented record itself is
    only kept when a retry is left. *)
Lemma keeps_after_attempt am reason st w :
  P st ->
  keeps P st (bulk_number_failed am reason
              (set_password_attempts (password_attempts st + 1) st) w).
Proof.
  intros HP st' E. unfold bulk_number_failed, bulk_number_failed_k in E.
  change (mark_failed reason (set_password_attempts (password_attempts st + 1) st))
    with (mark_failed reason st) in E.
  eapply (keeps_process_next am (mark_failed reason st)); [apply P_failed, HP | exact E].
Qed.

Lemma keeps_save_after_attempt am user_id password st w :
  P st ->
  keeps P st (save_bulk_account am user_id password
              (set_password_attempts (password_attempts st + 1) st) w).
Proof.
  intros HP st' E. unfold save_bulk_account in E. destruct am as [a|].
  - simpl in E.
    destruct (bulk_save_account_sync a _ _ _ _ _ _ _) as [[[] msg] e].
    + unfold bulk_number_success in E.
      change (mark_success (set_password_attempts (password_attempts st + 1) st))
        with (mark_success st) in E.
      eapply (keeps_process_next (Some a) (mark_success st)); [apply P_success, HP | exact E].
    + eapply keeps_after_attempt; [exact HP | exact E].
  - eapply keeps_after_attempt; [exact HP | exact E].
Qed.

Lemma keeps_handle_event am user_id ev o w :
  (forall st, o = Some st -> P st) ->
  forall st', (handle_event am is_admin user_id ev o w).1 = Some st' -> P st'.
Proof.
  intros Ho st'. destruct ev as [data|text].
  - destruct data as [c| | | | |]; simpl.
    + destruct (negb (is_admin user_id)); simpl; [apply Ho|].
      intros [= <-]. apply P_new.
    + destruct (negb (is_admin user_id)); simpl; [apply Ho|].
      destruct o as [st|]; [|intros [=]].
      destruct (phone_numbers st) eqn:Ep; simpl; [apply Ho|].
      unfold start_bulk_processing. apply keeps_process_next.
      apply P_processing, Ho. reflexivity.
    + destruct o; simpl; intros [=].
    + destruct o as [st|]; simpl; intros [= <-].
      apply P_processing, Ho. reflexivity.
    + destruct o as [st|]; [|intros [=]].
      apply keeps_process_next, P_processing, Ho. reflexivity.
    + destruct o as [st|]; [|intros [=]].
      apply (keeps_process_next am (mark_failed "Skipped by admin" st)).
      apply P_failed, Ho. reflexivity.
  - unfold handle_event, handle_message. destruct o as [st|]; [|intros [=]].
    pose proof (Ho st eq_refl) as HP.
    destruct (step st) eqn:Es.
    + unfold handle_bulk_numbers_input. rewrite Es. simpl.
      rewrite classify_lines_filter.
      destruct (List.filter PyStr.phone_re_match (take 50 (input_lines text)))
        as [|v vs] eqn:Ev; simpl; [intros [= <-]; exact HP|].
      intros [= <-]. pose proof (P_numbers st text HP Es) as H.
      simpl in H. rewrite Ev in H. apply H. discriminate.
    + intros [= <-]. exact HP.
    + unfold handle_bulk_otp_input. rewrite Es. simpl.
      destruct (String.eqb _ "skip"); [apply keeps_bulk_number_failed, HP|].
      destruct (negb _ || negb _); [intros [= <-]; exact HP|].
      destruct am as [a|]; [|apply keeps_bulk_number_failed, HP].
      destruct (bulk_verify_otp_sync a _ _ _ _ _ _) as [[| |err] e].
      * apply keeps_save_bulk_account, HP.
      * intros [= <-]. apply P_password_required; assumption.
      * apply keeps_bulk_number_failed, HP.
    + unfold handle_bulk_password_input. rewrite Es. cbn [negb Step_eqb].
      destruct (String.eqb _ "skip"); [apply keeps_bulk_number_failed, HP|].
      destruct (negb (PyStr.nonempty _)); [intros [= <-]; exact HP|].
      destruct (2 <? _); [apply keeps_after_attempt, HP|].
      destruct am as [a|]; [|apply keeps_after_attempt, HP].
      destruct (bulk_verify_password_sync a _ _ _ _) as [[|err] e].
      * apply keeps_save_after_attempt, HP.
      * destruct (2 <=? _) eqn:E2; [apply keeps_after_attempt, HP|].
        intros [= <-]. apply P_retry; [exact HP | exact Es |].
        apply Nat.leb_gt in E2. simpl in E2. exact E2.
Qed.

Lemma keeps_run am (updates : list (Z * Event)) :
  forall (tbl : gmap Z BulkState) w,
    (forall u st, tbl !! u = Some st -> P st) ->
    forall u st, (run am is_admin updates tbl w).1 !! u = Some st -> P st.
Proof.
  induction updates as [|[v ev] rest IH]; intros tbl w Ht; simpl; [exact Ht|].
  unfold dispatch.
  pose proof (keeps_handle_event am v ev (tbl !! v) w (fun st E => Ht v st E)) as Hh.
  destruct (handle_event am is_admin v ev (tbl !! v) w) as [o w1]. simpl in Hh.
  apply IH. intros u st. destruct o as [st1|].
  - rewrite lookup_insert. case_decide; [intros [= <-]; apply Hh; reflexivity | apply Ht].
  - rewrite lookup_delete. case_decide; [intros [=] | apply Ht].
Qed.

Lemma reachable_jobs_keep am (updates : list (Z * Event)) w u st :
  (run am is_admin updates ∅ w).1 !! u = Some st -> P st.
Proof.
  apply keeps_run. intros v s. rewrite lookup_empty. intros [=].
Qed.

End InvariantRule.

(** ** Invariants of the reachable jobs *)

Section ReachableJobs.

Context {W : Type}.
Implicit Types (am : option (AccountManager W)) (st : BulkState) (w : World W).

(** X1: every job of every reachable table holds only numbers that matched
    the pattern, at most 50 of them, and [total_numbers] is the length of
    the list. *)
Theorem reachable_numbers_are_valid am is_admin (updates : list (Z * Event)) w u st :
  (run am is_admin updates ∅ w).1 !! u = Some st ->
  numbers_well_formed st.
Proof.
  apply (reachable_jobs_keep is_admin numbers_well_formed);
    unfold numbers_well_formed; simpl; auto.
  - intros c. repeat split; [constructor | lia].
  - intros s text _ _ _. repeat split.
    + apply List.Forall_forall. intros x Hx. apply List.filter_In in Hx. apply Hx.
    + apply length_filter_take.
Qed.


(** X3: in every reachable job [password_attempts] is at most 1, so the
    test [password_attempts > 2] that follows the increment in
    [handle_bulk_password_input] never succeeds. *)
Theorem reachable_password_attempts_at_most_one
    am is_admin (updates : list (Z * Event)) w u st :
  (run am is_admin updates ∅ w).1 !! u = Some st ->
  password_attempts st <= 1 /\ (2 <? password_attempts st + 1) = false.
Proof.
  intros H.
  assert (Hle : password_attempts st <= 1).
  { revert H.
    apply (reachable_jobs_keep is_admin (fun s => password_attempts s <= 1));
      simpl; auto; intros; lia. }
  split; [exact Hle|]. apply Nat.ltb_ge. lia.
Qed.

End ReachableJobs.

(** ** The loop over the numbers *)

Section Loop.

Context {W : Type}.
Implicit Types (am : option (AccountManager W)) (st : BulkState) (w : World W).

Lemma sent_phones_app (l1 l2 : list Call) :
  sent_phones (l1 ++ l2) = sent_phones l1 ++ sent_phones l2.
Proof.
  induction l1 as [|c l1 IH]; [reflexivity|].
  destruct c; simpl; rewrite IH; reflexivity.
Qed.

Lemma sent_phones_release am st : sent_phones (release_calls am st) = [].
Proof. unfold release_calls. destruct (current_client st), am; reflexivity. Qed.

Lemma drop_lookup_cons (l : list string) (i : nat) (x : string) :
  l !! i = Some x -> drop i l = x :: drop (S i) l.
Proof.
  revert i. induction l as [|y l IH]; intros [|i] H; try discriminate.
  - injection H as ->. reflexivity.
  - simpl. apply IH. exact H.
Qed.

Lemma numbers_in_order_aux am (n : nat) :
  forall st w,
    total_numbers st - current_index st = n ->
    total_numbers st = length (phone_numbers st) ->
    let r := process_next_bulk_number am st w in
    exists extra k,
      calls r.2 = calls w ++ extra /\
      sent_phones extra = take k (drop (current_index st) (phone_numbers st)) /\
      (forall st', r.1 = Some st' -> is_processing st = true ->
         1 <= k /\ current_index st' + 1 = current_index st + k /\
         step st' = waiting_bulk_otp /\
         phone_numbers st !! current_index st' = current_phone st' /\
         is_Some (current_phone st')) /\
      (r.1 = None -> is_Some am -> k = total_numbers st - current_index st) /\
      (am = None -> k = 0) /\
      (is_processing st = false -> k = 0 /\ r.1 = Some st).
Proof.
  induction n as [|n IH]; intros st w Hn Hlen r; subst r;
    rewrite process_next_bulk_number_eq.
  - destruct (is_processing st) eqn:Ep; simpl.
    + replace (total_numbers st <=? current_index st) with true
        by (symmetry; apply Nat.leb_le; lia).
      exists [], 0. simpl. rewrite ?app_nil_r, ?take_0.
      repeat split; try discriminate; try lia.
    + exists [], 0. simpl. rewrite ?app_nil_r, ?take_0.
      repeat split; try discriminate; try lia.
  - destruct (is_processing st) eqn:Ep; simpl.
    2:{ exists [], 0. simpl. rewrite ?app_nil_r, ?take_0.
        repeat split; try discriminate; try lia. }
    replace (total_numbers st <=? current_index st) with false
      by (symmetry; apply Nat.leb_gt; lia).
    destruct (phone_numbers st !! current_index st) as [phone|] eqn:Eph.
    2:{ apply lookup_ge_None in Eph. lia. }
    pose proof (drop_lookup_cons _ _ _ Eph) as Hdrop.
    unfold send_bulk_otp, send_bulk_otp_k, bulk_number_failed_k.
    destruct am as [a|].
    + destruct (bulk_send_code_sync a phone _) as [[c h m|err] e]; simpl.
      * exists [CallSendCode phone], 1. rewrite Hdrop. simpl. rewrite ?take_0.
        repeat split; try discriminate; try lia.
        -- injection H as <-. simpl. lia.
        -- injection H as <-. reflexivity.
        -- injection H as <-. simpl. exact Eph.
        -- injection H as <-. simpl. eauto.
      * match goal with
        | |- context [process_next_bulk_number (Some a) ?s ?w0] =>
            destruct (IH s w0) as (extra & k & Hc & Hs & Hsome & Hnone & Hno & Hpause);
              [simpl; lia | simpl; exact Hlen |]
        end.
        simpl in *. rewrite calls_disconnect in Hc. simpl in Hc.
        eexists (CallSendCode phone :: release_calls (Some a) _ ++ extra), (S k).
        split; [rewrite Hc, <- !app_assoc; reflexivity|].
        split.
        { simpl. rewrite sent_phones_app, sent_phones_release, Hdrop. simpl.
          rewrite Hs. replace (current_index st + 1) with (S (current_index st)) by lia.
          reflexivity. }
        repeat split; try discriminate.
        -- destruct (Hsome st' H Ep) as (H1 & _). lia.
        -- destruct (Hsome st' H Ep) as (_ & H2 & _). lia.
        -- destruct (Hsome st' H Ep) as (_ & _ & H3 & _). exact H3.
        -- destruct (Hsome st' H Ep) as (_ & _ & _ & H4 & _). exact H4.
        -- destruct (Hsome st' H Ep) as (_ & _ & _ & _ & H5). exact H5.
        -- intros Hr _. specialize (Hnone Hr ltac:(eauto)). lia.
    + match goal with
      | |- context [process_next_bulk_number None ?s ?w0] =>
          destruct (IH s w0) as (extra & k & Hc & Hs & Hsome & Hnone & Hno & Hpause);
            [simpl; lia | simpl; exact Hlen |]
      end.
      simpl in *. specialize (Hno eq_refl). subst k.
      exists extra, 0. rewrite ?take_0 in *.
      split.
      { rewrite Hc. unfold disconnect_current_client.
        destruct (current_client _); reflexivity. }
      split; [exact Hs|].
      repeat split; try discriminate.
      -- destruct (Hsome st' H Ep) as (H1 & _). lia.
      -- destruct (Hsome st' H Ep) as (H1 & _). lia.
      -- destruct (Hsome st' H Ep) as (H1 & _). lia.
      -- destruct (Hsome st' H Ep) as (H1 & _). lia.
      -- destruct (Hsome st' H Ep) as (H1 & _). lia.
      -- intros _ [x Hx]. discriminate.
Qed.

(** X4: [process_next_bulk_number] sends codes to the numbers of the list in
    order, starting at the cursor, one call each, and stops at the first
    number whose code is sent: the job then waits for the code of exactly
    that number, which is the one at the cursor.  If no code can be sent the
    job ends after every remaining number was tried once. *)
Theorem numbers_are_tried_in_order am st w :
  total_numbers st = length (phone_numbers st) ->
  let r := process_next_bulk_number am st w in
  exists extra k,
    calls r.2 = calls w ++ extra /\
    sent_phones extra = take k (drop (current_index st) (phone_numbers st)) /\
    (forall st', r.1 = Some st' -> is_processing st = true ->
       1 <= k /\ current_index st' + 1 = current_index st + k /\
       step st' = waiting_bulk_otp /\
       phone_numbers st !! current_index st' = current_phone st' /\
       is_Some (current_phone st')) /\
    (r.1 = None -> is_Some am -> k = total_numbers st - current_index st) /\
    (am = None -> k = 0) /\
    (is_processing st = false -> k = 0 /\ r.1 = Some st).
Proof.
  intros Hlen. apply (numbers_in_order_aux am (total_numbers st - current_index st));
    [reflexivity | exact Hlen].
Qed.

Lemma without_module_aux (n : nat) :
  forall st w,
    total_numbers st - current_index st = n ->
    is_processing st = true ->
    total_numbers st = length (phone_numbers st) ->
    let r := process_next_bulk_number (@None (AccountManager W)) st w in
    let remaining := drop (current_index st) (phone_numbers st) in
    let failures := failed_numbers st ++ failures_of "Account module not loaded" remaining in
    r.1 = None /\ calls r.2 = calls w /\ env r.2 = env w /\
    last (outbox r.2) =
      Some (MsgSummary (country st) (total_numbers st) (success_count st)
              (failed_count st + length remaining)
              (take 10 failures) (length failures - 10)).
Proof.
  induction n as [|n IH]; intros st w Hn Hp Hlen r remaining failures;
    subst r; rewrite process_next_bulk_number_eq, Hp; simpl.
  - replace (total_numbers st <=? current_index st) with true
      by (symmetry; apply Nat.leb_le; lia).
    assert (Hrem : remaining = []).
    { subst remaining. apply drop_ge. lia. }
    subst failures. rewrite Hrem. simpl. rewrite app_nil_r, Nat.add_0_r.
    repeat split. unfold emit. simpl. apply last_snoc.
  - replace (total_numbers st <=? current_index st) with false
      by (symmetry; apply Nat.leb_gt; lia).
    destruct (phone_numbers st !! current_index st) as [phone|] eqn:Eph.
    2:{ apply lookup_ge_None in Eph. lia. }
    pose proof (drop_lookup_cons _ _ _ Eph) as Hdrop.
    unfold send_bulk_otp, send_bulk_otp_k, bulk_number_failed_k.
    match goal with
    | |- context [process_next_bulk_number None ?s ?w0] =>
        destruct (IH s w0) as (H1 & H2 & H3 & H4);
          [simpl; lia | simpl; exact Hp | simpl; exact Hlen |]
    end.
    simpl in *. split; [exact H1|].
    split.
    { rewrite H2. unfold disconnect_current_client. simpl.
      destruct (current_client st); reflexivity. }
    split.
    { rewrite H3. unfold disconnect_current_client. simpl.
      destruct (current_client st); reflexivity. }
    rewrite H4. subst failures remaining. rewrite Hdrop. simpl.
    replace (current_index st + 1) with (S (current_index st)) by lia.
    rewrite <- !app_assoc. simpl.
    replace (failed_count st + 1 + length (drop (S (current_index st)) (phone_numbers st)))
      with (failed_count st + S (length (drop (S (current_index st)) (phone_numbers st))))
      by lia.
    reflexivity.
Qed.

(** X5: when the account module is not loaded, starting a job fails every
    number of the list with the reason "Account module not loaded", calls
    nothing, and ends the job with the summary of these failures. *)
Theorem without_account_module_every_number_fails st w :
  total_numbers st = length (phone_numbers st) ->
  let r := start_bulk_processing (@None (AccountManager W)) st w in
  let remaining := drop (current_index st) (phone_numbers st) in
  let failures := failed_numbers st ++ failures_of "Account module not loaded" remaining in
  r.1 = None /\ calls r.2 = calls w /\ env r.2 = env w /\
  length remaining = total_numbers st - current_index st /\
  last (outbox r.2) =
    Some (MsgSummary (country st) (total_numbers st) (success_count st)
            (failed_count st + length remaining)
            (take 10 failures) (length failures - 10)).
Proof.
  intros Hlen r remaining failures. subst r. unfold start_bulk_processing.
  match goal with
  | |- context [process_next_bulk_number None ?s ?w0] =>
      destruct (without_module_aux (total_numbers s - current_index s) s w0)
        as (H1 & H2 & H3 & H4); [reflexivity | reflexivity | exact Hlen |]
  end.
  simpl in *. repeat split; try assumption.
  subst remaining. rewrite length_drop. lia.
Qed.

(** *** How a job ends *)

Lemma ends_process_next_fuel am (fuel : nat) :
  forall st w,
    success_count st + failed_count st = current_index st ->
    ends_with_summary st (process_next_fuel am fuel st w).
Proof.
  induction fuel as [|fuel IH]; intros st w Hc; unfold ends_with_summary; simpl.
  - destruct (is_processing st); simpl; [|discriminate].
    destruct (total_numbers st <=? current_index st) eqn:E.
    + intros _. apply Nat.leb_le in E. do 4 eexists.
      split; [apply last_snoc|]. lia.
    + destruct (phone_numbers st !! current_index st); discriminate.
  - destruct (is_processing st); simpl; [|discriminate].
    destruct (total_numbers st <=? current_index st) eqn:E.
    + intros _. apply Nat.leb_le in E. do 4 eexists.
      split; [apply last_snoc|]. lia.
    + apply Nat.leb_gt in E.
      destruct (phone_numbers st !! current_index st) as [phone|]; [|discriminate].
      unfold send_bulk_otp_k, bulk_number_failed_k.
      destruct am as [a|].
      * destruct (bulk_send_code_sync a phone _) as [[c h m|err] e]; [discriminate|].
        intros Hr. eapply IH in Hr; [|simpl; lia].
        destruct Hr as (s & f & sh & mo & Hl & Ht & Hs). simpl in *.
        exists s, f, sh, mo. split; [exact Hl|]. lia.
      * intros Hr. eapply IH in Hr; [|simpl; lia].
        destruct Hr as (s & f & sh & mo & Hl & Ht & Hs). simpl in *.
        exists s, f, sh, mo. split; [exact Hl|]. lia.
Qed.

Lemma summary_of_same_job am st st1 w :
  same_job st st1 ->
  (process_next_bulk_number am st1 w).1 = None ->
  exists success failed shown more,
    last (outbox (process_next_bulk_number am st1 w).2) =
      Some (MsgSummary (country st) (total_numbers st) success failed shown more) /\
    total_numbers st <= success + failed.
Proof.
  intros (Hc & Ht & Hs) Hr.
  destruct (ends_process_next_fuel am (total_numbers st1 - current_index st1) st1 w Hs Hr)
    as (s & f & sh & mo & Hl & Hle & _).
  exists s, f, sh, mo. rewrite <- Hc, <- Ht. split; assumption.
Qed.

Ltac same_job_tac :=
  unfold same_job, mark_failed, mark_success; simpl;
  split; [assumption || reflexivity | split; [assumption || reflexivity | lia]].

(** X6: a job disappears from the table only when it is cancelled or when
    its summary has just been sent, and the summary then accounts for every
    number: the successes and failures it reports add up to at least
    [total_numbers]. *)
Theorem job_ends_with_summary_or_cancel am is_admin user_id ev st w :
  success_count st + failed_count st = current_index st ->
  let r := handle_event am is_admin user_id ev (Some st) w in
  r.1 = None ->
  ev = Pressed cancel_bulk \/
  exists success failed shown more,
    last (outbox r.2) =
      Some (MsgSummary (country st) (total_numbers st) success failed shown more) /\
    total_numbers st <= success + failed.
Proof.
  intros Hc r. subst r.
  assert (F : forall reason st1 w1,
             same_job st st1 ->
             (bulk_number_failed am reason st1 w1).1 = None ->
             exists success failed shown more,
               last (outbox (bulk_number_failed am reason st1 w1).2) =
                 Some (MsgSummary (country st) (total_numbers st) success failed shown more) /\
               total_numbers st <= success + failed).
  { intros reason st1 w1 (H1 & H2 & H3). unfold bulk_number_failed, bulk_number_failed_k.
    apply summary_of_same_job. same_job_tac. }
  assert (S : forall password st1 w1,
             same_job st st1 ->
             (save_bulk_account am user_id password st1 w1).1 = None ->
             exists success failed shown more,
               last (outbox (save_bulk_account am user_id password st1 w1).2) =
                 Some (MsgSummary (country st) (total_numbers st) success failed shown more) /\
               total_numbers st <= success + failed).
  { intros password st1 w1 Hj. unfold save_bulk_account. destruct am as [a|].
    - destruct (bulk_save_account_sync a _ _ _ _ _ _ _) as [[[] msg] e].
      + unfold bulk_number_success. apply summary_of_same_job.
        destruct Hj as (H1 & H2 & H3).
        same_job_tac.
      + apply F, Hj.
    - apply F, Hj. }
  assert (J : same_job st st) by (repeat split; exact Hc).
  destruct ev as [data|text].
  - destruct data as [c| | | | |]; simpl.
    + destruct (negb (is_admin user_id)); discriminate.
    + destruct (negb (is_admin user_id)); [discriminate|].
      destruct (phone_numbers st); [discriminate|].
      intros Hr. right. unfold start_bulk_processing in *.
      apply summary_of_same_job; [|exact Hr]. same_job_tac.
    + intros _. left. reflexivity.
    + discriminate.
    + intros Hr. right. apply summary_of_same_job; [|exact Hr]. same_job_tac.
    + intros Hr. right. apply summary_of_same_job; [|exact Hr]. same_job_tac.
  - unfold handle_event, handle_message. destruct (step st) eqn:Es.
    + unfold handle_bulk_numbers_input. rewrite Es. simpl.
      destruct (classify_lines _) as [[|v vs] inv]; discriminate.
    + discriminate.
    + unfold handle_bulk_otp_input. rewrite Es. cbn [negb Step_eqb].
      destruct (String.eqb _ "skip"); [intros Hr; right; apply F; assumption|].
      destruct (negb _ || negb _); [discriminate|].
      destruct am as [a|]; [|intros Hr; right; apply F; assumption].
      destruct (bulk_verify_otp_sync a _ _ _ _ _ _) as [[| |err] e].
      * intros Hr. right. apply S; assumption.
      * discriminate.
      * intros Hr. right. apply F; assumption.
    + unfold handle_bulk_password_input. rewrite Es. cbn [negb Step_eqb].
      assert (J1 : same_job st (set_password_attempts (password_attempts st + 1) st))
        by (repeat split; exact Hc).
      destruct (String.eqb _ "skip"); [intros Hr; right; apply F; assumption|].
      destruct (negb (PyStr.nonempty _)); [discriminate|].
      destruct (2 <? _); [intros Hr; right; apply F; assumption|].
      destruct am as [a|]; [|intros Hr; right; apply F; assumption].
      destruct (bulk_verify_password_sync a _ _ _ _) as [[|err] e].
      * intros Hr. right. apply S; assumption.
      * destruct (2 <=? _); [intros Hr; right; apply F; assumption | discriminate].
Qed.

End Loop.

(** ** The shape of the numbers *)










(** * The account module *)

Section AccountModule.

Context {W : Type}.
Variable pyro : Pyrogram W.
Implicit Types (e : W) (c : Client) (st : BulkState) (w : World W).

Lemma safe_disconnect_not_connected c e :
  is_connected pyro c e = false ->
  PyrogramClientManager.safe_disconnect pyro (Some c) e = e.
Proof. intros H. unfold PyrogramClientManager.safe_disconnect. rewrite H. reflexivity. Qed.

(** X8: [safe_disconnect] leaves alone a client that is missing or not
    connected, and, provided the client is no longer connected once
    [client.disconnect()] has run, a second [safe_disconnect] of the same
    client changes nothing: a client is disconnected at most once however
    often it is released. *)
Theorem safe_disconnect_twice :
  (forall c e, is_connected pyro c (client_disconnect pyro c e).2 = false) ->
  forall client e,
    PyrogramClientManager.safe_disconnect pyro client
      (PyrogramClientManager.safe_disconnect pyro client e)
    = PyrogramClientManager.safe_disconnect pyro client e /\
    (forall c, client = Some c -> is_connected pyro c e = false ->
       PyrogramClientManager.safe_disconnect pyro client e = e) /\
    (forall c, client = Some c ->
       is_connected pyro c (PyrogramClientManager.safe_disconnect pyro client e) = false).
Proof.
  intros Hd client e.
  assert (Hoff : forall c e0,
            is_connected pyro c (PyrogramClientManager.safe_disconnect pyro (Some c) e0)
            = false).
  { intros c e0. unfold PyrogramClientManager.safe_disconnect.
    destruct (is_connected pyro c e0) eqn:E; [apply Hd | exact E]. }
  destruct client as [c|]; [|repeat split; intros; discriminate].
  repeat split.
  - apply safe_disconnect_not_connected, Hoff.
  - intros c0 [= <-]. apply safe_disconnect_not_connected.
  - intros c0 [= <-]. apply Hoff.
Qed.

Variable manager : Manager.

(** X9: [bulk_send_code_async] hands out a client only with a success, and
    then it is the client it has just made; when it fails, that client has
    been through [safe_disconnect] and, if [client.disconnect()] does
    disconnect, is not left connected.  A FloodWait is reported with its
    waiting time. *)
Theorem failed_send_releases_the_new_client phone e :
  let c := (new_client pyro e).1 in
  let r := bulk_send_code_async pyro manager phone e in
  (forall c' h m, r.1 = SendOk c' h m -> c' = c /\ m = manager) /\
  (forall error, r.1 = SendFailed error ->
     (exists e2, r.2 = PyrogramClientManager.safe_disconnect pyro (Some c) e2) /\
     ((forall c0 e0, is_connected pyro c0 (client_disconnect pyro c0 e0).2 = false) ->
      is_connected pyro c r.2 = false)) /\
  (forall value e1 e2,
     new_client pyro e = (c, e1) ->
     is_connected pyro c e1 = false ->
     client_connect pyro c e1 = (Some (FloodWait value), e2) ->
     r.1 = SendFailed ("FloodWait: Please wait " +:+ decimal value +:+ " seconds")).
Proof.
  intros c r. subst c r. unfold bulk_send_code_async.
  destruct (new_client pyro e) as [c e1] eqn:En. simpl.
  split; [|split].
  - intros c' h m.
    destruct (PyrogramClientManager.send_code pyro c phone e1) as [[hash|err] e2];
      simpl; [|discriminate].
    intros [= <- _ <-]. split; reflexivity.
  - intros error.
    destruct (PyrogramClientManager.send_code pyro c phone e1) as [[hash|err] e2];
      simpl; [discriminate|].
    intros _. split; [exists e2; reflexivity|].
    intros Hd. unfold PyrogramClientManager.safe_disconnect.
    destruct (is_connected pyro c e2) eqn:E; [apply Hd | exact E].
  - intros value e1' e2 [= <-] Hoff Hc.
    unfold PyrogramClientManager.send_code. rewrite Hoff, Hc. reflexivity.
Qed.

Variable accounts_col : option (AccountData -> W -> option string * W).

Local Notation "'account_py'" := (pyrogram_account_manager pyro manager accounts_col).

(** X10: with the account manager of [account.py], a five-digit code typed
    for a number whose client and manager are held makes the job wait for
    the password exactly when the sign-in raises SessionPasswordNeeded, and
    then nothing is released; any other exception fails the number with the
    reason "OTP error: " followed by the text of the exception. *)
Theorem sign_in_errors_in_the_bulk_flow user_id text st w c m :
  step st = waiting_bulk_otp ->
  current_client st = Some c ->
  current_manager st = Some m ->
  otp_format_ok (PyStr.strip text) = true ->
  let otp_code := PyStr.strip text in
  let r := handle_bulk_otp_input (Some account_py) user_id text (Some st) w in
  let call := CallVerifyOtp (Some c) (current_phone st) (current_phone_code_hash st)
                otp_code (Some m) in
  forall e0 err e1,
    PyrogramClientManager.ensure_connected pyro (Some c) (env w) = (None, e0) ->
    client_sign_in pyro c (current_phone st) (current_phone_code_hash st) otp_code e0
      = (Some err, e1) ->
    (err = SessionPasswordNeeded ->
       r = (Some (set_password_attempts 0 (set_step waiting_bulk_password st)),
            emit (MsgPasswordRequired (current_phone st)) (invoke call e1 w))) /\
    (err <> SessionPasswordNeeded ->
       r = bulk_number_failed (Some account_py)
             ("OTP error: " +:+ PyrogramClientManager.str_error pyro err) st
             (invoke call e1 w)).
Proof.
  intros Hs Hc Hm Hf otp_code r call e0 err e1 Hon Hsign. subst r otp_code call.
  assert (Hk : String.eqb (PyStr.lower (PyStr.strip text)) "skip" = false).
  { apply String.eqb_neq. intros E. unfold otp_format_ok in Hf.
    apply andb_true_iff in Hf as [Hd _].
    destruct (PyStr.strip text) as [|x r]; [discriminate|].
    simpl in E. injection E as Ex _. simpl in Hd.
    apply andb_true_iff in Hd as [Hx _].
    unfold PyStr.lower_char in Ex. unfold PyStr.is_digit_char, PyStr.is_decimal in Hx.
    destruct (_ || _ || _) eqn:Eu in Ex.
    - apply orb_true_iff in Eu as [Eu|Eu];
        [apply orb_true_iff in Eu as [Eu|Eu]|];
        apply andb_true_iff in Eu as [E1 E2];
        apply Nat.leb_le in E1, E2;
        repeat (apply orb_true_iff in Hx as [Hx|Hx]);
        try (apply andb_true_iff in Hx as [H1 H2]; apply Nat.leb_le in H1, H2; lia);
        try (apply Nat.eqb_eq in Hx; lia).
    - subst x. vm_compute in Hx. discriminate. }
  unfold handle_bulk_otp_input. rewrite Hs. cbn [negb Step_eqb].
  rewrite Hk. unfold otp_format_ok in Hf. rewrite <- negb_andb, Hf. cbn [negb].
  cbn [bulk_verify_otp_sync pyrogram_account_manager].
  rewrite Hc, Hm. unfold bulk_verify_otp_async, PyrogramClientManager.sign_in_with_otp.
  rewrite Hon, Hsign.
  split.
  - intros ->. reflexivity.
  - intros Hne. destruct err; [reflexivity | contradiction | reflexivity].
Qed.

End AccountModule.

(** * Adding a single account *)

Section LoginFacts.

Context {W : Type}.
Variable pyro : Pyrogram W.
Variable manager : Manager.
Variable accounts_col : option (AccountData -> W -> option string * W).
Implicit Types (e : W) (c : Client) (tbl : gmap Z LoginState).

Local Notation "'released' c e" :=
  (exists e0, e = PyrogramClientManager.safe_disconnect pyro (Some c) e0)
  (at level 10, c at level 9, e at level 9).

Lemma save_login_account_ends tbl user_id c state session password e :
  let r := save_login_account pyro accounts_col tbl user_id c state session password e in
  r.1.2 = delete user_id tbl /\ released c (r.2).
Proof.
  unfold save_login_account, login_failure.
  destruct (login_country state); [|simpl; eauto].
  destruct (login_phone state); [|simpl; eauto].
  destruct accounts_col as [ins|]; [|simpl; eauto].
  destruct (ins _ e) as [[err|] e1]; simpl; eauto.
Qed.

(** X11: a text typed while a login holds a client (the bot waits for the
    code or for the password) has one of three effects: nothing changes
    (the format was refused); or the login goes from the code to the
    password, keeping its client; or the login is removed and the last thing
    done to the environment was [safe_disconnect] on its client.  The logins
    of other users are never touched. *)
Theorem login_ends_release_the_client user_id text tbl e state c :
  tbl !! user_id = Some state ->
  login_client state = Some c ->
  login_step state = waiting_otp \/ login_step state = waiting_password ->
  let r := handle_login_flow_messages pyro manager accounts_col true user_id text tbl e in
  let tbl' := r.1.1 in
  let e' := r.1.2 in
  ((tbl' = tbl /\ e' = e) \/
   (login_step state = waiting_otp /\
    tbl' !! user_id = Some (set_login_step waiting_password state) /\
    r.2 = [LoginPasswordRequired (login_phone state)]) \/
   (tbl' !! user_id = None /\ released c e')) /\
  (forall other, other <> user_id -> tbl' !! other = tbl !! other).
Proof.
  intros Ht Hc Hstep r tbl' e'. subst r tbl' e'.
  unfold handle_login_flow_messages. rewrite Ht.
  assert (D : forall (t : gmap Z LoginState) other, other <> user_id ->
                delete user_id t !! other = t !! other).
  { intros t other Hne. apply lookup_delete_ne. congruence. }
  assert (DD : forall (t : gmap Z LoginState) other, other <> user_id ->
                 delete user_id (delete user_id t) !! other = t !! other).
  { intros t other Hne. rewrite !D; auto. }
  assert (G : forall t : gmap Z LoginState, delete user_id t !! user_id = None).
  { intros t. apply lookup_delete_eq. }
  assert (Same : forall (P : Prop) (msgs : list LoginMessage),
            (((tbl, e, msgs).1.1 = tbl /\ (tbl, e, msgs).1.2 = e) \/
             (P /\
              (tbl, e, msgs).1.1 !! user_id = Some (set_login_step waiting_password state) /\
              (tbl, e, msgs).2 = [LoginPasswordRequired (login_phone state)]) \/
             ((tbl, e, msgs).1.1 !! user_id = None /\ released c ((tbl, e, msgs).1.2))) /\
            (forall other, other <> user_id -> (tbl, e, msgs).1.1 !! other = tbl !! other)).
  { intros P msgs. simpl. auto. }
  assert (Gone : forall (P : Prop) (t : gmap Z LoginState) e1 msgs,
            (t = delete user_id tbl \/ t = delete user_id (delete user_id tbl)) ->
            released c e1 ->
            (((t, e1, msgs).1.1 = tbl /\ (t, e1, msgs).1.2 = e) \/
             (P /\
              (t, e1, msgs).1.1 !! user_id = Some (set_login_step waiting_password state) /\
              (t, e1, msgs).2 = [LoginPasswordRequired (login_phone state)]) \/
             ((t, e1, msgs).1.1 !! user_id = None /\ released c ((t, e1, msgs).1.2))) /\
            (forall other, other <> user_id -> (t, e1, msgs).1.1 !! other = tbl !! other)).
  { intros P t e1 msgs Ht' Hrel. simpl. split.
    - right. right. split; [|exact Hrel]. destruct Ht' as [-> | ->]; apply G.
    - intros other Hne. destruct Ht' as [-> | ->]; [apply D | apply DD]; exact Hne. }
  assert (Rel : forall e0, released c (PyrogramClientManager.safe_disconnect pyro (Some c) e0))
    by (intros e0; exists e0; reflexivity).
  destruct Hstep as [Hs|Hs]; rewrite Hs.
  - destruct (negb _ || negb _); [apply Same|]. cbn [negb].
    unfold verify_otp_and_save_async, login_failure. rewrite Ht, Hc.
    destruct (login_phone state) as [phone|]; [|apply Gone; auto].
    destruct (login_phone_code_hash state) as [hash|]; [|apply Gone; auto].
    destruct (PyrogramClientManager.sign_in_with_otp pyro _ _ _ _ e) as [[| |err] e1].
    + destruct (PyrogramClientManager.get_session_string pyro _ e1) as [[[|x session]|] e2];
        [apply Gone; auto | | apply Gone; auto].
      pose proof (save_login_account_ends tbl user_id c state (String x session) None e2)
        as [Htbl Hrel].
      destruct (save_login_account pyro accounts_col tbl user_id c state _ None e2)
        as [[[ok msg] tbl1] e3].
      simpl in Htbl, Hrel. subst tbl1.
      destruct ok; [apply Gone; auto|].
      destruct (String.eqb msg "password_required"); apply Gone; auto.
    + cbn [String.eqb Ascii.eqb Bool.eqb]. simpl. split.
      * right. left. split; [reflexivity|]. split; [apply lookup_insert_eq | reflexivity].
      * intros other Hne. apply lookup_insert_ne. congruence.
    + cbn match. destruct (String.eqb (or_default err _) "password_required");
        apply Gone; auto.
  - destruct (negb (PyStr.nonempty _)); [apply Same|]. cbn [negb].
    unfold verify_2fa_password_async. rewrite Ht, Hc.
    destruct (PyrogramClientManager.sign_in_with_password pyro _ _ e) as [[|err] e1].
    + destruct (PyrogramClientManager.get_session_string pyro _ e1) as [[[|x session]|] e2];
        [apply Gone; auto | | apply Gone; auto].
      pose proof (save_login_account_ends tbl user_id c state (String x session)
                    (Some (PyStr.strip text)) e2) as [Htbl Hrel].
      destruct (save_login_account pyro accounts_col tbl user_id c state _ _ e2)
        as [[[ok msg] tbl1] e3].
      simpl in Htbl, Hrel. subst tbl1.
      destruct ok; apply Gone; auto.
    + apply Gone; auto.
Qed.

(** The invariant of the table of logins. *)
Local Notation "'complete_table' tbl" :=
  (forall u state, (tbl : gmap Z LoginState) !! u = Some state -> login_entry_complete state)
  (at level 10, tbl at level 9).

Lemma complete_delete tbl user_id :
  complete_table tbl -> complete_table (delete user_id tbl).
Proof.
  intros H u state Hu. apply lookup_delete_Some in Hu as [_ Hu]. exact (H _ _ Hu).
Qed.

Lemma complete_insert tbl user_id state :
  login_entry_complete state -> complete_table tbl ->
  complete_table (<[user_id := state]> tbl).
Proof.
  intros Hs H u state' Hu. apply lookup_insert_Some in Hu as [[_ <-]|[_ Hu]].
  - exact Hs.
  - exact (H _ _ Hu).
Qed.

Lemma complete_not_waiting state :
  login_step state <> waiting_otp -> login_step state <> waiting_password ->
  login_entry_complete state.
Proof. intros H1 H2 [H|H]; contradiction. Qed.

Lemma complete_set_country state country_name :
  login_entry_complete state ->
  login_entry_complete (set_login_country (Some country_name) state).
Proof.
  intros H Hstep. destruct (H Hstep) as (_ & Hc & Hp & Hh & Hm).
  simpl. split; [eexists; reflexivity|]. auto.
Qed.

Lemma complete_pyrogram_login_flow_async tbl user_id phone country_name e :
  PyStr.phone_re_match phone = true ->
  complete_table tbl ->
  complete_table (pyrogram_login_flow_async pyro manager tbl user_id phone country_name e).1.2.
Proof.
  intros Hphone H. unfold pyrogram_login_flow_async.
  destruct (tbl !! user_id); [|exact H].
  destruct (new_client pyro e) as [client e1].
  destruct (PyrogramClientManager.send_code pyro client phone e1) as [[hash|error] e2];
    [|exact H].
  simpl. apply complete_insert; [|exact H].
  intros _. simpl. repeat split; eauto.
Qed.

Lemma complete_save_login_account tbl user_id c state session password e :
  complete_table tbl ->
  complete_table (save_login_account pyro accounts_col tbl user_id c state session password e).1.2.
Proof.
  intros H. rewrite (proj1 (save_login_account_ends tbl user_id c state session password e)).
  apply complete_delete, H.
Qed.

Lemma complete_verify_otp_and_save_async tbl user_id otp e state :
  tbl !! user_id = Some state ->
  login_step state = waiting_otp ->
  complete_table tbl ->
  complete_table (verify_otp_and_save_async pyro accounts_col tbl user_id otp e).1.2.
Proof.
  intros Ht Hs H. unfold verify_otp_and_save_async, login_failure. rewrite Ht.
  destruct (login_client state) as [c|]; [|exact H].
  destruct (login_phone state) as [phone|]; [|apply complete_delete, H].
  destruct (login_phone_code_hash state) as [hash|]; [|apply complete_delete, H].
  destruct (PyrogramClientManager.sign_in_with_otp pyro _ _ _ _ e) as [[| |err] e1].
  - destruct (PyrogramClientManager.get_session_string pyro _ e1) as [[[|x session]|] e2];
      [apply complete_delete, H | | apply complete_delete, H].
    apply complete_save_login_account, H.
  - simpl. apply complete_insert; [|exact H].
    intros _. simpl. apply (H _ _ Ht). left. exact Hs.
  - apply complete_delete, H.
Qed.

Lemma complete_verify_2fa_password_async tbl user_id password e :
  complete_table tbl ->
  complete_table (verify_2fa_password_async pyro accounts_col tbl user_id password e).1.2.
Proof.
  intros H. unfold verify_2fa_password_async.
  destruct (tbl !! user_id) as [state|]; [|exact H].
  destruct (login_client state) as [c|]; [|exact H].
  destruct (PyrogramClientManager.sign_in_with_password pyro _ _ e) as [[|err] e1].
  - destruct (PyrogramClientManager.get_session_string pyro _ e1) as [[[|x session]|] e2];
      [apply complete_delete, H | | apply complete_delete, H].
    apply complete_save_login_account, H.
  - exact H.
Qed.

Lemma complete_handle_login_flow_messages module_loaded user_id text tbl e :
  complete_table tbl ->
  complete_table
    (handle_login_flow_messages pyro manager accounts_col module_loaded user_id text tbl e).1.1.
Proof.
  intros H. unfold handle_login_flow_messages.
  destruct (tbl !! user_id) as [state|] eqn:Ht; [|exact H].
  destruct (login_step state) eqn:Hs.
  - exact H.
  - destruct (PyStr.phone_re_match (PyStr.strip text)) eqn:Hphone; [|exact H].
    cbn [negb]. destruct module_loaded; [|apply complete_delete, H]. cbn [negb].
    destruct (login_country state) as [country_name|]; [|apply complete_delete, H].
    pose proof (complete_pyrogram_login_flow_async tbl user_id (PyStr.strip text)
                  country_name e Hphone H) as Hflow.
    destruct (pyrogram_login_flow_async pyro manager tbl user_id _ country_name e)
      as [[[ok msg] tbl1] e1].
    simpl in Hflow. destruct ok; [exact Hflow | apply complete_delete, Hflow].
  - destruct (negb _ || negb _); [exact H|].
    destruct module_loaded; [|apply complete_delete, H]. cbn [negb].
    pose proof (complete_verify_otp_and_save_async tbl user_id (PyStr.strip text) e state
                  Ht Hs H) as Hv.
    destruct (verify_otp_and_save_async pyro accounts_col tbl user_id _ e)
      as [[[ok msg] tbl1] e1].
    simpl in Hv. destruct ok; [apply complete_delete, Hv|].
    destruct (String.eqb msg "password_required"); [exact Hv | apply complete_delete, Hv].
  - destruct (negb (PyStr.nonempty _)); [exact H|].
    destruct module_loaded; [|apply complete_delete, H]. cbn [negb].
    pose proof (complete_verify_2fa_password_async tbl user_id (PyStr.strip text) e H) as Hv.
    destruct (verify_2fa_password_async pyro accounts_col tbl user_id _ e)
      as [[[ok msg] tbl1] e1].
    simpl in Hv. destruct ok; apply complete_delete, Hv.
Qed.

Lemma complete_login_callbacks module_loaded is_admin is_user_banned get_all_countries
    user_id data tbl e :
  complete_table tbl ->
  complete_table
    (login_callbacks pyro module_loaded is_admin is_user_banned get_all_countries
       user_id data tbl e).1.1.
Proof.
  intros H. unfold login_callbacks.
  destruct (is_user_banned user_id e); [exact H|].
  destruct data as [|country_name|country_name|].
  - destruct (is_admin user_id); [|exact H]. cbn [negb].
    assert (Hnew : complete_table
                     (<[user_id := mkLoginState select_country None None None None None]> tbl)).
    { apply complete_insert; [|exact H]. apply complete_not_waiting; discriminate. }
    destruct (get_all_countries e); exact Hnew.
  - unfold handle_login_country_selection.
    destruct (tbl !! user_id) as [state|] eqn:Ht; [|exact H].
    simpl. apply complete_insert; [|exact H]. apply complete_set_country, (H _ _ Ht).
  - destruct (tbl !! user_id) as [state|] eqn:Ht; [|exact H].
    simpl. apply complete_insert; [|exact H]. apply complete_not_waiting; discriminate.
  - unfold handle_cancel_login.
    destruct (tbl !! user_id) as [state|]; [|exact H].
    simpl. apply complete_delete, H.
Qed.

Lemma complete_login_run module_loaded is_admin is_user_banned get_all_countries
    (updates : list (Z * LoginEvent W)) :
  forall tbl e,
    complete_table tbl ->
    complete_table
      (login_run pyro manager accounts_col module_loaded is_admin is_user_banned
         get_all_countries updates tbl e).1.1.
Proof.
  induction updates as [|[user_id ev] rest IH]; intros tbl e H.
  - exact H.
  - simpl.
    assert (Hev : complete_table
                    (login_event pyro manager accounts_col module_loaded is_admin
                       is_user_banned get_all_countries user_id ev tbl e).1.1).
    { destruct ev as [data|text|change]; simpl.
      - apply complete_login_callbacks, H.
      - apply complete_handle_login_flow_messages, H.
      - exact H. }
    destruct (login_event pyro manager accounts_col module_loaded is_admin
                is_user_banned get_all_countries user_id ev tbl e) as [[tbl1 e1] sent].
    specialize (IH tbl1 e1 Hev).
    destruct (login_run pyro manager accounts_col module_loaded is_admin is_user_banned
                get_all_countries rest tbl1 e1) as [[tbl2 e2] sent2].
    exact IH.
Qed.

(** X12: in every table of logins that a run of callbacks, texts and other
    updates reaches from the empty table, a login that waits for the code or
    for the password holds its country, its client, a phone number of the
    form [+] and 10 to 15 digits, the hash of the code and its manager: the
    verification never misses a key. *)
Theorem reachable_logins_are_complete module_loaded is_admin is_user_banned
    get_all_countries (updates : list (Z * LoginEvent W)) e u state :
  (login_run pyro manager accounts_col module_loaded is_admin is_user_banned
     get_all_countries updates ∅ e).1.1 !! u = Some state ->
  login_entry_complete state.
Proof.
  apply complete_login_run. intros u' state' Hu. rewrite lookup_empty in Hu. discriminate.
Qed.

(** X16: a text typed while a login waits for the phone number has one of
    four effects: the number is refused and nothing changes; or the login is
    removed without any call (the module is not loaded, or the login has no
    country); or the code could not be sent, the login is removed and the
    client made for it has been passed to [safe_disconnect]; or the login
    now waits for the code and holds that client, the stripped number, the
    hash and the manager.  A client is never made and then left out of both
    the table and [safe_disconnect]. *)
Theorem phone_step_records_or_releases_the_new_client
    module_loaded user_id text tbl e state :
  tbl !! user_id = Some state ->
  login_step state = entering_phone ->
  let r := handle_login_flow_messages pyro manager accounts_col module_loaded
             user_id text tbl e in
  let c := (new_client pyro e).1 in
  let phone := PyStr.strip text in
  (forall other, other <> user_id -> r.1.1 !! other = tbl !! other) /\
  ((PyStr.phone_re_match phone = false /\ r = (tbl, e, [LoginInvalidPhone])) \/
   (PyStr.phone_re_match phone = true /\
    (module_loaded = false \/ login_country state = None) /\
    r.1.1 !! user_id = None /\ r.1.2 = e) \/
   (PyStr.phone_re_match phone = true /\ module_loaded = true /\
    r.1.1 !! user_id = None /\
    exists e2 message,
      r.1.2 = PyrogramClientManager.safe_disconnect pyro (Some c) e2 /\
      r.2 = [LoginSendFailed message]) \/
   (PyStr.phone_re_match phone = true /\ module_loaded = true /\
    exists country_name phone_code_hash,
      login_country state = Some country_name /\
      r.1.1 !! user_id =
        Some (mkLoginState waiting_otp (Some country_name) (Some c) (Some phone)
                (Some phone_code_hash) (Some manager)) /\
      r.2 = [LoginOtpSent phone])).
Proof.
  intros Ht Hs r c phone. subst r c phone.
  unfold handle_login_flow_messages. rewrite Ht, Hs.
  assert (D : forall (t : gmap Z LoginState) other, other <> user_id ->
                delete user_id t !! other = t !! other).
  { intros t other Hne. apply lookup_delete_ne. congruence. }
  assert (G : forall t : gmap Z LoginState, delete user_id t !! user_id = None).
  { intros t. apply lookup_delete_eq. }
  destruct (PyStr.phone_re_match (PyStr.strip text)) eqn:Hphone; cbn [negb].
  2: { split; [reflexivity|]. left. split; reflexivity. }
  destruct module_loaded; cbn [negb].
  2: { simpl. split; [apply D|]. right. left. auto 6. }
  destruct (login_country state) as [country_name|].
  2: { simpl. split; [apply D|]. right. left. auto 6. }
  unfold pyrogram_login_flow_async. rewrite Ht.
  destruct (new_client pyro e) as [client e1].
  destruct (PyrogramClientManager.send_code pyro client (PyStr.strip text) e1)
    as [[hash|error] e2]; simpl.
  - split; [intros other Hne; apply lookup_insert_ne; congruence|].
    right. right. right. split; [reflexivity|]. split; [reflexivity|].
    exists country_name, hash. split; [reflexivity|].
    split; [apply lookup_insert_eq | reflexivity].
  - split; [apply D|]. right. right. left.
    split; [reflexivity|]. split; [reflexivity|]. split; [apply G|].
    eexists _, _. split; reflexivity.
Qed.

(** X17: a callback of the login changes at most the entry of the user who
    pressed it; none but [cancel_login] touches the environment, so
    [add_account] replaces a login that holds a client without releasing
    the client; a banned user changes nothing; and [cancel_login] removes
    the entry and, when the account module is loaded, passes the client it
    held to [safe_disconnect]. *)
Theorem login_callbacks_touch_only_the_caller module_loaded is_admin is_user_banned
    get_all_countries user_id data tbl e :
  let r := login_callbacks pyro module_loaded is_admin is_user_banned get_all_countries
             user_id data tbl e in
  (forall other, other <> user_id -> r.1.1 !! other = tbl !! other) /\
  (data <> cancel_login -> r.1.2 = e) /\
  (is_user_banned user_id e = true -> r.1.1 = tbl /\ r.1.2 = e) /\
  (data = add_account -> is_user_banned user_id e = false -> is_admin user_id = true ->
   r.1.1 !! user_id = Some (mkLoginState select_country None None None None None)) /\
  (data = cancel_login -> is_user_banned user_id e = false ->
   r.1.1 !! user_id = None /\
   forall state c,
     tbl !! user_id = Some state -> login_client state = Some c ->
     r.1.2 = if module_loaded
             then PyrogramClientManager.safe_disconnect pyro (Some c) e
             else e).
Proof.
  intros r. subst r. unfold login_callbacks.
  assert (I : forall (state : LoginState) other, other <> user_id ->
                <[user_id := state]> tbl !! other = tbl !! other).
  { intros state other Hne. apply lookup_insert_ne. congruence. }
  destruct (is_user_banned user_id e).
  { simpl. repeat split; auto; discriminate. }
  destruct data as [|country_name|country_name|].
  - destruct (is_admin user_id); cbn [negb].
    + destruct (get_all_countries e); simpl;
        (split; [apply I|]; split; [reflexivity|]; split; [discriminate|];
         split; [intros _ _ _; apply lookup_insert_eq | discriminate]).
    + simpl. repeat split; auto; discriminate.
  - unfold handle_login_country_selection.
    destruct (tbl !! user_id) as [state|]; simpl;
      (split; [auto|]; split; [reflexivity|]; repeat split; discriminate).
  - destruct (tbl !! user_id) as [state|]; simpl;
      (split; [auto|]; split; [reflexivity|]; repeat split; discriminate).
  - unfold handle_cancel_login.
    destruct (tbl !! user_id) as [state|] eqn:Ht; simpl.
    + split; [intros other Hne; apply lookup_delete_ne; congruence|].
      split; [congruence|]. split; [discriminate|]. split; [discriminate|].
      intros _ _. split; [apply lookup_delete_eq|].
      intros state' c [= <-] Hc. rewrite Hc. reflexivity.
    + split; [reflexivity|]. split; [congruence|]. split; [discriminate|].
      split; [discriminate|]. intros _ _. split; [exact Ht | discriminate].
Qed.

End LoginFacts.

(** ** The search for the login code *)

Lemma is_decimal_is_word (c : ascii) :
  PyStr.is_decimal c = true -> PyRe.is_word c = true.
Proof.
  unfold PyStr.is_decimal, PyRe.is_word. intros H. rewrite H. reflexivity.
Qed.

Lemma append_cons (c : ascii) (r s : string) : String c r +:+ s = String c (r +:+ s).
Proof. reflexivity. Qed.

Lemma code_here_spec (s code : string) :
  PyRe.code_here s = Some code <->
  exists after, s = code +:+ after /\ code_shape code /\ starts_without_word after.
Proof.
  split.
  - unfold PyRe.code_here.
    destruct s as [|a [|b [|c [|d [|e rest]]]]]; try discriminate.
    destruct (PyStr.is_decimal a) eqn:Ha; [|discriminate].
    destruct (PyStr.is_decimal b) eqn:Hb; [|discriminate].
    destruct (PyStr.is_decimal c) eqn:Hc; [|discriminate].
    destruct (PyStr.is_decimal d) eqn:Hd; [|discriminate].
    destruct (PyStr.is_decimal e) eqn:He; [|discriminate].
    cbn [andb].
    destruct (negb _) eqn:Hrest; [|discriminate].
    intros [= <-]. exists rest. split; [reflexivity|]. split.
    + split; [reflexivity|]. simpl. rewrite Ha, Hb, Hc, Hd, He. reflexivity.
    + destruct rest as [|x rest']; [exact I|]. simpl.
      apply negb_true_iff in Hrest. exact Hrest.
  - intros (after & -> & [Hl Hd] & Ha).
    destruct code as [|a [|b [|c [|d [|e [|f code]]]]]]; try discriminate.
    simpl in Hd. rewrite !andb_true_iff in Hd.
    destruct Hd as (Da & Db & Dc & Dd & De & _).
    rewrite !append_cons. change ("" +:+ after) with after.
    unfold PyRe.code_here. rewrite Da, Db, Dc, Dd, De. cbn [andb].
    destruct after as [|x after']; [reflexivity|].
    simpl in Ha. rewrite Ha. reflexivity.
Qed.

Lemma code_here_word_prefix (c : ascii) (r code : string) :
  PyRe.code_here (String c r) = Some code ->
  PyRe.is_word c = true /\ word_prefix 4 r.
Proof.
  unfold PyRe.code_here.
  destruct r as [|b [|c' [|d [|e rest]]]]; try discriminate.
  destruct (PyStr.is_decimal c) eqn:Ha; [|discriminate].
  destruct (PyStr.is_decimal b) eqn:Hb; [|discriminate].
  destruct (PyStr.is_decimal c') eqn:Hc; [|discriminate].
  destruct (PyStr.is_decimal d) eqn:Hd; [|discriminate].
  destruct (PyStr.is_decimal e) eqn:He; [|discriminate].
  intros _. simpl. auto 10 using is_decimal_is_word.
Qed.

Lemma last_char_cons (c : ascii) (s : string) : exists y, last_char (String c s) = Some y.
Proof.
  revert c. induction s as [|d x IH]; intros c; [exists c; reflexivity|].
  destruct (IH d) as [y Hy]. exists y. exact Hy.
Qed.

Lemma boundary_before_cons (after_word : bool) (c : ascii) (before : string) :
  boundary_before after_word (String c before) <->
  boundary_before (PyRe.is_word c) before.
Proof.
  unfold boundary_before. destruct before as [|d x]; [reflexivity|].
  change (last_char (String c (String d x))) with (last_char (String d x)).
  destruct (last_char_cons d x) as [y ->]. reflexivity.
Qed.

Lemma code_from_cons (after_word : bool) (c : ascii) (r code : string) :
  code_from after_word (String c r) code <->
  (after_word = false /\ PyRe.code_here (String c r) = Some code) \/
  code_from (PyRe.is_word c) r code.
Proof.
  split.
  - intros (before & after & Hs & Hshape & Hb & Ha).
    destruct before as [|c' before'].
    + left. split; [exact Hb|]. apply code_here_spec. exists after. auto.
    + right. rewrite append_cons in Hs. injection Hs as <- ->.
      exists before', after. split; [reflexivity|]. split; [exact Hshape|].
      split; [|exact Ha]. apply (boundary_before_cons after_word). exact Hb.
  - intros [[Haw Hc] | (before & after & -> & Hshape & Hb & Ha)].
    + apply code_here_spec in Hc as (after & Hs & Hshape & Ha).
      exists "", after. split; [exact Hs|]. split; [exact Hshape|].
      split; [exact Haw | exact Ha].
    + exists (String c before), after. split; [reflexivity|]. split; [exact Hshape|].
      split; [|exact Ha]. apply boundary_before_cons. exact Hb.
Qed.

Lemma findall_codes_spec (s : string) :
  forall (skip : nat) (after_word : bool) (code : string),
    (skip <> 0 -> after_word = true) ->
    word_prefix skip s ->
    In code (PyRe.findall_codes skip after_word s) <-> code_from after_word s code.
Proof.
  induction s as [|c r IH]; intros skip aw code Haw Hpre.
  - simpl. split; [contradiction|].
    intros (before & after & Hs & [Hl _] & _).
    destruct before; [|discriminate]. destruct code; discriminate.
  - rewrite code_from_cons. destruct skip as [|k].
    + destruct aw.
      * cbn [PyRe.findall_codes]. rewrite IH; [|congruence|exact I].
        split; [auto|]. intros [[? _]|?]; [discriminate|assumption].
      * cbn [PyRe.findall_codes].
        destruct (PyRe.code_here (String c r)) as [code0|] eqn:E.
        -- destruct (code_here_word_prefix c r code0 E) as [Hc Hr].
           cbn [In]. rewrite IH; [|reflexivity|exact Hr]. rewrite Hc.
           split.
           ++ intros [->|H]; [left; auto | right; exact H].
           ++ intros [[_ [= ->]]|H]; [left; reflexivity | right; exact H].
        -- rewrite IH; [|congruence|exact I].
           split; [auto|]. intros [[_ ?]|?]; [discriminate|assumption].
    + destruct Hpre as [Hc Hk]. cbn [PyRe.findall_codes].
      rewrite (Haw ltac:(discriminate)).
      rewrite IH; [|intros _; exact Hc|exact Hk].
      split; [auto|]. intros [[? _]|?]; [discriminate|assumption].
Qed.

(** X13: [re.findall] with the pattern of the login code finds exactly the
    groups of five decimal digits of the text that no word character
    touches; every code it returns passes the format test of the texts of
    the bulk flow as it is, unchanged by [strip]. *)
Theorem findall_gives_the_standalone_codes (text code : string) :
  (In code (PyRe.findall text) <-> standalone_code text code) /\
  (In code (PyRe.findall text) ->
   PyStr.strip code = code /\ otp_format_ok code = true).
Proof.
  assert (Hspec : In code (PyRe.findall text) <-> standalone_code text code).
  { apply findall_codes_spec; [congruence | exact I]. }
  split; [exact Hspec|].
  intros H. apply Hspec in H as (before & after & _ & [Hl Hd] & _).
  split; [|apply otp_format_ok_decimal; assumption].
  destruct code as [|a [|b [|c [|d [|e [|f code]]]]]]; try discriminate.
  simpl in Hd. rewrite !andb_true_iff in Hd.
  destruct Hd as (Da & Db & Dc & Dd & De & _).
  assert (Sp : forall x, PyStr.is_decimal x = true -> PyStr.isspace x = false).
  { intros x. unfold PyStr.is_decimal, PyStr.isspace.
    intros [H1 H2]%andb_true_iff. apply Nat.leb_le in H1, H2.
    repeat match goal with
           | |- context [?a <=? ?b] => destruct (Nat.leb_spec a b)
           | |- context [?a =? ?b] => destruct (Nat.eqb_spec a b)
           end; try reflexivity; lia. }
  unfold PyStr.strip. cbn [PyStr.lstrip]. rewrite (Sp a Da).
  cbn [PyStr.rstrip]. rewrite (Sp e De). reflexivity.
Qed.

Lemma search_message_offers (message : ChatMessage) (latest : option (string * Z)) :
  search_message message latest =
  match offers message, latest with
  | None, _ => latest
  | Some found, None => Some found
  | Some (code, current_time), Some (_, otp_time) =>
      if (otp_time <? current_time)%Z then Some (code, current_time) else latest
  end.
Proof.
  unfold offers, search_message.
  destruct (message_text message) as [text|]; [|reflexivity].
  destruct (PyStr.nonempty text && _); [|reflexivity].
  destruct (PyRe.findall text) as [|code rest]; [reflexivity|].
  destruct (message_date message) as [current_time|]; [|reflexivity].
  destruct latest as [[code0 otp_time]|]; reflexivity.
Qed.

Lemma offers_spec (message : ChatMessage) (code : string) (current_time : Z) :
  offers message = Some (code, current_time) <->
  exists text,
    message_text message = Some text /\ text <> "" /\
    (exists keyword, In keyword otp_keywords /\
                     PyRe.contains keyword (PyStr.lower text) = true) /\
    head (PyRe.findall text) = Some code /\
    message_date message = Some current_time.
Proof.
  unfold offers, search_message. split.
  - destruct (message_text message) as [text|]; [|discriminate].
    destruct (PyStr.nonempty text) eqn:Hn; [|discriminate].
    destruct (existsb _ otp_keywords) eqn:Hk; [|discriminate]. cbn [andb].
    destruct (PyRe.findall text) as [|code0 rest] eqn:Hf; [discriminate|].
    destruct (message_date message) as [t|]; [|discriminate].
    intros [= <- <-]. exists text. split; [reflexivity|].
    split; [destruct text; [discriminate|congruence]|].
    split; [|split; [rewrite Hf|]; reflexivity].
    apply existsb_exists in Hk as (keyword & Hin & Hc). exists keyword. auto.
  - intros (text & -> & Hn & (keyword & Hin & Hc) & Hhead & ->).
    destruct text as [|x text']; [congruence|]. cbn [PyStr.nonempty andb].
    assert (Hk : existsb (fun keyword => PyRe.contains keyword (PyStr.lower (String x text')))
                   otp_keywords = true).
    { apply existsb_exists. exists keyword. auto. }
    rewrite Hk. destruct (PyRe.findall (String x text')) as [|code0 rest]; [discriminate|].
    injection Hhead as ->. reflexivity.
Qed.

Lemma search_history_snoc (messages : list ChatMessage) (message : ChatMessage)
    (latest : option (string * Z)) :
  search_history (messages ++ [message]) latest =
  search_message message (search_history messages latest).
Proof. unfold search_history. rewrite fold_left_app. reflexivity. Qed.

Lemma search_history_newest (messages : list ChatMessage) :
  match search_history messages None with
  | None => forall message, In message messages -> offers message = None
  | Some (code, otp_time) =>
      exists i message,
        messages !! i = Some message /\ offers message = Some (code, otp_time) /\
        forall j message' code' time',
          messages !! j = Some message' -> offers message' = Some (code', time') ->
          (time' <= otp_time)%Z /\ (time' = otp_time -> i <= j)
  end.
Proof.
  induction messages as [|x l IH] using rev_ind.
  - simpl. intros message [].
  - rewrite search_history_snoc, search_message_offers.
    assert (Hlast : forall j message', (l ++ [x]) !! j = Some message' ->
                      l !! j = Some message' \/ (j = length l /\ message' = x)).
    { intros j message' Hj. apply lookup_app_Some in Hj as [Hj|[Hlen Hj]]; [auto|].
      right. destruct (j - length l) as [|n] eqn:En; [|destruct n; discriminate].
      injection Hj as <-. split; [lia|reflexivity]. }
    destruct (offers x) as [[code current_time]|] eqn:Hx.
    + destruct (search_history l None) as [[code0 otp_time]|].
      * destruct IH as (i & message & Hi & Ho & Hmax).
        destruct (Z.ltb_spec otp_time current_time) as [Hlt|Hge].
        -- exists (length l), x. split; [apply list_lookup_middle; reflexivity|].
           split; [exact Hx|]. intros j message' code' time' Hj Ho'.
           destruct (Hlast _ _ Hj) as [Hj'|[-> ->]].
           ++ destruct (Hmax _ _ _ _ Hj' Ho') as [Hle _]. split; lia.
           ++ rewrite Hx in Ho'. injection Ho' as <- <-. split; lia.
        -- exists i, message. split; [apply lookup_app_l_Some; exact Hi|].
           split; [exact Ho|]. intros j message' code' time' Hj Ho'.
           destruct (Hlast _ _ Hj) as [Hj'|[-> ->]].
           ++ exact (Hmax _ _ _ _ Hj' Ho').
           ++ rewrite Hx in Ho'. injection Ho' as <- <-. split; [lia|].
              intros _. apply lookup_lt_Some in Hi. lia.
      * exists (length l), x. split; [apply list_lookup_middle; reflexivity|].
        split; [exact Hx|]. intros j message' code' time' Hj Ho'.
        destruct (Hlast _ _ Hj) as [Hj'|[-> ->]].
        -- apply list_elem_of_lookup_2, list_elem_of_In in Hj'.
           rewrite (IH _ Hj') in Ho'. discriminate.
        -- rewrite Hx in Ho'. injection Ho' as <- <-. split; lia.
    + destruct (search_history l None) as [[code0 otp_time]|].
      * destruct IH as (i & message & Hi & Ho & Hmax).
        exists i, message. split; [apply lookup_app_l_Some; exact Hi|].
        split; [exact Ho|]. intros j message' code' time' Hj Ho'.
        destruct (Hlast _ _ Hj) as [Hj'|[-> ->]].
        -- exact (Hmax _ _ _ _ Hj' Ho').
        -- rewrite Hx in Ho'. discriminate.
      * intros message [Hin|[<-|[]]]%in_app_or; [exact (IH _ Hin) | exact Hx].
Qed.

Lemma search_takes_nothing_iff (messages : list ChatMessage) :
  search_history messages None = None <->
  forall message, In message messages -> offers message = None.
Proof.
  pose proof (search_history_newest messages) as H.
  destruct (search_history messages None) as [[code0 t0]|].
  - split; [discriminate|]. intros Hnone.
    destruct H as (i & message & Hi & Ho & _).
    apply list_elem_of_lookup_2, list_elem_of_In in Hi.
    rewrite (Hnone _ Hi) in Ho. discriminate.
  - split; auto.
Qed.

(** X14: the search through a history returns nothing exactly when no
    message offers a code; otherwise it returns the code of the message with
    the latest date among those that offer one, and of the first of them in
    the order of the history when several carry that date. *)
Theorem search_takes_the_first_of_the_newest_codes (messages : list ChatMessage) :
  (search_history messages None = None <->
   forall message, In message messages -> offers message = None) /\
  (forall code otp_time,
     search_history messages None = Some (code, otp_time) ->
     exists i message,
       messages !! i = Some message /\ offers message = Some (code, otp_time) /\
       forall j message' code' time',
         messages !! j = Some message' -> offers message' = Some (code', time') ->
         (time' <= otp_time)%Z /\ (time' = otp_time -> i <= j)).
Proof.
  pose proof (search_history_newest messages) as H.
  destruct (search_history messages None) as [[code0 t0]|].
  - split.
    + split; [discriminate|]. intros Hnone.
      destruct H as (i & message & Hi & Ho & _).
      apply list_elem_of_lookup_2, list_elem_of_In in Hi.
      rewrite (Hnone _ Hi) in Ho. discriminate.
    + intros code otp_time [= <- <-]. exact H.
  - split; [split; auto|]. discriminate.
Qed.

Section OtpSearcherFacts.

Context {W : Type}.
Variable pyro : Pyrogram W.
Variable session_client : string -> W -> Client * W.
Variable get_chat_history :
  Client -> Chat -> nat -> W -> (list ChatMessage * option PyroError) * W.

Lemma found_code_is_standalone (messages : list ChatMessage) (code : string) (otp_time : Z) :
  search_history messages None = Some (code, otp_time) ->
  otp_format_ok code = true /\
  exists message text,
    In message messages /\ message_text message = Some text /\
    message_date message = Some otp_time /\
    standalone_code text code /\
    exists keyword, In keyword otp_keywords /\
                    PyRe.contains keyword (PyStr.lower text) = true.
Proof.
  intros Hs. pose proof (search_history_newest messages) as H. rewrite Hs in H.
  destruct H as (i & message & Hi & Ho & _).
  apply offers_spec in Ho as (text & Ht & _ & Hk & Hhead & Hd).
  assert (Hin : In code (PyRe.findall text)).
  { destruct (PyRe.findall text) as [|c0 rest]; [discriminate|].
    injection Hhead as ->. left. reflexivity. }
  apply findall_codes_spec in Hin; [|congruence|exact I].
  split.
  - destruct Hin as (_ & _ & _ & [Hl Hdec] & _). apply otp_format_ok_decimal; assumption.
  - exists message, text. split; [|auto].
    apply list_elem_of_lookup_2, list_elem_of_In in Hi. exact Hi.
Qed.

(** X15: [otp_searcher] returns nothing when [connect] raises.  Otherwise a
    code it returns is a group of five digits, accepted by the format test
    of the bulk flow, of a message with a keyword and a date, read from
    ["Telegram"] or, when that history ended without an exception and
    offered no code, from [777000]; it returns nothing only when the chats
    it read offer no code; [777000] is not read when ["Telegram"] offers a
    code or its history raises; and in every case the last call is
    [disconnect]. *)
Theorem otp_searcher_reads_telegram_before_the_service_chat
    (session_string : string) (e : W) client e1 raised e2 telegram raised1 e3
    service raised2 e4 :
  session_client session_string e = (client, e1) ->
  client_connect pyro client e1 = (raised, e2) ->
  get_chat_history client (ChatName "Telegram") 50 e2 = ((telegram, raised1), e3) ->
  get_chat_history client (ChatId 777000) 50 e3 = ((service, raised2), e4) ->
  let r := otp_searcher pyro session_client get_chat_history session_string e in
  let no_offer messages := forall message, In message messages -> offers message = None in
  (is_Some raised -> r = (None, (client_disconnect pyro client e2).2)) /\
  (raised = None ->
   (forall code,
      r.1 = Some code ->
      otp_format_ok code = true /\
      exists message text,
        (In message telegram \/
         (In message service /\ raised1 = None /\ no_offer telegram)) /\
        message_text message = Some text /\ is_Some (message_date message) /\
        standalone_code text code /\
        exists keyword, In keyword otp_keywords /\
                        PyRe.contains keyword (PyStr.lower text) = true) /\
   (r.1 = None -> no_offer telegram /\ (raised1 = None -> no_offer service)) /\
   (is_Some raised1 \/ ~ no_offer telegram ->
    r.2 = (client_disconnect pyro client e3).2) /\
   (raised1 = None -> no_offer telegram ->
    r.2 = (client_disconnect pyro client e4).2)).
Proof.
  intros Hclient Hconnect Htelegram Hservice r no_offer. subst r.
  unfold otp_searcher. rewrite Hclient, Hconnect.
  split.
  - intros [err ->]. reflexivity.
  - intros ->. rewrite Htelegram.
    destruct (search_takes_nothing_iff telegram) as [Hnone Hnone'].
    destruct (search_history telegram None) as [[code0 t0]|] eqn:Hfound.
    + assert (Hsome : ~ no_offer telegram).
      { intros Hno. specialize (Hnone' Hno). discriminate. }
      assert (Hr : (let '(latest_otp, e5) :=
                      match raised1, Some (code0, t0) with
                      | None, None =>
                          let '((service0, _), e4') :=
                            get_chat_history client (ChatId 777000) 50 e3 in
                          (search_history service0 None, e4')
                      | _, _ => (Some (code0, t0), e3)
                      end in
                    (option_map fst latest_otp, (client_disconnect pyro client e5).2))
                   = (Some code0, (client_disconnect pyro client e3).2)).
      { destruct raised1; reflexivity. }
      rewrite Hr. simpl. split; [|split; [discriminate|split; [auto|intros ? Hno; contradiction]]].
      intros code [= <-].
      destruct (found_code_is_standalone telegram code0 t0 Hfound)
        as (Hfmt & message & text & Hin & Ht & Hd & Hst & Hk).
      split; [exact Hfmt|]. exists message, text.
      split; [left; exact Hin|]. split; [exact Ht|]. split; [rewrite Hd; eauto|]. auto.
    + specialize (Hnone eq_refl).
      destruct raised1 as [err|].
      * simpl. split; [discriminate|]. split; [split; [exact Hnone|discriminate]|].
        split; [intros ?; reflexivity|discriminate].
      * rewrite Hservice.
        destruct (search_takes_nothing_iff service) as [Snone Snone'].
        destruct (search_history service None) as [[code1 t1]|] eqn:Sfound; simpl.
        -- split; [|split; [discriminate|split; [|intros ? ?; reflexivity]]].
           ++ intros code [= <-].
              destruct (found_code_is_standalone service code1 t1 Sfound)
                as (Hfmt & message & text & Hin & Ht & Hd & Hst & Hk).
              split; [exact Hfmt|]. exists message, text.
              split; [right; auto|]. split; [exact Ht|].
              split; [rewrite Hd; eauto|]. auto.
           ++ intros [[? [=]]|Hno]; contradiction.
        -- split; [discriminate|].
           split; [intros ?; split; [exact Hnone | intros ?; exact (Snone eq_refl)]|].
           split; [|intros ? ?; reflexivity].
           intros [[? [=]]|Hno]; contradiction.
Qed.

End OtpSearcherFacts.

(** * The statements above at concrete inputs *)

Lemma reachable_numbers_are_valid_witness :
  exists st,
    (run_scripted pause_during_first pause_during_first_replies).1 !! admin = Some st /\
    numbers_well_formed st.
Proof.
  eexists. split; [vm_compute; reflexivity|].
  apply (reachable_numbers_are_valid (Some scripted) only_admin
           (List.map (fun ev => (admin, ev)) pause_during_first)
           (script pause_during_first_replies) admin).
  vm_compute. reflexivity.
Defined.


Lemma reachable_password_attempts_at_most_one_witness :
  exists st,
    (run_scripted
       [Pressed (bulk_account "India"); Typed "+911111111111"; Pressed start_bulk_add;
        Typed "12345"; Typed "first"]
       rejected_then_accepted_replies).1 !! admin = Some st /\
    password_attempts st = 1 /\
    password_attempts st <= 1 /\ (2 <? password_attempts st + 1) = false.
Proof.
  eexists. split; [vm_compute; reflexivity|]. split; [reflexivity|].
  apply (reachable_password_attempts_at_most_one (Some scripted) only_admin
           (List.map (fun ev => (admin, ev))
              [Pressed (bulk_account "India"); Typed "+911111111111";
               Pressed start_bulk_add; Typed "12345"; Typed "first"])
           (script rejected_then_accepted_replies) admin).
  vm_compute. reflexivity.
Defined.

Lemma numbers_are_tried_in_order_witness :
  let st := mkBulkState "India" ["+911111111111"; "+912222222222"; "+913333333333"]
              0 3 0 0 [] None None None None 0 confirm_numbers true in
  let w := script [ReplySend (SendFailed "PHONE_NUMBER_BANNED");
                   ReplySend (SendOk 1 "h2" 1)] in
  total_numbers st = length (phone_numbers st) /\
  exists extra k,
    calls (process_next_bulk_number (Some scripted) st w).2 = calls w ++ extra /\
    sent_phones extra = take k (drop (current_index st) (phone_numbers st)).
Proof.
  intros st w. split; [reflexivity|].
  destruct (numbers_are_tried_in_order (Some scripted) st w eq_refl)
    as (extra & k & H1 & H2 & _).
  exists extra, k. split; assumption.
Defined.

Lemma without_account_module_every_number_fails_witness :
  let st := mkBulkState "India" ["+911111111111"; "+912222222222"]
              0 2 0 0 [] None None None None 0 confirm_numbers false in
  let r := start_bulk_processing (@None (AccountManager (list Reply))) st (script []) in
  total_numbers st = length (phone_numbers st) /\
  r.1 = None /\ calls r.2 = [].
Proof.
  intros st r. split; [reflexivity|].
  destruct (without_account_module_every_number_fails st (script []) eq_refl)
    as (H1 & H2 & _).
  split; assumption.
Defined.

Lemma job_ends_with_summary_or_cancel_witness :
  let st := mkBulkState "India" ["+911111111111"] 0 1 0 0 []
              (Some 1) (Some "h1") (Some "+911111111111") (Some 1) 0 waiting_bulk_otp true in
  let r := handle_event (Some scripted) only_admin admin (Typed "skip") (Some st)
             (script []) in
  success_count st + failed_count st = current_index st /\
  r.1 = None /\
  (Typed "skip" = Pressed cancel_bulk \/
   exists success failed shown more,
     last (outbox r.2) =
       Some (MsgSummary (country st) (total_numbers st) success failed shown more) /\
     total_numbers st <= success + failed).
Proof.
  intros st r.
  assert (H0 : success_count st + failed_count st = current_index st) by reflexivity.
  assert (H1 : r.1 = None) by (vm_compute; reflexivity).
  split; [exact H0|]. split; [exact H1|].
  exact (job_ends_with_summary_or_cancel (Some scripted) only_admin admin (Typed "skip")
           st (script []) H0 H1).
Defined.


Lemma toy_disconnect_disconnects (c : Client) (e : list Client) :
  is_connected toy_pyrogram c (client_disconnect toy_pyrogram c e).2 = false.
Proof.
  simpl. unfold toy_connected. apply bool_decide_eq_false.
  intros H. apply list_elem_of_In, List.filter_In in H as [_ H].
  rewrite Nat.eqb_refl in H. discriminate.
Qed.

Lemma safe_disconnect_twice_witness :
  PyrogramClientManager.safe_disconnect toy_pyrogram (Some 1)
    (PyrogramClientManager.safe_disconnect toy_pyrogram (Some 1) [2; 1])
  = PyrogramClientManager.safe_disconnect toy_pyrogram (Some 1) [2; 1] /\
  is_connected toy_pyrogram 1
    (PyrogramClientManager.safe_disconnect toy_pyrogram (Some 1) [2; 1]) = false.
Proof.
  destruct (safe_disconnect_twice toy_pyrogram toy_disconnect_disconnects (Some 1) [2; 1])
    as (H1 & _ & H3).
  split; [exact H1 | exact (H3 1 eq_refl)].
Defined.

Lemma failed_send_releases_the_new_client_witness :
  let r := bulk_send_code_async toy_pyrogram 0 "+910000000000" [] in
  r.1 = SendFailed "FloodWait: Please wait 30 seconds" /\
  is_connected toy_pyrogram 1 r.2 = false.
Proof.
  intros r.
  assert (H : r.1 = SendFailed "FloodWait: Please wait 30 seconds")
    by (vm_compute; reflexivity).
  split; [exact H|].
  destruct (failed_send_releases_the_new_client toy_pyrogram 0 "+910000000000" [])
    as (_ & H2 & _).
  destruct (H2 _ H) as [_ H3]. exact (H3 toy_disconnect_disconnects).
Defined.

Lemma sign_in_errors_in_the_bulk_flow_witness :
  let st := mkBulkState "India" ["+911111111111"; "+912222222222"] 0 2 0 0 []
              (Some 1) (Some "hash-+911111111111") (Some "+911111111111") (Some 0) 0
              waiting_bulk_otp true in
  let w := mkWorld ([] : list Client) [] [] in
  let r := handle_bulk_otp_input (Some toy_manager) admin " 22222 " (Some st) w in
  otp_format_ok (PyStr.strip " 22222 ") = true /\
  r.1 = Some (set_password_attempts 0 (set_step waiting_bulk_password st)).
Proof.
  intros st w r.
  assert (F : otp_format_ok (PyStr.strip " 22222 ") = true) by (vm_compute; reflexivity).
  split; [exact F|].
  assert (E0 : PyrogramClientManager.ensure_connected toy_pyrogram (Some 1) (env w)
               = (None, [1])) by (vm_compute; reflexivity).
  assert (E1 : client_sign_in toy_pyrogram 1 (current_phone st)
                 (current_phone_code_hash st) (PyStr.strip " 22222 ") [1]
               = (Some SessionPasswordNeeded, [1])) by (vm_compute; reflexivity).
  destruct (sign_in_errors_in_the_bulk_flow toy_pyrogram 0 None admin " 22222 " st w 1 0
              eq_refl eq_refl eq_refl F [1] SessionPasswordNeeded [1] E0 E1) as [H _].
  subst r. unfold toy_manager. rewrite (H eq_refl). reflexivity.
Defined.

Lemma login_ends_release_the_client_witness :
  let state := mkLoginState waiting_otp (Some "India") (Some 1) (Some "+911111111111")
                 (Some "hash-+911111111111") (Some 0) in
  let tbl : gmap Z LoginState := {[ admin := state ]} in
  let r := handle_login_flow_messages toy_pyrogram 0 None true admin "00000" tbl [1] in
  tbl !! admin = Some state /\
  r.1.1 !! admin = None /\
  is_connected toy_pyrogram 1 r.1.2 = false /\
  (forall other, other <> admin -> r.1.1 !! other = tbl !! other).
Proof.
  intros state tbl r.
  assert (Ht : tbl !! admin = Some state) by (vm_compute; reflexivity).
  split; [exact Ht|].
  destruct (login_ends_release_the_client toy_pyrogram 0 None admin "00000" tbl [1]
              state 1 Ht eq_refl (or_introl eq_refl)) as [_ Hother].
  split; [vm_compute; reflexivity|]. split; [vm_compute; reflexivity | exact Hother].
Defined.

Lemma reachable_logins_are_complete_witness :
  exists state,
    (login_run toy_pyrogram 0 None true only_admin (fun _ _ => false)
       (fun _ => ["India"])
       [(admin, LoginPressed add_account);
        (admin, LoginPressed (login_country_ "India"));
        (admin, LoginPressed (single_account_ "India"));
        (admin, LoginTyped " +911111111111")] ∅ []).1.1 !! admin = Some state /\
    login_step state = waiting_otp /\
    login_entry_complete state.
Proof.
  eexists. split; [vm_compute; reflexivity|]. split; [reflexivity|].
  apply (reachable_logins_are_complete toy_pyrogram 0 None true only_admin
           (fun _ _ => false) (fun _ => ["India"])
           [(admin, LoginPressed add_account);
            (admin, LoginPressed (login_country_ "India"));
            (admin, LoginPressed (single_account_ "India"));
            (admin, LoginTyped " +911111111111")] [] admin).
  vm_compute. reflexivity.
Defined.

Lemma findall_gives_the_standalone_codes_witness :
  In "12345" (PyRe.findall "Login code: 12345. Do not give this code to anyone") /\
  standalone_code "Login code: 12345. Do not give this code to anyone" "12345" /\
  otp_format_ok "12345" = true.
Proof.
  assert (H : In "12345" (PyRe.findall "Login code: 12345. Do not give this code to anyone"))
    by (left; vm_compute; reflexivity).
  destruct (findall_gives_the_standalone_codes
              "Login code: 12345. Do not give this code to anyone" "12345") as [H1 H2].
  split; [exact H|]. split; [exact (proj1 H1 H) | exact (proj2 (H2 H))].
Defined.

Lemma search_takes_the_first_of_the_newest_codes_witness :
  let messages :=
    [mkChatMessage (Some "Login code: 11111") (Some 30%Z);
     mkChatMessage (Some "Your verification code is 22222") (Some 30%Z);
     mkChatMessage (Some "Login code: 33333") (Some 20%Z);
     mkChatMessage (Some "12345 is a number") (Some 40%Z)] in
  search_history messages None = Some ("11111", 30%Z) /\
  exists i message,
    messages !! i = Some message /\ offers message = Some ("11111", 30%Z).
Proof.
  intros messages.
  assert (H : search_history messages None = Some ("11111", 30%Z))
    by (vm_compute; reflexivity).
  split; [exact H|].
  destruct (search_takes_the_first_of_the_newest_codes messages) as [_ H2].
  destruct (H2 _ _ H) as (i & message & Hi & Ho & _).
  exists i, message. split; assumption.
Defined.

Lemma otp_searcher_reads_telegram_before_the_service_chat_witness :
  let session_client := fun (_ : string) (e : list Client) => (S (length e), e) in
  let get_chat_history :=
    fun (_ : Client) (chat : Chat) (_ : nat) (e : list Client) =>
      match chat with
      | ChatName _ => (([] : list ChatMessage, @None PyroError), e)
      | ChatId _ =>
          (([mkChatMessage (Some "Login code: 12345") (Some 5%Z)], @None PyroError), e)
      end in
  let r := otp_searcher toy_pyrogram session_client get_chat_history "session" [] in
  r.1 = Some "12345" /\ otp_format_ok "12345" = true /\ r.2 = [].
Proof.
  intros session_client get_chat_history r.
  assert (H : r.1 = Some "12345") by (vm_compute; reflexivity).
  destruct (otp_searcher_reads_telegram_before_the_service_chat toy_pyrogram
              session_client get_chat_history "session" [] 1 [] None [1] [] None [1]
              [mkChatMessage (Some "Login code: 12345") (Some 5%Z)] None [1]
              eq_refl eq_refl eq_refl eq_refl) as [_ H2].
  destruct (H2 eq_refl) as (Hcode & _).
  split; [exact H|]. split; [exact (proj1 (Hcode _ H)) | vm_compute; reflexivity].
Defined.

Lemma login_callbacks_touch_only_the_caller_witness :
  let state := mkLoginState waiting_otp (Some "India") (Some 1) (Some "+911111111111")
                 (Some "hash-+911111111111") (Some 0) in
  let tbl : gmap Z LoginState := {[ admin := state ]} in
  let r := login_callbacks toy_pyrogram true only_admin (fun _ _ => false)
             (fun _ => ["India"]) admin add_account tbl [1] in
  r.1.1 !! admin = Some (mkLoginState select_country None None None None None) /\
  r.1.2 = [1] /\
  is_connected toy_pyrogram 1 r.1.2 = true.
Proof.
  intros state tbl r.
  destruct (login_callbacks_touch_only_the_caller toy_pyrogram true only_admin
              (fun _ _ => false) (fun _ => ["India"]) admin add_account tbl [1])
    as (_ & H2 & _ & H4 & _).
  split; [exact (H4 eq_refl eq_refl eq_refl)|].
  split; [apply H2; discriminate|]. vm_compute. reflexivity.
Defined.

Lemma phone_step_records_or_releases_the_new_client_witness :
  let state := mkLoginState entering_phone (Some "India") None None None None in
  let tbl : gmap Z LoginState := {[ admin := state ]} in
  let r := handle_login_flow_messages toy_pyrogram 0 None true admin "+910000000000"
             tbl [] in
  tbl !! admin = Some state /\
  r.1.1 !! admin = None /\
  r.2 = [LoginSendFailed "FloodWait: Please wait 30 seconds"] /\
  (forall other, other <> admin -> r.1.1 !! other = tbl !! other).
Proof.
  intros state tbl r.
  assert (Ht : tbl !! admin = Some state) by (vm_compute; reflexivity).
  split; [exact Ht|].
  destruct (phone_step_records_or_releases_the_new_client toy_pyrogram 0 None true admin
              "+910000000000" tbl [] state Ht eq_refl) as [Hother _].
  split; [vm_compute; reflexivity|]. split; [vm_compute; reflexivity | exact Hother].
Defined.
